(** * FPL-Dashboard: the data handler of [src/fpl_data_handler.py]

    A shallow embedding of [FPLDataHandler]: the on-disk JSON cache, the
    cache-first / stale-fallback fetchers, and [calculate_rolling_averages].

    Conventions of the embedding.
    - The cache directory is a finite map from file path to a file (its
      modification time and its content); the remote API and the wall clock
      are oracles of the environment, consulted at the current tick of the
      world, so that a run may see the time pass and the service change.
    - Python's [None]/falsy tests are kept: a fetcher returns [option Doc], and
      [py_truthy] is the test [if cached_data:].
    - Python exceptions that escape a method ([KeyError], [ZeroDivisionError])
      are the [Raise] results of the monad [M]; [requests]' exceptions are
      caught inside each method and are the [None] answers of the remote.
    - A finite binary64 number is the rational [Qc] it denotes.  The rolling
      average and the points per 90 minutes, which the code rounds to two
      decimals, are computed as CPython computes them: [binary64] rounds a
      quotient or a product to the nearest binary64 number (ties to even),
      and [py_round2] is [round(x, 2)], the float nearest to the two-decimal
      rounding of the exact value of [x].  The exponent range is bounded
      below (subnormal numbers) but not above: a quotient of 2^1024 or
      more, which needs an integer of over 300 digits in a document, is not
      modelled.  Quotients that the code only stores and compares (a cost,
      an average difficulty) are kept exact.
    - Times are integers, in microseconds (the resolution of [datetime]). *)

From stdpp Require Import base numbers list strings gmap pretty sorting.
From Stdlib Require Import ZArith QArith Qcanon Lia Ascii.

Local Open Scope Z_scope.

(** ** JSON documents of the API, typed as the handler reads them *)

(** An entry of [bootstrap['events']]. *)
Record Event := mkEvent {
  event_id : Z;            (* event['id'] *)
  is_current : bool        (* event['is_current'] *)
}.

(** An entry of [bootstrap['teams']]. *)
Record Team := mkTeam {
  team_id : Z;             (* team['id'] *)
  team_name : string       (* team['name'] *)
}.

(** An entry of [bootstrap['elements']].  [form] and [ict_index] are [None]
    when the field is falsy (empty or null). *)
Record Player := mkPlayer {
  player_id : Z;           (* player['id'] *)
  web_name : string;
  team : Z;
  element_type : Z;
  now_cost : Z;
  form : option Qc;
  selected_by_percent : Qc;
  ict_index : option Qc
}.

(** The bootstrap-static document. *)
Record Bootstrap := mkBootstrap {
  elements : list Player;
  teams : list Team;
  events : list Event
}.

(** An entry of [element-summary['history']]. *)
Record Game := mkGame {
  round : Z;
  minutes : Z;
  total_points : Z;
  goals_scored : Z;
  assists : Z;
  bonus : Z
}.

(** A pick of [entry/{team}/event/{gw}/picks/]. *)
Record Pick := mkPick {
  pick_element : Z;
  is_captain : bool;
  is_vice_captain : bool;
  multiplier : Z
}.

(** A row of the result table: the dict appended to [results].  The display
    string ['Cost'] repeats [Cost_Numeric] and is left out; the two column
    names that embed the window are [Last_N_GW_Points] and
    [Rolling_N_Week_Avg]. *)
Record Summary := mkSummary {
  Player_name : string;      (* 'Player' *)
  Player_ID : Z;
  Team_name : string;        (* 'Team' *)
  Position : string;
  Cost_Numeric : Qc;
  Last_N_GW_Points : Z;
  Rolling_N_Week_Avg : Qc;
  Points_Per_90 : Qc;
  Goals : Z;
  Assists : Z;
  Bonus_Points : Z;
  Total_Minutes : Z;
  Form : Qc;
  Selected_By : Qc;
  ICT_Index : Qc
}.

(** [pd.DataFrame(results)]: the rows in order. *)
Abbreviation DataFrame := (list Summary).

(** A JSON document as it sits in a cache file or comes from the remote.
    [DocHistory None] is an element-summary object without a ['history'] key;
    [DocFalsy] stands for the falsy documents (null, an empty object or list). *)
Inductive Doc :=
| DocBootstrap (b : Bootstrap)
| DocHistory (history : option (list Game))
| DocPicks (picks : list Pick)
| DocResults (data : DataFrame) (timestamp : Z) (gameweek : Z)
| DocFalsy.

(** [if cached_data:] on what [load_from_cache] or a fetcher returned. *)
Definition py_truthy (d : option Doc) : bool :=
  match d with
  | None | Some DocFalsy => false
  | Some _ => true
  end.

(** ** World, environment and the monad of the handler *)

(** A file of the cache directory; [content = None] is a file that
    [json.load] cannot read. *)
Record CacheFile := mkCacheFile {
  mtime : Z;
  content : option Doc
}.

(** What streamlit was asked to show. *)
Inductive StMsg :=
| st_error (msg : string)
| st_warning (msg : string)
| st_success (processed successful : nat)
| st_subheader (msg : string)
| st_progress (i n : nat)
| st_status_text (name : string) (i n successful : nat)
| st_cleared.

Record World := mkWorld {
  cache : gmap string CacheFile;   (* the directory fpl_cache *)
  tick : nat;                      (* oracle consultations so far *)
  st_log : list StMsg;             (* newest first *)
  http_log : list string           (* URLs requested, newest first *)
}.

(** The remote answers a GET with a document, or fails ([None]: a
    [RequestException], which covers time-outs, refused connections and
    non-2xx statuses after [raise_for_status]). *)
Record Env := mkEnv {
  clock : nat → Z;
  remote : nat → string → option Doc
}.

Inductive PyExc :=
| KeyError (key : string)
| KeyErrorInt (key : Z)
| ZeroDivisionError.

Inductive Res (A : Type) :=
| Ok (a : A)
| Raise (e : PyExc).
Arguments Ok {A} a.
Arguments Raise {A} e.

Definition M (A : Type) : Type := Env → World → Res A * World.

Global Instance M_ret : MRet M := λ A a _ w, (Ok a, w).
Global Instance M_bind : MBind M := λ A B f m env w,
  match m env w with
  | (Ok a, w') => f a env w'
  | (Raise e, w') => (Raise e, w')
  end.

Definition raise {A} (e : PyExc) : M A := λ _ w, (Raise e, w).

(** The four ways a step changes the world. *)
Definition shown (m : StMsg) (w : World) : World :=
  mkWorld (cache w) (tick w) (m :: st_log w) (http_log w).
Definition ticked (w : World) : World :=
  mkWorld (cache w) (S (tick w)) (st_log w) (http_log w).
Definition requested (url : string) (w : World) : World :=
  mkWorld (cache w) (S (tick w)) (st_log w) (url :: http_log w).
Definition written (path : string) (f : CacheFile) (w : World) : World :=
  mkWorld (<[path := f]> (cache w)) (tick w) (st_log w) (http_log w).

Definition st_emit (m : StMsg) : M unit := λ _ w, (Ok (), shown m w).

(** [datetime.now()], and the time a write stamps on a file. *)
Definition read_clock : M Z := λ env w, (Ok (clock env (tick w)), ticked w).

(** [requests.get(url, timeout=..)], [raise_for_status()] and [.json()]. *)
Definition requests_get (url : string) : M (option Doc) := λ env w,
  (Ok (remote env (tick w) url), requested url w).

(** ** The cache store *)

Definition base_url : string := "https://fantasy.premierleague.com/api/".
Definition cache_dir : string := "fpl_cache".

Definition get_cache_file (cache_type : string) : string :=
  cache_dir +:+ "/" +:+ cache_type +:+ ".json".

Definition hours (h : Z) : Z := h * 3600000000.

Definition is_cache_valid (cache_type : string) (max_age_hours : Z) : M bool := λ env w,
  match cache w !! get_cache_file cache_type with
  | None => (Ok false, w)
  | Some f =>
      (now ← read_clock;
       mret (bool_decide (now - mtime f < hours max_age_hours))) env w
  end.

Definition load_from_cache (cache_type : string) : M (option Doc) := λ env w,
  match cache w !! get_cache_file cache_type with
  | None => (Ok None, w)
  | Some f =>
      match content f with
      | Some d => (Ok (Some d), w)
      | None => (st_emit (st_warning "Could not load cache");; mret None) env w
      end
  end.

Definition write_file (path : string) (f : CacheFile) : M unit := λ _ w,
  (Ok (), written path f w).

(** [json.dump] into the file; the write is taken to succeed, and the file
    gets the time of the write as its modification time. *)
Definition save_to_cache (cache_type : string) (data : Doc) : M unit :=
  now ← read_clock;
  write_file (get_cache_file cache_type) (mkCacheFile now (Some data)).

(** The block every fetcher opens with:
    [if self.is_cache_valid(key, h): cached = self.load_from_cache(key);
     if cached: return cached].  [None] means "fall through to the fetch". *)
Definition cache_first (cache_key : string) (max_age_hours : Z) : M (option Doc) :=
  valid ← is_cache_valid cache_key max_age_hours;
  if valid : bool then
    cached_data ← load_from_cache cache_key;
    mret (if py_truthy cached_data then cached_data else None)
  else mret None.

(** ** Fetchers *)

Definition bootstrap_url : string := base_url +:+ "bootstrap-static/".

Definition get_bootstrap_data : M (option Doc) :=
  hit ← cache_first "bootstrap" 6;
  match hit with
  | Some d => mret (Some d)
  | None =>
      response ← requests_get bootstrap_url;
      match response with
      | Some data => save_to_cache "bootstrap" data;; mret (Some data)
      | None =>
          st_emit (st_error "Error fetching bootstrap data");;
          cached_data ← load_from_cache "bootstrap";
          if py_truthy cached_data then
            st_emit (st_warning "Using stale cached data as fallback");;
            mret cached_data
          else mret None
      end
  end.

Definition player_cache_key (player_id : Z) : string := "player_" +:+ pretty player_id.

Definition history_url (player_id : Z) : string :=
  base_url +:+ "element-summary/" +:+ pretty player_id +:+ "/".

Definition get_player_history (player_id : Z) : M (option Doc) :=
  let cache_key := player_cache_key player_id in
  hit ← cache_first cache_key 24;
  match hit with
  | Some d => mret (Some d)
  | None =>
      response ← requests_get (history_url player_id);
      match response with
      | Some data => save_to_cache cache_key data;; mret (Some data)
      | None =>
          cached_data ← load_from_cache cache_key;
          mret (if py_truthy cached_data then cached_data else None)
      end
  end.

(** The loop [for event in events: if event['is_current']: gw = event['id']; break]. *)
Fixpoint find_current (evs : list Event) : option Z :=
  match evs with
  | [] => None
  | e :: rest => if is_current e then Some (event_id e) else find_current rest
  end.

(** An [int] or [None] tested by [if gameweek:] / [if not current_gw:]. *)
Definition gw_truthy (gw : option Z) : bool :=
  match gw with
  | Some g => negb (g =? 0)
  | None => false
  end.

Definition team_cache_key (team_id : Z) (gameweek : option Z) : string :=
  "team_" +:+ pretty team_id +:+ "_" +:+
  (match gameweek with
   | Some g => if g =? 0 then "current" else pretty g
   | None => "current"
   end).

Definition picks_url (team_id gameweek : Z) : string :=
  base_url +:+ "entry/" +:+ pretty team_id +:+ "/event/" +:+ pretty gameweek +:+ "/picks/".

Definition get_team_data (team_id : Z) (gameweek : option Z) : M (option Doc) :=
  let cache_key := team_cache_key team_id gameweek in
  hit ← cache_first cache_key 2;
  match hit with
  | Some d => mret (Some d)
  | None =>
      gameweek ←
        (if gw_truthy gameweek then mret gameweek
         else
           bootstrap_data ← get_bootstrap_data;
           if py_truthy bootstrap_data then
             match bootstrap_data with
             | Some (DocBootstrap b) =>
                 mret (match find_current (events b) with
                       | Some g => Some g
                       | None => gameweek
                       end)
             | _ => raise (KeyError "events")
             end
           else mret gameweek);
      match gameweek with
      | Some g =>
          if g =? 0 then mret None
          else
            response ← requests_get (picks_url team_id g);
            match response with
            | Some team_data => save_to_cache cache_key team_data;; mret (Some team_data)
            | None => st_emit (st_error "Error fetching team data");; mret None
            end
      | None => mret None
      end
  end.

(** ** Python arithmetic and list operations used by the aggregator *)

Global Instance Res_ret : MRet Res := λ A a, Ok a.
Global Instance Res_bind : MBind Res := λ A B f r,
  match r with
  | Ok a => f a
  | Raise e => Raise e
  end.

(** A pure computation that may raise, run inside the handler. *)
Definition lift {A} (r : Res A) : M A := λ _ w, (r, w).

(** [a / b] on two ints: true division, as the exact quotient. *)
Definition py_truediv (a b : Z) : Res Qc :=
  if b =? 0 then Raise ZeroDivisionError else Ok (Qc_of_Z a / Qc_of_Z b)%Qc.

(** The integer nearest to [q], halves going to the even neighbour. *)
Definition round_half_even (q : Qc) : Z :=
  let n := Qnum (this q) in
  let d := Z.pos (Qden (this q)) in
  let fl := n `div` d in
  match Z.compare (2 * (n `mod` d)) d with
  | Lt => fl
  | Gt => fl + 1
  | Eq => if Z.even fl then fl else fl + 1
  end.

(** [2 ** e] as a rational, for an exponent of either sign. *)
Definition pow2 (e : Z) : Qc :=
  if 0 <=? e then Qc_of_Z (2 ^ e) else (/ Qc_of_Z (2 ^ (- e)))%Qc.

(** The exponent of the last bit of the binary64 numbers around [q], for [q]
    other than 0: the [e] with [2^52 <= |q| / 2^e < 2^53], and -1074 where
    that would be less (the subnormal numbers). *)
Definition binary64_exponent (q : Qc) : Z :=
  let n := Z.abs (Qnum (this q)) in
  let d := Z.pos (Qden (this q)) in
  let e0 := Z.log2 n - Z.log2 d - 53 in
  let e1 := if d * 2 ^ (53 + Z.max e0 0) <=? n * 2 ^ Z.max (- e0) 0 then e0 + 1 else e0 in
  Z.max e1 (-1074).

(** The binary64 number nearest to [q], a tie going to the even significand:
    the rounding of IEEE 754 that every float operation of CPython ends
    with. *)
Definition binary64 (q : Qc) : Qc :=
  if decide (q = Qc_of_Z 0) then Qc_of_Z 0
  else
    let e := binary64_exponent q in
    (Qc_of_Z (round_half_even (q * pow2 (- e))) * pow2 e)%Qc.

(** [a / b] on two ints, as a float: CPython rounds the exact quotient
    once. *)
Definition float_truediv (a b : Z) : Res Qc :=
  if b =? 0 then Raise ZeroDivisionError else Ok (binary64 (Qc_of_Z a / Qc_of_Z b)).

(** [x * y] on two floats. *)
Definition float_mul (x y : Qc) : Qc := binary64 (x * y).

(** [round(x, 2)] on a float: CPython rounds the exact value of [x] to two
    decimals, a tie going to the even digit, and returns the float nearest to
    that decimal. *)
Definition py_round2 (x : Qc) : Qc :=
  binary64 (Qc_of_Z (round_half_even (x * Qc_of_Z 100)) / Qc_of_Z 100).

(** [l[:n]] for an int [n] of either sign. *)
Definition py_slice_to {A} (n : Z) (l : list A) : list A :=
  if 0 <=? n then take (Z.to_nat n) l
  else take (Z.to_nat (Z.of_nat (length l) + n)) l.

(** [sum(f(game) for game in games)]. *)
Definition py_sum (f : Game → Z) (games : list Game) : Z :=
  foldl (λ acc game, acc + f game) 0 games.

(** [d[k]] on a dict with int keys. *)
Definition dict_get (d : gmap Z string) (k : Z) : Res string :=
  match d !! k with
  | Some v => Ok v
  | None => Raise (KeyErrorInt k)
  end.

(** [games.sort(key=lambda x: x['round'], reverse=True)]: Python's sort is
    stable, also under [reverse=True]; an insertion from the right that puts
    the new game before every game of a round not greater than its own. *)
Fixpoint insert_by_round (game : Game) (sorted : list Game) : list Game :=
  match sorted with
  | [] => [game]
  | h :: t =>
      if round h <=? round game then game :: h :: t
      else h :: insert_by_round game t
  end.

Definition sort_by_round_desc (games : list Game) : list Game :=
  foldr insert_by_round [] games.

(** ** The aggregator *)

(** [{team['id']: team['name'] for team in bootstrap_data['teams']}]: a later
    team of the same id overwrites an earlier one. *)
Definition teams_dict (ts : list Team) : gmap Z string :=
  foldl (λ d t, <[team_id t := team_name t]> d) ∅ ts.

Definition positions : gmap Z string :=
  <[1 := "Goalkeeper"]> (<[2 := "Defender"]> (<[3 := "Midfielder"]> (<[4 := "Forward"]> ∅))).

(** [history_data.get('history', [])] on a truthy document. *)
Definition doc_history (d : option Doc) : list Game :=
  match d with
  | Some (DocHistory (Some h)) => h
  | _ => []
  end.

(** The filter of lines 229-232. *)
Definition qualifying (current_gw : Z) (history : list Game) : list Game :=
  filter (λ game, round game ≤ current_gw ∧ minutes game > 0) history.

(** [recent_games] after the sort of line 233. *)
Definition recent_games (current_gw : Z) (history : list Game) : list Game :=
  sort_by_round_desc (qualifying current_gw history).

(** [ppm90] of line 242. *)
Definition points_per_90 (total_points total_minutes : Z) : Res Qc :=
  if 0 <? total_minutes then
    q ← float_truediv total_points total_minutes;
    mret (float_mul q (Qc_of_Z 90))
  else mret (Qc_of_Z 0).

(** Lines 226-266: the row of one player from its history, [None] when the
    player has too few games for the window. *)
Definition summarise (weeks current_gw : Z) (player : Player)
    (team_name position : string) (cost : Qc) (history : list Game)
    : Res (option Summary) :=
  let recent := recent_games current_gw history in
  if weeks <=? Z.of_nat (length recent) then
    let last_n_games := py_slice_to weeks recent in
    let total_points := py_sum total_points last_n_games in
    rolling_avg ← float_truediv total_points weeks;
    let total_minutes := py_sum minutes last_n_games in
    ppm90 ← points_per_90 total_points total_minutes;
    let total_goals := py_sum goals_scored last_n_games in
    let total_assists := py_sum assists last_n_games in
    let total_bonus := py_sum bonus last_n_games in
    mret (Some {|
      Player_name := web_name player;
      Player_ID := player_id player;
      Team_name := team_name;
      Position := position;
      Cost_Numeric := cost;
      Last_N_GW_Points := total_points;
      Rolling_N_Week_Avg := py_round2 rolling_avg;
      Points_Per_90 := py_round2 ppm90;
      Goals := total_goals;
      Assists := total_assists;
      Bonus_Points := total_bonus;
      Total_Minutes := total_minutes;
      Form := default (Qc_of_Z 0) (form player);
      Selected_By := selected_by_percent player;
      ICT_Index := default (Qc_of_Z 0) (ict_index player)
    |})
  else mret None.

(** The locals the loop carries from one player to the next. *)
Record LoopState := mkLoopState {
  results : list Summary;
  processed_count : nat;
  successful_count : nat
}.

(** Lines 221-267 of an iteration, once [history_data] is there: the
    counters, the [continue] on a falsy answer, the row. *)
Definition finish_player (weeks current_gw : Z) (player : Player)
    (team_name position : string) (cost : Qc) (st : LoopState)
    (history_data : option Doc) : Res LoopState :=
  let processed := S (processed_count st) in
  if py_truthy history_data then
    row ← summarise weeks current_gw player team_name position cost
            (doc_history history_data);
    match row with
    | Some r => mret (mkLoopState (results st ++ [r]) processed (S (successful_count st)))
    | None => mret (mkLoopState (results st) processed (successful_count st))
    end
  else mret (mkLoopState (results st) processed (successful_count st)).

(** The progress bar and status text of lines 205-218 ([n] is
    [len(players)]); the elapsed-time estimate of the text is not kept. *)
Definition show_progress (use_progress : bool) (n i : nat) (player : Player)
    (st : LoopState) : M unit :=
  if use_progress then
    st_emit (st_progress (S i) n);;
    st_emit (st_status_text (web_name player) (S i) n (successful_count st))
  else mret ().

(** One iteration of [for i, player in enumerate(players)] (lines 197-267). *)
Definition loop_body (weeks : Z) (use_progress : bool) (current_gw : Z)
    (teams_d : gmap Z string) (n i : nat) (player : Player) (st : LoopState)
    : M LoopState :=
  team_name ← lift (dict_get teams_d (team player));
  position ← lift (dict_get positions (element_type player));
  let cost := (Qc_of_Z (now_cost player) / Qc_of_Z 10)%Qc in
  show_progress use_progress n i player st;;
  history_data ← get_player_history (player_id player);
  lift (finish_player weeks current_gw player team_name position cost st history_data).

Fixpoint players_loop (weeks : Z) (use_progress : bool) (current_gw : Z)
    (teams_d : gmap Z string) (n i : nat) (players : list Player) (st : LoopState)
    : M LoopState :=
  match players with
  | [] => mret st
  | player :: rest =>
      st' ← loop_body weeks use_progress current_gw teams_d n i player st;
      players_loop weeks use_progress current_gw teams_d n (S i) rest st'
  end.

(** [DataFrame.sort_values(column, ascending=False)] with pandas' default
    [kind='quicksort']: pandas documents the rows to come back reordered by
    the column, and names only 'mergesort' and 'stable' as stable kinds.  The
    handler is verified against that contract. *)
Class Pandas := {
  sort_values : DataFrame → DataFrame;
  sort_values_perm : ∀ df, sort_values df ≡ₚ df;
  sort_values_desc : ∀ df,
    Sorted (λ a b, Rolling_N_Week_Avg b ≤ Rolling_N_Week_Avg a)%Qc (sort_values df)
}.

Definition results_cache_key (weeks : Z) : string := "results_" +:+ pretty weeks +:+ "wk".

(** A sort that meets the contract, for the examples: a merge sort by the
    column. *)
Definition by_avg_desc (a b : Summary) : Prop :=
  (Rolling_N_Week_Avg b ≤ Rolling_N_Week_Avg a)%Qc.

Global Instance by_avg_desc_dec : RelDecision by_avg_desc := λ a b, Qc_le_dec _ _.
Global Instance by_avg_desc_total : Total by_avg_desc := λ a b, Qc_le_total _ _.

Definition pandas_mergesort : Pandas := {|
  sort_values := merge_sort by_avg_desc;
  sort_values_perm := merge_sort_Permutation by_avg_desc;
  sort_values_desc := Sorted_merge_sort by_avg_desc
|}.

(** The message of lines 183-184. *)
Definition season_over : StMsg :=
  st_warning "No current gameweek found - season may be over".

(** Lines 187-190: the progress widgets are set up. *)
Definition show_setup (use_progress : bool) (n : nat) : M unit :=
  if use_progress then
    st_emit (st_subheader "Data Collection Progress");;
    st_emit (st_progress 0 n);;
    st_emit st_cleared
  else mret ().

(** Lines 270-275: the widgets are cleared and the totals shown. *)
Definition show_done (use_progress : bool) (st : LoopState) : M unit :=
  (if use_progress then st_emit st_cleared;; st_emit st_cleared else mret ());;
  st_emit (st_success (processed_count st) (successful_count st)).

Definition calculate_rolling_averages `{Pandas} (weeks : Z) (use_progress : bool)
    : M DataFrame :=
  bootstrap_data ← get_bootstrap_data;
  if negb (py_truthy bootstrap_data) then
    st_emit (st_error "Could not load FPL data. Check your internet connection.");;
    mret []
  else
    match bootstrap_data with
    | Some (DocBootstrap b) =>
        let players := elements b in
        let teams_d := teams_dict (teams b) in
        let current_gw := find_current (events b) in
        match current_gw with
        | Some gw =>
            if gw =? 0 then
              st_emit season_over;;
              mret []
            else
              show_setup use_progress (length players);;
              st ← players_loop weeks use_progress gw teams_d (length players) 0 players
                     (mkLoopState [] 0 0);
              show_done use_progress st;;
              match results st with
              | [] => mret []
              | _ :: _ =>
                  let df := sort_values (results st) in
                  timestamp ← read_clock;
                  save_to_cache (results_cache_key weeks) (DocResults df timestamp gw);;
                  mret df
              end
        | None =>
            st_emit season_over;;
            mret []
        end
    | _ => raise (KeyError "elements")
    end.

(** ** Vocabulary of the statements *)

(** The world after [show_progress]. *)
Definition progress_world (use_progress : bool) (n i : nat) (player : Player)
    (st : LoopState) (w : World) : World :=
  if use_progress then
    shown (st_status_text (web_name player) (S i) n (successful_count st))
      (shown (st_progress (S i) n) w)
  else w.

(** The worlds after [show_setup] and [show_done]. *)
Definition setup_world (use_progress : bool) (n : nat) (w : World) : World :=
  if use_progress then
    shown st_cleared (shown (st_progress 0 n)
      (shown (st_subheader "Data Collection Progress") w))
  else w.

Definition done_world (use_progress : bool) (st : LoopState) (w : World) : World :=
  shown (st_success (processed_count st) (successful_count st))
    (if use_progress then shown st_cleared (shown st_cleared w) else w).

(** A lookup of lines 200-201 fails for [player]. *)
Definition lookup_fails (teams_d : gmap Z string) (player : Player) : Prop :=
  teams_d !! team player = None ∨ positions !! element_type player = None.

(** [games] is in the order of rounds, latest first. *)
Definition latest_first (games : list Game) : Prop :=
  Sorted (λ a b, round b ≤ round a) games.

(** The row [summarise] builds from a window. *)
Definition row_of (weeks : Z) (player : Player) (team_name position : string)
    (cost : Qc) (window : list Game) : Summary := {|
  Player_name := web_name player;
  Player_ID := player_id player;
  Team_name := team_name;
  Position := position;
  Cost_Numeric := cost;
  Last_N_GW_Points := py_sum total_points window;
  Rolling_N_Week_Avg :=
    py_round2 (binary64 (Qc_of_Z (py_sum total_points window) / Qc_of_Z weeks));
  Points_Per_90 :=
    py_round2 (if 0 <? py_sum minutes window
               then float_mul
                      (binary64 (Qc_of_Z (py_sum total_points window)
                                 / Qc_of_Z (py_sum minutes window)))
                      (Qc_of_Z 90)
               else Qc_of_Z 0);
  Goals := py_sum goals_scored window;
  Assists := py_sum assists window;
  Bonus_Points := py_sum bonus window;
  Total_Minutes := py_sum minutes window;
  Form := default (Qc_of_Z 0) (form player);
  Selected_By := selected_by_percent player;
  ICT_Index := default (Qc_of_Z 0) (ict_index player)
|}.

(** The world after the table was saved (lines 282-287). *)
Definition saved_world (weeks gw : Z) (df : DataFrame) (env : Env) (w : World) : World :=
  written (get_cache_file (results_cache_key weeks))
    (mkCacheFile (clock env (S (tick w))) (Some (DocResults df (clock env (tick w)) gw)))
    (ticked (ticked w)).

(** The cache holds under [key] the readable, truthy document [d], younger
    than [h] hours at every reading of the clock. *)
Definition fresh_entry (env : Env) (c : gmap string CacheFile) (key : string)
    (h : Z) (d : Doc) : Prop :=
  ∃ f, c !! get_cache_file key = Some f
       ∧ content f = Some d
       ∧ py_truthy (Some d) = true
       ∧ ∀ t, clock env t - mtime f < hours h.

(** The cache is populated and fresh for the snapshot [b]: the snapshot
    itself and the history of each of its players. *)
Definition populated (env : Env) (c : gmap string CacheFile) (b : Bootstrap) : Prop :=
  fresh_entry env c "bootstrap" 6 (DocBootstrap b)
  ∧ Forall (λ p, ∃ d, fresh_entry env c (player_cache_key (player_id p)) 24 d)
      (elements b).

(** The document a cache file holds. *)
Definition cached_doc (c : gmap string CacheFile) (key : string) : option Doc :=
  f ← c !! get_cache_file key; content f.

(** What an iteration returns when the history of the player is
    [history_data]. *)
Definition iteration_result (weeks gw : Z) (teams_d : gmap Z string) (player : Player)
    (st : LoopState) (history_data : option Doc) : Res LoopState :=
  team_name ← dict_get teams_d (team player);
  position ← dict_get positions (element_type player);
  finish_player weeks gw player team_name position
    (Qc_of_Z (now_cost player) / Qc_of_Z 10)%Qc st history_data.

(** The loop, and the table, read off the documents of the cache. *)
Fixpoint loop_on_cache (weeks gw : Z) (teams_d : gmap Z string)
    (c : gmap string CacheFile) (players : list Player) (st : LoopState)
    : Res LoopState :=
  match players with
  | [] => Ok st
  | player :: rest =>
      st' ← iteration_result weeks gw teams_d player st
              (cached_doc c (player_cache_key (player_id player)));
      loop_on_cache weeks gw teams_d c rest st'
  end.

Definition table_on_cache `{Pandas} (weeks : Z) (c : gmap string CacheFile)
    (b : Bootstrap) : Res DataFrame :=
  match find_current (events b) with
  | Some gw =>
      if gw =? 0 then Ok []
      else
        st ← loop_on_cache weeks gw (teams_dict (teams b)) c (elements b)
               (mkLoopState [] 0 0);
        Ok (match results st with
            | [] => []
            | _ :: _ => sort_values (results st)
            end)
  | None => Ok []
  end.

(** The row the loop makes of the history that the cache [c] holds for
    [player], if that history fills the window. *)
Definition cache_row (weeks gw : Z) (teams_d : gmap Z string)
    (c : gmap string CacheFile) (player : Player) : option Summary :=
  let history_data := cached_doc c (player_cache_key (player_id player)) in
  let recent := recent_games gw (doc_history history_data) in
  team_name ← teams_d !! team player;
  position ← positions !! element_type player;
  if py_truthy history_data && (weeks <=? Z.of_nat (length recent)) then
    Some (row_of weeks player team_name position
            (Qc_of_Z (now_cost player) / Qc_of_Z 10)%Qc (py_slice_to weeks recent))
  else None.

(** ** A small league, for the examples *)

Definition game (r m p : Z) : Game := mkGame r m p 0 0 0.

Definition salah : Player :=
  mkPlayer 10 "Salah" 1 3 125 (Some (Qc_of_Z 5)) (Qc_of_Z 40) None.
Definition haaland : Player :=
  mkPlayer 20 "Haaland" 2 4 150 None (Qc_of_Z 60) None.
(** A player of a team that the snapshot does not list. *)
Definition ghost : Player :=
  mkPlayer 30 "Ghost" 9 3 40 None (Qc_of_Z 1) None.

Definition league_teams : list Team := [mkTeam 1 "Liverpool"; mkTeam 2 "Man City"].
Definition gameweek_5 : list Event := [mkEvent 4 false; mkEvent 5 true; mkEvent 6 false].
Definition off_season : list Event := [mkEvent 37 false; mkEvent 38 false].

Definition snapshot : Bootstrap := mkBootstrap [salah; haaland] league_teams gameweek_5.
Definition snapshot_empty : Bootstrap := mkBootstrap [] league_teams gameweek_5.
Definition snapshot_ghost : Bootstrap := mkBootstrap [salah; ghost; haaland] league_teams gameweek_5.
Definition snapshot_off_season : Bootstrap := mkBootstrap [salah; haaland] league_teams off_season.

(** Both players have five points over their last three games. *)
Definition salah_games : list Game :=
  [game 3 90 2; game 4 90 2; game 5 90 1; game 6 90 12].
Definition haaland_games : list Game :=
  [game 2 0 0; game 3 90 1; game 4 90 2; game 5 90 2].
(** Seven points in eighty minutes, three times. *)
Definition steady_games : list Game :=
  [game 3 80 7; game 4 80 7; game 5 80 7].

Definition squad : list Pick := [mkPick 10 true false 2; mkPick 20 false true 1].

(** A service that answers for [b] and the two histories. *)
Definition service (b : Bootstrap) : nat → string → option Doc := λ _ url,
  if decide (url = bootstrap_url) then Some (DocBootstrap b)
  else if decide (url = history_url 10) then Some (DocHistory (Some salah_games))
  else if decide (url = history_url 20) then Some (DocHistory (Some haaland_games))
  else None.

(** The service is up and the clock stands at [h] hours; the service is down. *)
Definition env_up (b : Bootstrap) (h : Z) : Env := mkEnv (λ _, hours h) (service b).
Definition env_down (h : Z) : Env := mkEnv (λ _, hours h) (λ _ _, None).

Definition world_of (c : gmap string CacheFile) : World := mkWorld c 0 [] [].

(** Cache directories: one with the snapshot only, one with the snapshot and
    both histories, one with the picks of team 7 besides an off-season
    snapshot; every file was written at time 0. *)
Definition cache_snapshot : gmap string CacheFile :=
  {[ get_cache_file "bootstrap" := mkCacheFile 0 (Some (DocBootstrap snapshot)) ]}.
Definition cache_full : gmap string CacheFile :=
  <[ get_cache_file (player_cache_key 10) := mkCacheFile 0 (Some (DocHistory (Some salah_games))) ]>
  (<[ get_cache_file (player_cache_key 20) := mkCacheFile 0 (Some (DocHistory (Some haaland_games))) ]>
   cache_snapshot).
Definition cache_picks : gmap string CacheFile :=
  <[ get_cache_file (team_cache_key 7 None) := mkCacheFile 0 (Some (DocPicks squad)) ]>
  {[ get_cache_file "bootstrap" := mkCacheFile 0 (Some (DocBootstrap snapshot_off_season)) ]}.

(** The picks of team 7 are in the cache, written two hours before the others. *)
Definition cache_picks_stale : gmap string CacheFile :=
  <[ get_cache_file (team_cache_key 7 None) := mkCacheFile (hours (-2)) (Some (DocPicks squad)) ]>
  cache_picks.

(** * The rest of the program *)

(** ** The rest of the handler *)

(** [get_fixtures] (lines 140-157).  The document is one of [Doc] like any
    other the cache holds; the method never looks into it. *)
Definition fixtures_url : string := base_url +:+ "fixtures/".

Definition get_fixtures : M (option Doc) :=
  let cache_key := "fixtures" in
  hit ← cache_first cache_key 12;
  match hit with
  | Some d => mret (Some d)
  | None =>
      response ← requests_get fixtures_url;
      match response with
      | Some fixtures => save_to_cache cache_key fixtures;; mret (Some fixtures)
      | None => mret None
      end
  end.

(** ** Vocabulary for the runs *)

(** The players of the snapshot a fetch answered with, none if it did not. *)
Definition snapshot_players (answer : Res (option Doc)) : list Player :=
  match answer with
  | Ok (Some (DocBootstrap b)) => elements b
  | _ => []
  end.

(** [rows] are the rows the loop appends for [players], in order: each
    comes from one player whose lookups succeed and whose history, whatever
    was fetched, has at least [weeks] qualifying games; the other players
    give no row. *)
Inductive emitted (weeks gw : Z) (teams_d : gmap Z string)
    : list Player → list Summary → Prop :=
| emitted_nil : emitted weeks gw teams_d [] []
| emitted_skip p players rows :
    emitted weeks gw teams_d players rows →
    emitted weeks gw teams_d (p :: players) rows
| emitted_row p players rows team_name position history :
    teams_d !! team p = Some team_name →
    positions !! element_type p = Some position →
    weeks ≠ 0 →
    weeks ≤ Z.of_nat (length (recent_games gw history)) →
    emitted weeks gw teams_d players rows →
    emitted weeks gw teams_d (p :: players)
      (row_of weeks p team_name position (Qc_of_Z (now_cost p) / Qc_of_Z 10)%Qc
         (py_slice_to weeks (recent_games gw history)) :: rows).

(** ** The dashboard page ([src/dashboard.py]) *)

(** Lines 65-71 of [main_page] (and lines 28-36 of [src/main.py], for the
    window 3): the table of the results file, when the file is younger than
    six hours and holds a document with a ['data'] key. *)
Definition load_cached_results (weeks : Z) : M (option DataFrame) :=
  let cache_key := results_cache_key weeks in
  valid ← is_cache_valid cache_key 6;
  if valid : bool then
    cached_data ← load_from_cache cache_key;
    mret (match cached_data with
          | Some (DocResults data _ _) => Some data
          | _ => None
          end)
  else mret None.

(** Lines 92-97 of [main_page]: the filters of the side bar. *)
Definition apply_filters (selected_position : string) (min_minutes : Z)
    (min_cost max_cost : Qc) (df : DataFrame) : DataFrame :=
  let df := if decide (selected_position = "All") then df
            else filter (λ r, Position r = selected_position) df in
  let df := filter (λ r, min_minutes ≤ Total_Minutes r) df in
  let df := filter (λ r, (min_cost ≤ Cost_Numeric r)%Qc) df in
  filter (λ r, (Cost_Numeric r ≤ max_cost)%Qc) df.

(** Lines 112-117: the player and the average of the "Top Performer"
    metric, [None] for "N/A". *)
Definition top_performer (df : DataFrame) : option (string * Qc) :=
  match df with
  | r :: _ => Some (Player_name r, Rolling_N_Week_Avg r)
  | [] => None
  end.

(** A row passes the filters of the side bar. *)
Definition passes (selected_position : string) (min_minutes : Z)
    (min_cost max_cost : Qc) (r : Summary) : Prop :=
  (selected_position = "All" ∨ Position r = selected_position)
  ∧ min_minutes ≤ Total_Minutes r
  ∧ (min_cost ≤ Cost_Numeric r)%Qc ∧ (Cost_Numeric r ≤ max_cost)%Qc.

Global Instance passes_dec sp mm lo hi r : Decision (passes sp mm lo hi r).
Proof. unfold passes. apply _. Defined.

(** ** The team page ([src/team_analysis.py]) *)

(** A row of [team_players] (lines 63-77 and 80-94); the display string
    ['Cost'] is left out as in [Summary]. *)
Record TeamPlayer := mkTeamPlayer {
  tp_Player : string;
  tp_Player_ID : Z;
  tp_Team : string;
  tp_Position : string;
  tp_Cost_Numeric : Qc;
  tp_Rolling_Avg : Qc;
  tp_Points_Per_90 : Qc;
  tp_Form : Qc;
  tp_Selected_By : Qc;
  tp_Is_Captain : bool;
  tp_Is_Vice_Captain : bool;
  tp_Multiplier : Z
}.

(** [next((p for p in bootstrap_data['elements'] if p['id'] == player_id), None)]. *)
Definition find_player (players : list Player) (id : Z) : option Player :=
  head (filter (λ p, player_id p = id) players).

(** Lines 35-44: the rows of the rolling table for the player.  A table
    without rows has no columns ([pd.DataFrame()] and [pd.DataFrame([])]), so
    that the test ['Player_ID' in all_players_df.columns] fails on it and the
    match by name reads the missing column ['Player']. *)
Definition player_rolling_data (teams_d : gmap Z string) (all_players_df : DataFrame)
    (player_data : Player) : Res DataFrame :=
  match all_players_df with
  | _ :: _ => Ok (filter (λ r, Player_ID r = player_id player_data) all_players_df)
  | [] =>
      team_name ← dict_get teams_d (team player_data);
      Raise (KeyError "Player")
  end.

(** Lines 33-94: the row of one pick whose player the snapshot has.  Whatever
    the window of the table, its one rolling-average column is the one read
    (by its name, or as the first column of that kind). *)
Definition team_player_row (teams_d : gmap Z string) (all_players_df : DataFrame)
    (pick : Pick) (player_data : Player) : Res TeamPlayer :=
  rolling ← player_rolling_data teams_d all_players_df player_data;
  team_name ← dict_get teams_d (team player_data);
  position ← dict_get positions (element_type player_data);
  let cost := (Qc_of_Z (now_cost player_data) / Qc_of_Z 10)%Qc in
  match rolling with
  | player_row :: _ =>
      mret {|
        tp_Player := web_name player_data;
        tp_Player_ID := pick_element pick;
        tp_Team := team_name;
        tp_Position := position;
        tp_Cost_Numeric := cost;
        tp_Rolling_Avg := Rolling_N_Week_Avg player_row;
        tp_Points_Per_90 := Points_Per_90 player_row;
        tp_Form := Form player_row;
        tp_Selected_By := Selected_By player_row;
        tp_Is_Captain := is_captain pick;
        tp_Is_Vice_Captain := is_vice_captain pick;
        tp_Multiplier := multiplier pick
      |}
  | [] =>
      mret {|
        tp_Player := web_name player_data;
        tp_Player_ID := pick_element pick;
        tp_Team := team_name;
        tp_Position := position;
        tp_Cost_Numeric := cost;
        tp_Rolling_Avg := Qc_of_Z 0;
        tp_Points_Per_90 := Qc_of_Z 0;
        tp_Form := default (Qc_of_Z 0) (form player_data);
        tp_Selected_By := selected_by_percent player_data;
        tp_Is_Captain := is_captain pick;
        tp_Is_Vice_Captain := is_vice_captain pick;
        tp_Multiplier := multiplier pick
      |}
  end.

(** The loop of lines 29-94 over [team_data['picks']]. *)
Fixpoint team_players (teams_d : gmap Z string) (players : list Player)
    (all_players_df : DataFrame) (picks : list Pick) (rows : list TeamPlayer)
    : Res (list TeamPlayer) :=
  match picks with
  | [] => Ok rows
  | pick :: rest =>
      match find_player players (pick_element pick) with
      | Some player_data =>
          row ← team_player_row teams_d all_players_df pick player_data;
          team_players teams_d players all_players_df rest (rows ++ [row])
      | None => team_players teams_d players all_players_df rest rows
      end
  end.

(** The snapshot has a player of the pick. *)
Definition known_pick (players : list Player) (pick : Pick) : Prop :=
  pick_element pick ∈ player_id <$> players.

Global Instance known_pick_dec players pick : Decision (known_pick players pick).
Proof. unfold known_pick. apply _. Defined.

(** An entry of the fixtures document, as lines 158-172 read it; [event] is
    [None] for a fixture that has no gameweek yet. *)
Record Fixture := mkFixture {
  team_a : Z;
  team_h : Z;
  event : option Z;
  finished : bool;
  team_h_difficulty : Z;
  team_a_difficulty : Z
}.

(** [f['event'] in range(current_gw + 1, min(current_gw + 4, 39))]. *)
Definition in_upcoming_gws (current_gw : Z) (ev : option Z) : bool :=
  match ev with
  | Some e => (current_gw + 1 <=? e) && (e <? Z.min (current_gw + 4) 39)
  | None => false
  end.

(** The list [team_fixtures] of lines 158-162. *)
Definition team_fixtures (fixtures : list Fixture) (current_gw team_id : Z)
    : list Fixture :=
  filter (λ f, (team_a f = team_id ∨ team_h f = team_id)
               ∧ in_upcoming_gws current_gw (event f) = true
               ∧ finished f = false) fixtures.

(** Lines 168-171: the difficulty of a fixture for the team. *)
Definition difficulty_for (team_id : Z) (fixture : Fixture) : Z :=
  if decide (team_h fixture = team_id) then team_h_difficulty fixture
  else team_a_difficulty fixture.

Inductive Colour := green | yellow | red | black.

(** ['avg_difficulty']: a number, or the string 'N/A'. *)
Inductive Difficulty :=
| NA
| Average (avg : Qc).

Record Outlook := mkOutlook {
  avg_difficulty : Difficulty;
  color : Colour;
  fixture_count : nat
}.

(** Lines 164-185: the entry of [team_difficulties] for one team. *)
Definition team_outlook (fixtures : list Fixture) (current_gw team_id : Z) : Res Outlook :=
  let fs := team_fixtures fixtures current_gw team_id in
  match fs with
  | [] => mret (mkOutlook NA black 0)
  | _ :: _ =>
      let total_difficulty := foldl (λ total f, total + difficulty_for team_id f) 0 fs in
      avg ← py_truediv total_difficulty (Z.of_nat (length fs));
      mret (mkOutlook (Average avg)
              (if decide (avg ≤ Qc_of_Z 2)%Qc then green
               else if decide (avg ≤ Qc_of_Z 3)%Qc then yellow else red)
              (length fs))
  end.

(** A row of [alternative_details] (lines 235-244), the cost as a number. *)
Record Alternative := mkAlternative {
  alt_Player : string;
  alt_Team : string;
  alt_Cost_Numeric : Qc;
  alt_Rolling_Avg : Qc;
  alt_Fixture_Difficulty : Difficulty;
  alt_Difficulty_Color : Colour;
  alt_Form : Qc;
  alt_Points_Per_90 : Qc
}.

(** Lines 212-215: the rows of the position that average more than the
    player and cost no more, the first five of them. *)
Definition alternatives (all_position_players : DataFrame)
    (player_rolling player_cost : Qc) : DataFrame :=
  take 5 (filter (λ r, (player_rolling < Rolling_N_Week_Avg r)%Qc
                       ∧ (Cost_Numeric r ≤ player_cost)%Qc) all_position_players).

(** Lines 232-244: [team_difficulties.get(alt_team, {'avg_difficulty': 'N/A',
    'color': black})] and the row made of it. *)
Definition alternative_detail (team_difficulties : gmap string Outlook)
    (alt_row : Summary) : Alternative :=
  let alt_difficulty := default (mkOutlook NA black 0) (team_difficulties !! Team_name alt_row) in
  {| alt_Player := Player_name alt_row;
     alt_Team := Team_name alt_row;
     alt_Cost_Numeric := Cost_Numeric alt_row;
     alt_Rolling_Avg := Rolling_N_Week_Avg alt_row;
     alt_Fixture_Difficulty := avg_difficulty alt_difficulty;
     alt_Difficulty_Color := color alt_difficulty;
     alt_Form := Form alt_row;
     alt_Points_Per_90 := Points_Per_90 alt_row |}.

(** Lines 249-253: ['_sort_difficulty']. *)
Definition sort_difficulty (alt : Alternative) : Qc :=
  match alt_Fixture_Difficulty alt with
  | NA => Qc_of_Z 999
  | Average avg => avg
  end.

(** [alternative_details.sort(key=lambda x: x['_sort_difficulty'])]: stable,
    ascending. *)
Fixpoint insert_by_difficulty (alt : Alternative) (sorted : list Alternative)
    : list Alternative :=
  match sorted with
  | [] => [alt]
  | h :: t =>
      if decide (sort_difficulty alt ≤ sort_difficulty h)%Qc then alt :: h :: t
      else h :: insert_by_difficulty alt t
  end.

(** Lines 190-259 for one player of the squad: the alternatives, easiest
    fixtures first. *)
Definition alternative_details (all_players_df : DataFrame)
    (team_difficulties : gmap string Outlook) (team_player : TeamPlayer)
    : list Alternative :=
  let all_position_players :=
    filter (λ r, Position r = tp_Position team_player) all_players_df in
  foldr insert_by_difficulty []
    (alternative_detail team_difficulties
       <$> alternatives all_position_players (tp_Rolling_Avg team_player)
             (tp_Cost_Numeric team_player)).

(** [r] may replace the player: same position, a higher average, no higher
    cost. *)
Definition eligible (team_player : TeamPlayer) (r : Summary) : Prop :=
  Position r = tp_Position team_player
  ∧ (tp_Rolling_Avg team_player < Rolling_N_Week_Avg r)%Qc
  ∧ (Cost_Numeric r ≤ tp_Cost_Numeric team_player)%Qc.

Global Instance eligible_dec team_player r : Decision (eligible team_player r).
Proof. unfold eligible. apply _. Defined.

(** ** Cache management (utils/helpers.py) *)

(** The characters of a string. *)
Definition chars (s : string) : list ascii := Stdlib.Strings.String.list_ascii_of_string s.

(** A decimal digit or the minus sign: the characters of a printed int. *)
Definition digit_or_dash (c : ascii) : bool :=
  bool_decide (c ∈ chars "0123456789-").

(** The name of a file directly in [fpl_cache], as [os.listdir] and [glob]
    see it: the rest of its path below the directory, without a separator. *)
Definition in_cache_dir (path : string) : option (list ascii) :=
  let dir := chars (cache_dir +:+ "/") in
  if decide (dir `prefix_of` chars path) then
    let name := drop (length dir) (chars path) in
    if decide ("/"%char ∈ name) then None else Some name
  else None.

(** [f.endswith('.json')]. *)
Definition endswith_json (name : list ascii) : bool :=
  bool_decide (chars ".json" `suffix_of` name).

(** The names that the pattern [*.json] of [glob] matches: those that end
    with [.json], the hidden ones apart (a pattern that does not start with a
    dot matches no name that does). *)
Definition glob_star_json (name : list ascii) : bool :=
  endswith_json name && bool_decide (head name ≠ Some "."%char).

(** The paths of [glob.glob("fpl_cache/*.json")]. *)
Definition globbed (path : string) : bool :=
  match in_cache_dir path with
  | Some name => glob_star_json name
  | None => false
  end.

(** [clear_cache]: [os.remove] on each path of the glob. *)
Definition clear_cache : M unit := λ env w,
  (Ok (), mkWorld (filter (λ kv, globbed kv.1 = false) (cache w))
            (tick w) (st_log w) (http_log w)).

(** The files that [get_cache_info] counts. *)
Definition counted (path : string) : bool :=
  match in_cache_dir path with
  | Some name => endswith_json name
  | None => false
  end.

(** [get_cache_info]: the number of names of the directory that end with
    [.json]. *)
Definition get_cache_info : M nat := λ env w,
  (Ok (size (filter (λ path, counted path = true) (dom (cache w)))), w).

(** The cache keys that the handler uses. *)
Inductive handler_key : string → Prop :=
| key_bootstrap : handler_key "bootstrap"
| key_fixtures : handler_key "fixtures"
| key_player player_id : handler_key (player_cache_key player_id)
| key_team team_id gameweek : handler_key (team_cache_key team_id gameweek)
| key_results weeks : handler_key (results_cache_key weeks).

(** A file of the directory whose name starts with a dot. *)
Definition hidden (path : string) : bool :=
  match in_cache_dir path with
  | Some name => bool_decide (head name = Some "."%char)
  | None => false
  end.

(** ** More of the small league *)

(** A cache whose bootstrap file does not parse; one with the picks of team 7
    for gameweek 5. *)
Definition cache_unreadable : gmap string CacheFile :=
  {[ get_cache_file "bootstrap" := mkCacheFile 0 None ]}.
Definition cache_picks_gw5 : gmap string CacheFile :=
  {[ get_cache_file (team_cache_key 7 (Some 5)) := mkCacheFile 0 (Some (DocPicks squad)) ]}.

(** A service that answers for the picks of team 7 in gameweek 5 only; the
    clock stands at one hour. *)
Definition env_picks : Env :=
  mkEnv (λ _, hours 1)
    (λ _ url, if decide (url = picks_url 7 5) then Some (DocPicks squad) else None).

(** A table with the row of Salah; picks of Salah, of an unknown player and
    of Haaland. *)
Definition salah_table : DataFrame :=
  [row_of 3 salah "Liverpool" "Midfielder" (Qc_of_Z 125 / Qc_of_Z 10)%Qc
     (py_slice_to 3 (recent_games 5 salah_games))].
Definition squad_with_stranger : list Pick :=
  [mkPick 10 true false 2; mkPick 99 false false 1; mkPick 20 false true 1].

(** A midfielder of the squad who costs 13.0 and averages 0. *)
Definition benched_midfielder : TeamPlayer :=
  mkTeamPlayer "Ghost" 30 "Liverpool" "Midfielder" (Qc_of_Z 13) (Qc_of_Z 0) (Qc_of_Z 0)
    (Qc_of_Z 0) (Qc_of_Z 1) false false 0.

(** Liverpool (1) at home to Man City (2) in gameweek 6 and away in gameweek
    7, a later game, and one that is finished. *)
Definition league_fixtures : list Fixture :=
  [mkFixture 2 1 (Some 6) false 2 4;
   mkFixture 1 2 (Some 7) false 3 2;
   mkFixture 2 1 (Some 9) false 5 5;
   mkFixture 1 2 (Some 5) true 4 4].

(** * Verification *)

(** ** Running the monad *)

Lemma bind_run {A B} (m : M A) (f : A → M B) env w :
  (m ≫= f) env w =
  match m env w with
  | (Ok a, w') => f a env w'
  | (Raise e, w') => (Raise e, w')
  end.
Proof. reflexivity. Qed.

Lemma is_cache_valid_missing key h env w :
  cache w !! get_cache_file key = None →
  is_cache_valid key h env w = (Ok false, w).
Proof. intros Hc. unfold is_cache_valid. by rewrite Hc. Qed.

Lemma is_cache_valid_file key h env w f :
  cache w !! get_cache_file key = Some f →
  is_cache_valid key h env w =
  (Ok (bool_decide (clock env (tick w) - mtime f < hours h)), ticked w).
Proof. intros Hc. unfold is_cache_valid. by rewrite Hc. Qed.

Lemma load_from_cache_missing key env w :
  cache w !! get_cache_file key = None →
  load_from_cache key env w = (Ok None, w).
Proof. intros Hc. unfold load_from_cache. by rewrite Hc. Qed.

Lemma load_from_cache_readable key env w f d :
  cache w !! get_cache_file key = Some f → content f = Some d →
  load_from_cache key env w = (Ok (Some d), w).
Proof. intros Hc Hd. unfold load_from_cache. by rewrite Hc, Hd. Qed.

Lemma cache_first_missing key h env w :
  cache w !! get_cache_file key = None →
  cache_first key h env w = (Ok None, w).
Proof.
  intros Hc. unfold cache_first. rewrite bind_run, is_cache_valid_missing by done.
  reflexivity.
Qed.

Lemma cache_first_stale key h env w f :
  cache w !! get_cache_file key = Some f →
  hours h ≤ clock env (tick w) - mtime f →
  cache_first key h env w = (Ok None, ticked w).
Proof.
  intros Hc Hage. unfold cache_first.
  rewrite bind_run, (is_cache_valid_file _ _ _ _ f) by done.
  rewrite bool_decide_eq_false_2 by lia. reflexivity.
Qed.

Lemma cache_first_hit key h env w f d :
  cache w !! get_cache_file key = Some f →
  clock env (tick w) - mtime f < hours h →
  content f = Some d → py_truthy (Some d) = true →
  cache_first key h env w = (Ok (Some d), ticked w).
Proof.
  intros Hc Hage Hd Ht. unfold cache_first.
  rewrite bind_run, (is_cache_valid_file _ _ _ _ f) by done.
  rewrite bool_decide_eq_true_2 by lia.
  rewrite bind_run, (load_from_cache_readable _ _ _ f d) by done.
  unfold mret, M_ret. by rewrite Ht.
Qed.

(** ** Obtaining the bootstrap snapshot *)

Lemma get_bootstrap_data_stale_fallback env w f d :
  cache w !! get_cache_file "bootstrap" = Some f →
  hours 6 ≤ clock env (tick w) - mtime f →
  content f = Some d → py_truthy (Some d) = true →
  remote env (S (tick w)) bootstrap_url = None →
  get_bootstrap_data env w =
  (Ok (Some d),
   shown (st_warning "Using stale cached data as fallback")
     (shown (st_error "Error fetching bootstrap data")
        (requested bootstrap_url (ticked w)))).
Proof.
  intros Hc Hage Hd Ht Hdown. unfold get_bootstrap_data.
  rewrite bind_run, (cache_first_stale _ _ _ _ f) by done.
  rewrite bind_run. unfold requests_get at 1. cbn [tick ticked]. rewrite Hdown.
  rewrite bind_run. unfold st_emit at 1.
  rewrite bind_run, (load_from_cache_readable _ _ _ f d) by done.
  rewrite Ht. reflexivity.
Qed.

Lemma get_bootstrap_data_nothing env w :
  cache w !! get_cache_file "bootstrap" = None →
  remote env (tick w) bootstrap_url = None →
  get_bootstrap_data env w =
  (Ok None, shown (st_error "Error fetching bootstrap data") (requested bootstrap_url w)).
Proof.
  intros Hc Hdown. unfold get_bootstrap_data.
  rewrite bind_run, cache_first_missing by done.
  rewrite bind_run. unfold requests_get at 1. rewrite Hdown.
  rewrite bind_run. unfold st_emit at 1.
  rewrite bind_run, load_from_cache_missing by done.
  reflexivity.
Qed.

(** ** Frame properties of the fetchers *)

Lemma cache_first_cases key h env w :
  ∃ r w', cache_first key h env w = (Ok r, w') ∧ cache w' = cache w
          ∧ http_log w' = http_log w
          ∧ (r = None ∨ py_truthy r = true).
Proof.
  unfold cache_first. rewrite bind_run. unfold is_cache_valid.
  destruct (cache w !! get_cache_file key) as [f|] eqn:Hc.
  - rewrite bind_run. cbn [read_clock]. unfold mret at 1, M_ret at 1.
    destruct (bool_decide _).
    + rewrite bind_run. unfold load_from_cache. cbn [cache ticked]. rewrite Hc.
      destruct (content f) as [d|].
      * unfold mret, M_ret. destruct (py_truthy (Some d)) eqn:Ht; eauto 10.
      * rewrite bind_run. cbn. eauto 10.
    + cbn. eauto 10.
  - cbn. eauto 10.
Qed.

Lemma file_ne_bootstrap_results weeks :
  get_cache_file "bootstrap" ≠ get_cache_file (results_cache_key weeks).
Proof. discriminate. Qed.

Lemma file_ne_player_results id weeks :
  get_cache_file (player_cache_key id) ≠ get_cache_file (results_cache_key weeks).
Proof. discriminate. Qed.

Lemma get_bootstrap_data_frame env w :
  ∃ r w', get_bootstrap_data env w = (Ok r, w')
          ∧ ∀ path, path ≠ get_cache_file "bootstrap" → cache w' !! path = cache w !! path.
Proof.
  unfold get_bootstrap_data. rewrite bind_run.
  destruct (cache_first_cases "bootstrap" 6 env w) as (r & w1 & -> & Hc1 & _ & _).
  destruct r as [d|]; [cbn; eexists _, _; split; [done|]; intros; by rewrite Hc1|].
  rewrite bind_run. unfold requests_get at 1.
  destruct (remote env (tick w1) bootstrap_url) as [data|].
  - cbn. eexists _, _; split; [done|]. intros path Hne. cbn.
    rewrite lookup_insert_ne by done. by rewrite Hc1.
  - rewrite bind_run. unfold st_emit at 1. rewrite bind_run.
    unfold load_from_cache. cbn [cache shown requested]. rewrite Hc1.
    destruct (cache w !! get_cache_file "bootstrap") as [f|].
    + destruct (content f) as [d|].
      * destruct (py_truthy (Some d)); cbn; eexists _, _; (split; [done|]); intros; cbn; by rewrite Hc1.
      * cbn. eexists _, _; split; [done|]. intros; cbn; by rewrite Hc1.
    + cbn. eexists _, _; split; [done|]. intros; cbn; by rewrite Hc1.
Qed.

Lemma get_player_history_frame id env w :
  ∃ r w', get_player_history id env w = (Ok r, w')
          ∧ ∀ path, path ≠ get_cache_file (player_cache_key id) →
                    cache w' !! path = cache w !! path.
Proof.
  unfold get_player_history. cbv zeta. rewrite bind_run.
  destruct (cache_first_cases (player_cache_key id) 24 env w) as (r & w1 & -> & Hc1 & _ & _).
  destruct r as [d|]; [cbn; eexists _, _; split; [done|]; intros; by rewrite Hc1|].
  rewrite bind_run. unfold requests_get at 1.
  destruct (remote env (tick w1) (history_url id)) as [data|].
  - cbn. eexists _, _; split; [done|]. intros path Hne. cbn.
    rewrite lookup_insert_ne by done. by rewrite Hc1.
  - rewrite bind_run.
    unfold load_from_cache. cbn [cache shown requested]. rewrite Hc1.
    destruct (cache w !! get_cache_file (player_cache_key id)) as [f|].
    + destruct (content f) as [d|].
      * destruct (py_truthy (Some d)); cbn; eexists _, _; (split; [done|]); intros; cbn; by rewrite Hc1.
      * cbn. eexists _, _; split; [done|]. intros; cbn; by rewrite Hc1.
    + cbn. eexists _, _; split; [done|]. intros; cbn; by rewrite Hc1.
Qed.

(** ** The window of one player *)

Lemma insert_by_round_perm game l : insert_by_round game l ≡ₚ game :: l.
Proof.
  induction l as [|h t IH]; [done|]. cbn.
  destruct (round h <=? round game); [done|].
  rewrite IH. apply Permutation_swap.
Qed.

Lemma sort_by_round_desc_perm l : sort_by_round_desc l ≡ₚ l.
Proof.
  induction l as [|g l IH]; [done|]. cbn.
  rewrite insert_by_round_perm. by constructor.
Qed.

Lemma insert_by_round_sorted game l :
  latest_first l → latest_first (insert_by_round game l).
Proof.
  unfold latest_first. induction 1 as [|h t Hs IH Hhd]; cbn.
  - by repeat constructor.
  - destruct (Z.leb_spec (round h) (round game)).
    + constructor; [by constructor|]. by constructor.
    + constructor; [done|].
      destruct Hhd as [|h' t' Hh']; cbn.
      * constructor. lia.
      * destruct (round h' <=? round game); constructor; lia.
Qed.

Lemma sort_by_round_desc_sorted l : latest_first (sort_by_round_desc l).
Proof.
  induction l as [|g l IH]; cbn; [constructor|]. by apply insert_by_round_sorted.
Qed.

Lemma py_slice_to_take {A} (n : Z) (l : list A) :
  0 ≤ n → py_slice_to n l = take (Z.to_nat n) l.
Proof. intros Hn. unfold py_slice_to. by rewrite (proj2 (Z.leb_le 0 n)). Qed.

Lemma points_per_90_value tp tm :
  points_per_90 tp tm =
  Ok (if 0 <? tm then float_mul (binary64 (Qc_of_Z tp / Qc_of_Z tm)) (Qc_of_Z 90)
      else Qc_of_Z 0).
Proof.
  unfold points_per_90. destruct (Z.ltb_spec 0 tm); [|done].
  unfold float_truediv. by rewrite (proj2 (Z.eqb_neq tm 0)) by lia.
Qed.

Lemma summarise_cases weeks gw player tn pos cost history :
  weeks ≠ 0 →
  summarise weeks gw player tn pos cost history =
  Ok (if weeks <=? Z.of_nat (length (recent_games gw history))
      then Some (row_of weeks player tn pos cost
                   (py_slice_to weeks (recent_games gw history)))
      else None).
Proof.
  intros Hw. unfold summarise. cbv zeta.
  destruct (weeks <=? _); [|done].
  unfold float_truediv at 1. rewrite (proj2 (Z.eqb_neq weeks 0)) by done.
  cbn [mbind Res_bind]. rewrite points_per_90_value. reflexivity.
Qed.

(** ** One iteration of the loop *)

Lemma show_progress_run up n i p st env w :
  show_progress up n i p st env w = (Ok (), progress_world up n i p st w).
Proof. by destruct up. Qed.

Lemma progress_world_cache up n i p st w : cache (progress_world up n i p st w) = cache w.
Proof. by destruct up. Qed.

Lemma loop_body_fetches weeks up gw teams_d n i p st env w tn pos :
  teams_d !! team p = Some tn → positions !! element_type p = Some pos →
  ∃ hd w',
    get_player_history (player_id p) env (progress_world up n i p st w) = (Ok hd, w')
    ∧ loop_body weeks up gw teams_d n i p st env w =
      (finish_player weeks gw p tn pos (Qc_of_Z (now_cost p) / Qc_of_Z 10)%Qc st hd, w').
Proof.
  intros Ht Hp.
  destruct (get_player_history_frame (player_id p) env (progress_world up n i p st w))
    as (hd & w' & Hget & _).
  exists hd, w'. split; [done|].
  unfold loop_body. rewrite bind_run. unfold lift at 1, dict_get at 1. rewrite Ht.
  rewrite bind_run. unfold lift at 1, dict_get at 1. rewrite Hp.
  cbv zeta. rewrite bind_run, show_progress_run, bind_run, Hget. reflexivity.
Qed.

Lemma loop_body_lookup_error weeks up gw teams_d n i p st env w :
  teams_d !! team p = None ∨ positions !! element_type p = None →
  ∃ k, loop_body weeks up gw teams_d n i p st env w = (Raise (KeyErrorInt k), w).
Proof.
  intros Hbad. unfold loop_body. rewrite bind_run. unfold lift at 1, dict_get at 1.
  destruct (teams_d !! team p) as [tn|]; [|by eexists].
  destruct Hbad as [?|Hp]; [done|].
  rewrite bind_run. unfold lift at 1, dict_get at 1. rewrite Hp. by eexists.
Qed.

Lemma finish_player_falsy weeks gw p tn pos cost st hd :
  py_truthy hd = false →
  finish_player weeks gw p tn pos cost st hd =
  Ok (mkLoopState (results st) (S (processed_count st)) (successful_count st)).
Proof. intros Hf. unfold finish_player. by rewrite Hf. Qed.

Lemma doc_history_falsy hd : py_truthy hd = false → doc_history hd = [].
Proof. by destruct hd as [[]|]. Qed.

Lemma finish_player_cases weeks gw p tn pos cost st hd :
  weeks ≠ 0 →
  finish_player weeks gw p tn pos cost st hd =
  Ok (if py_truthy hd && (weeks <=? Z.of_nat (length (recent_games gw (doc_history hd))))
      then mkLoopState
             (results st ++
                [row_of weeks p tn pos cost (py_slice_to weeks (recent_games gw (doc_history hd)))])
             (S (processed_count st)) (S (successful_count st))
      else mkLoopState (results st) (S (processed_count st)) (successful_count st)).
Proof.
  intros Hw. unfold finish_player. cbv zeta.
  destruct (py_truthy hd); [|done].
  rewrite summarise_cases by done. cbn [mbind Res_bind andb].
  by destruct (weeks <=? _).
Qed.

(** One iteration.  For a window [weeks] of at least one gameweek, an
    iteration of the loop whose two lookups succeed never raises, and with
    [recent] the qualifying games of the fetched history in the order of
    rounds, latest first: if the player has at least [weeks] of them,
    exactly one row is appended, whose sums run over the first [weeks] games
    of [recent] and no others; if the player has fewer (or the history could
    not be had), no row is appended. *)
Lemma iteration_window weeks use_progress gw teams_d n i player st env w
    team_name position :
  0 < weeks →
  teams_d !! team player = Some team_name →
  positions !! element_type player = Some position →
  ∃ history_data w' st',
    get_player_history (player_id player) env
      (progress_world use_progress n i player st w) = (Ok history_data, w')
    ∧ loop_body weeks use_progress gw teams_d n i player st env w = (Ok st', w')
    ∧ let recent := recent_games gw (doc_history history_data) in
      let window := take (Z.to_nat weeks) recent in
      recent ≡ₚ qualifying gw (doc_history history_data)
      ∧ latest_first recent
      ∧ (weeks ≤ Z.of_nat (length recent) →
           py_truthy history_data = true
           ∧ Z.of_nat (length window) = weeks
           ∧ ∃ r, results st' = results st ++ [r]
                ∧ Player_ID r = player_id player
                ∧ Last_N_GW_Points r = py_sum total_points window
                ∧ Total_Minutes r = py_sum minutes window
                ∧ Goals r = py_sum goals_scored window
                ∧ Assists r = py_sum assists window
                ∧ Bonus_Points r = py_sum bonus window)
      ∧ (Z.of_nat (length recent) < weeks → results st' = results st).
Proof.
  intros Hw Ht Hp.
  destruct (loop_body_fetches weeks use_progress gw teams_d n i player st env w _ _ Ht Hp)
    as (hd & w' & Hget & Hbody).
  rewrite finish_player_cases in Hbody by lia.
  exists hd, w'. eexists. split; [done|]. split; [done|]. cbv zeta.
  split; [apply sort_by_round_desc_perm|]. split; [apply sort_by_round_desc_sorted|].
  destruct (py_truthy hd) eqn:Htr.
  - cbn [andb]. destruct (Z.leb_spec weeks (Z.of_nat (length (recent_games gw (doc_history hd))))).
    + split; [|lia]. intros _. split; [done|]. rewrite py_slice_to_take by lia.
      split; [rewrite length_take; lia|]. eexists. split; [done|]. done.
    + split; [lia|]. done.
  - cbn [andb]. split; [|done].
    rewrite (doc_history_falsy hd) by done. cbn. lia.
Qed.

(** C5.  In an iteration whose two lookups succeed: when the service fails
    on the history of the player and the cache has no file for it,
    [get_player_history] answers [None] and shows nothing; and whenever the
    history comes back as nothing (after the stale-cache fallback too), the
    iteration does not raise, leaves the rows as they were, counts the player
    as processed, and the loop goes on with the players that follow. *)
Theorem history_failure_skips_player weeks use_progress gw teams_d n i player rest st
    env w team_name position :
  teams_d !! team player = Some team_name →
  positions !! element_type player = Some position →
  let w0 := progress_world use_progress n i player st w in
  let st' := mkLoopState (results st) (S (processed_count st)) (successful_count st) in
  ((∀ t, remote env t (history_url (player_id player)) = None) →
   cache w !! get_cache_file (player_cache_key (player_id player)) = None →
   get_player_history (player_id player) env w0
   = (Ok None, requested (history_url (player_id player)) w0))
  ∧ (∀ history_data w',
       get_player_history (player_id player) env w0 = (Ok history_data, w') →
       py_truthy history_data = false →
       loop_body weeks use_progress gw teams_d n i player st env w = (Ok st', w')
       ∧ players_loop weeks use_progress gw teams_d n i (player :: rest) st env w
         = players_loop weeks use_progress gw teams_d n (S i) rest st' env w').
Proof.
  intros Ht Hp w0 st'. split.
  - intros Hdown Hc. unfold get_player_history. cbv zeta.
    rewrite bind_run, cache_first_missing
      by (unfold w0; by rewrite progress_world_cache).
    rewrite bind_run. unfold requests_get at 1. rewrite Hdown.
    rewrite bind_run, load_from_cache_missing
      by (cbn [cache requested]; unfold w0; by rewrite progress_world_cache).
    reflexivity.
  - intros hd w' Hget Hfalsy.
    assert (Hbody : loop_body weeks use_progress gw teams_d n i player st env w
                    = (Ok st', w')).
    { destruct (loop_body_fetches weeks use_progress gw teams_d n i player st env w _ _ Ht Hp)
        as (hd' & w2 & Hget' & ->).
      fold w0 in Hget'. rewrite Hget in Hget'. injection Hget' as <- <-.
      by rewrite finish_player_falsy. }
    split; [done|]. cbn [players_loop]. by rewrite bind_run, Hbody.
Qed.

Lemma py_round2_zero : py_round2 (Qc_of_Z 0) = Qc_of_Z 0.
Proof. by apply Qc_is_canon. Qed.

(** C6, as amended.  The [Points_Per_90] of every row is [round(ppm90, 2)];
    the computation of [ppm90] never raises; when the minutes of the window
    are positive, [ppm90] is the float product by 90 of the float quotient of
    the points by the minutes of the window, and the field is exactly 0 when
    the minutes are 0. *)
Theorem points_per_90_of_record weeks gw player team_name position cost history r :
  summarise weeks gw player team_name position cost history = Ok (Some r) →
  let window := py_slice_to weeks (recent_games gw history) in
  Last_N_GW_Points r = py_sum total_points window
  ∧ Total_Minutes r = py_sum minutes window
  ∧ (∃ ppm90, points_per_90 (Last_N_GW_Points r) (Total_Minutes r) = Ok ppm90
              ∧ Points_Per_90 r = py_round2 ppm90)
  ∧ (0 < Total_Minutes r →
       Points_Per_90 r =
       py_round2
         (float_mul (binary64 (Qc_of_Z (Last_N_GW_Points r) / Qc_of_Z (Total_Minutes r)))
            (Qc_of_Z 90)))
  ∧ (Total_Minutes r = 0 → Points_Per_90 r = Qc_of_Z 0).
Proof.
  intros Hs window. unfold summarise in Hs. cbv zeta in Hs.
  destruct (weeks <=? _); [|done].
  destruct (float_truediv _ weeks) as [avg|]; [|done]. cbn [mbind Res_bind] in Hs.
  fold window in Hs. rewrite points_per_90_value in Hs. cbn [mbind Res_bind] in Hs.
  injection Hs as <-. cbn [Last_N_GW_Points Total_Minutes Points_Per_90].
  split; [done|]. split; [done|].
  split; [rewrite points_per_90_value; by eexists|].
  split.
  - intros Hpos. by rewrite (proj2 (Z.ltb_lt 0 _) Hpos).
  - intros ->. apply py_round2_zero.
Qed.

Lemma teams_dict_lookup_None ts k :
  k ∉ team_id <$> ts → teams_dict ts !! k = None.
Proof.
  unfold teams_dict. generalize (∅ : gmap Z string) (lookup_empty (M:=gmap Z) (A:=string) k).
  induction ts as [|t ts IH]; intros d Hd Hk; [done|].
  cbn. apply IH.
  - rewrite lookup_insert_ne; [done|]. intros <-. apply Hk. cbn. left.
  - intros Hin. apply Hk. cbn. by right.
Qed.

Lemma positions_lookup_None et : ¬ (1 ≤ et ≤ 4) → positions !! et = None.
Proof.
  intros Het. unfold positions.
  rewrite !lookup_insert_ne by lia. apply lookup_empty.
Qed.

Lemma players_loop_lookup_error weeks up gw teams_d n :
  weeks ≠ 0 → ∀ players i st env w,
  Exists (lookup_fails teams_d) players →
  ∃ k w', players_loop weeks up gw teams_d n i players st env w = (Raise (KeyErrorInt k), w').
Proof.
  intros Hw. induction players as [|p rest IH]; intros i st env w Hex.
  { by apply Exists_nil in Hex. }
  cbn [players_loop]. rewrite bind_run.
  destruct (teams_d !! team p) as [tn|] eqn:Ht; cycle 1.
  { destruct (loop_body_lookup_error weeks up gw teams_d n i p st env w) as [k ->];
      [by left|]. by eexists _, _. }
  destruct (positions !! element_type p) as [pos|] eqn:Hp; cycle 1.
  { destruct (loop_body_lookup_error weeks up gw teams_d n i p st env w) as [k ->];
      [by right|]. by eexists _, _. }
  destruct (loop_body_fetches weeks up gw teams_d n i p st env w _ _ Ht Hp)
    as (hd & w2 & _ & ->).
  rewrite finish_player_cases by done.
  apply IH. apply Exists_cons in Hex as [[Hbad|Hbad]|Hex]; [congruence..|done].
Qed.

(** ** The whole computation *)

Lemma show_setup_run up n env w : show_setup up n env w = (Ok (), setup_world up n w).
Proof. by destruct up. Qed.

Lemma show_done_run up st env w : show_done up st env w = (Ok (), done_world up st w).
Proof. by destruct up. Qed.

Lemma setup_world_cache up n w : cache (setup_world up n w) = cache w.
Proof. by destruct up. Qed.

Lemma done_world_cache up st w : cache (done_world up st w) = cache w.
Proof. by destruct up. Qed.

Lemma calculate_without_snapshot `{Pandas} weeks up env w hd w1 :
  get_bootstrap_data env w = (Ok hd, w1) → py_truthy hd = false →
  calculate_rolling_averages weeks up env w =
  (Ok [], shown (st_error "Could not load FPL data. Check your internet connection.") w1).
Proof.
  intros Hget Hf. unfold calculate_rolling_averages.
  rewrite bind_run, Hget, Hf. reflexivity.
Qed.

Lemma calculate_with_snapshot `{Pandas} weeks up env w b w1 :
  get_bootstrap_data env w = (Ok (Some (DocBootstrap b)), w1) →
  calculate_rolling_averages weeks up env w =
  match find_current (events b) with
  | Some gw =>
      if gw =? 0 then (Ok [], shown season_over w1)
      else
        match players_loop weeks up gw (teams_dict (teams b)) (length (elements b)) 0
                (elements b) (mkLoopState [] 0 0) env
                (setup_world up (length (elements b)) w1) with
        | (Ok st, w2) =>
            match results st with
            | [] => (Ok [], done_world up st w2)
            | _ :: _ =>
                (Ok (sort_values (results st)),
                 saved_world weeks gw (sort_values (results st)) env (done_world up st w2))
            end
        | (Raise e, w2) => (Raise e, w2)
        end
  | None => (Ok [], shown season_over w1)
  end.
Proof.
  intros Hget. unfold calculate_rolling_averages.
  rewrite bind_run, Hget. cbn [py_truthy negb]. cbv zeta.
  destruct (find_current (events b)) as [gw|]; [|done].
  destruct (gw =? 0); [done|].
  rewrite bind_run, show_setup_run, bind_run.
  destruct (players_loop _ _ _ _ _ _ _ _ _ _) as [[st|e] w2]; [|done].
  rewrite bind_run, show_done_run.
  destruct (results st); [done|]. reflexivity.
Qed.

Lemma find_current_none evs :
  Forall (λ e, is_current e = false) evs → find_current evs = None.
Proof. induction 1 as [|e evs He _ IH]; [done|]. cbn. by rewrite He. Qed.

(** C3.  When no event of the snapshot is flagged current, the computation
    stops right after the snapshot was obtained: it returns the empty table,
    and all it adds to the world is the warning that no current gameweek was
    found (no request for a player, no write to the cache). *)
Theorem no_current_gameweek_aborts `{Pandas} weeks use_progress env w b w1 :
  get_bootstrap_data env w = (Ok (Some (DocBootstrap b)), w1) →
  Forall (λ e, is_current e = false) (events b) →
  calculate_rolling_averages weeks use_progress env w = (Ok [], shown season_over w1).
Proof.
  intros Hget Hnone.
  by rewrite (calculate_with_snapshot _ _ _ _ b w1), find_current_none.
Qed.

(** C4.  With the service failing on the bootstrap request: a readable stale
    cache entry (older than the six hours) is returned, with the stale-data
    warning shown and the cache untouched; with no cache entry at all the
    fetch answers [None], and [calculate_rolling_averages] returns the empty
    table.  Nothing is raised in either case. *)
Theorem bootstrap_fetch_failure `{Pandas} env w :
  (∀ t, remote env t bootstrap_url = None) →
  (∀ f d,
     cache w !! get_cache_file "bootstrap" = Some f →
     content f = Some d → py_truthy (Some d) = true →
     hours 6 ≤ clock env (tick w) - mtime f →
     ∃ w', get_bootstrap_data env w = (Ok (Some d), w')
           ∧ cache w' = cache w
           ∧ st_log w' = st_warning "Using stale cached data as fallback"
                         :: st_error "Error fetching bootstrap data" :: st_log w)
  ∧ (cache w !! get_cache_file "bootstrap" = None →
     (∃ w', get_bootstrap_data env w = (Ok None, w'))
     ∧ ∀ weeks use_progress,
         ∃ w', calculate_rolling_averages weeks use_progress env w = (Ok [], w')).
Proof.
  intros Hdown. split.
  - intros f d Hc Hd Ht Hage. eexists.
    split; [by apply (get_bootstrap_data_stale_fallback _ _ f)|by split].
  - intros Hc.
    pose proof (get_bootstrap_data_nothing env w Hc (Hdown _)) as Hget.
    split; [by eexists|]. intros weeks up. eexists.
    by apply (calculate_without_snapshot _ _ _ _ None _ Hget).
Qed.

(** C10.  Once the snapshot is there and its current gameweek found, a player
    whose team id is not among the snapshot's teams, or whose [element_type]
    is outside 1..4, makes the iteration raise a [KeyError] before anything
    is fetched or shown for it (the world is unchanged), and one such player
    anywhere in the snapshot makes the whole computation raise a [KeyError]. *)
Theorem failed_lookup_aborts `{Pandas} weeks use_progress env w b w1 gw :
  weeks ≠ 0 →
  get_bootstrap_data env w = (Ok (Some (DocBootstrap b)), w1) →
  find_current (events b) = Some gw → gw ≠ 0 →
  let unknown p := team p ∉ team_id <$> teams b ∨ ¬ (1 ≤ element_type p ≤ 4) in
  (∀ p n i st w2, unknown p →
     ∃ k, loop_body weeks use_progress gw (teams_dict (teams b)) n i p st env w2
          = (Raise (KeyErrorInt k), w2))
  ∧ (Exists unknown (elements b) →
     ∃ k w', calculate_rolling_averages weeks use_progress env w = (Raise (KeyErrorInt k), w')).
Proof.
  intros Hw Hget Hgw Hgw0 unknown.
  assert (Hfails : ∀ p, unknown p → lookup_fails (teams_dict (teams b)) p).
  { intros p [Ht|Hp]; [left; by apply teams_dict_lookup_None
                      |right; by apply positions_lookup_None]. }
  split.
  - intros p n i st w2 Hp. by apply loop_body_lookup_error, Hfails.
  - intros Hex.
    rewrite (calculate_with_snapshot _ _ _ _ b w1), Hgw by done.
    rewrite (proj2 (Z.eqb_neq gw 0)) by done.
    edestruct (players_loop_lookup_error weeks use_progress gw (teams_dict (teams b))
                 (length (elements b)) Hw (elements b)) as (k & w' & ->).
    { eapply Exists_impl; [done|]. apply Hfails. }
    by eexists _, _.
Qed.

(** ** What a run leaves in the cache *)

Lemma loop_body_frame weeks up gw teams_d n i p st env w r w' :
  loop_body weeks up gw teams_d n i p st env w = (r, w') →
  ∀ path, path ≠ get_cache_file (player_cache_key (player_id p)) →
          cache w' !! path = cache w !! path.
Proof.
  intros Hrun path Hne.
  destruct (teams_d !! team p) as [tn|] eqn:Ht; cycle 1.
  { destruct (loop_body_lookup_error weeks up gw teams_d n i p st env w) as [k Hk];
      [by left|]. rewrite Hk in Hrun. by injection Hrun as _ <-. }
  destruct (positions !! element_type p) as [pos|] eqn:Hp; cycle 1.
  { destruct (loop_body_lookup_error weeks up gw teams_d n i p st env w) as [k Hk];
      [by right|]. rewrite Hk in Hrun. by injection Hrun as _ <-. }
  destruct (get_player_history_frame (player_id p) env (progress_world up n i p st w))
    as (hd & w2 & Hget & Hframe).
  destruct (loop_body_fetches weeks up gw teams_d n i p st env w _ _ Ht Hp)
    as (hd' & w2' & Hget' & Hbody).
  rewrite Hget in Hget'. injection Hget' as <- <-.
  rewrite Hbody in Hrun. injection Hrun as _ <-.
  by rewrite Hframe, progress_world_cache.
Qed.

Lemma players_loop_frame weeks up gw teams_d n players :
  ∀ i st env w r w',
  players_loop weeks up gw teams_d n i players st env w = (r, w') →
  ∀ path, (∀ id, path ≠ get_cache_file (player_cache_key id)) →
          cache w' !! path = cache w !! path.
Proof.
  induction players as [|p rest IH]; intros i st env w r w' Hrun path Hne.
  { by injection Hrun as _ <-. }
  cbn [players_loop] in Hrun. rewrite bind_run in Hrun.
  destruct (loop_body weeks up gw teams_d n i p st env w) as [[st1|e] w1] eqn:Hbody.
  - rewrite (IH _ _ _ _ _ _ Hrun path Hne). by eapply loop_body_frame.
  - injection Hrun as _ <-. by eapply loop_body_frame.
Qed.

(** How a run that returns a table came to it. *)
Lemma calculate_inversion `{Pandas} weeks up env w df w' :
  calculate_rolling_averages weeks up env w = (Ok df, w') →
  (df = []
   ∧ cache w' !! get_cache_file (results_cache_key weeks)
     = cache w !! get_cache_file (results_cache_key weeks))
  ∨ (∃ b w1 gw st w2,
       get_bootstrap_data env w = (Ok (Some (DocBootstrap b)), w1)
       ∧ find_current (events b) = Some gw
       ∧ players_loop weeks up gw (teams_dict (teams b)) (length (elements b)) 0
           (elements b) (mkLoopState [] 0 0) env
           (setup_world up (length (elements b)) w1) = (Ok st, w2)
       ∧ results st ≠ []
       ∧ df = sort_values (results st)
       ∧ w' = saved_world weeks gw df env (done_world up st w2)).
Proof.
  intros Hrun.
  destruct (get_bootstrap_data_frame env w) as (hd & w1 & Hget & Hframe).
  pose proof (Hframe _ (not_eq_sym (file_ne_bootstrap_results weeks))) as Hrf.
  destruct (py_truthy hd) eqn:Htr; cycle 1.
  { rewrite (calculate_without_snapshot _ _ _ _ hd w1) in Hrun by done.
    injection Hrun as <- <-. by left. }
  destruct hd as [[b| | | |]|]; try done;
    try (unfold calculate_rolling_averages in Hrun; by rewrite bind_run, Hget in Hrun).
  rewrite (calculate_with_snapshot _ _ _ _ b w1) in Hrun by done.
  destruct (find_current (events b)) as [gw|] eqn:Hgw; cycle 1.
  { injection Hrun as <- <-. by left. }
  destruct (gw =? 0).
  { injection Hrun as <- <-. by left. }
  destruct (players_loop _ _ _ _ _ _ _ _ _ _) as [[st|e] w2] eqn:Hloop; [|done].
  destruct (results st) as [|r rs] eqn:Hres.
  - injection Hrun as <- <-. left. split; [done|].
    rewrite done_world_cache, (players_loop_frame _ _ _ _ _ _ _ _ _ _ _ _ Hloop).
    + by rewrite setup_world_cache.
    + intros id. apply not_eq_sym, file_ne_player_results.
  - injection Hrun as <- <-. right. exists b, w1, gw, st, w2.
    rewrite Hres. by repeat split.
Qed.

(** C7, as amended.  A run that returns a non-empty table has saved it, with
    the current gameweek it resolved and a timestamp, in the cache file of
    the window; a run that returns the empty table leaves that file as it
    was. *)
Theorem results_saved_when_nonempty `{Pandas} weeks use_progress env w df w' :
  calculate_rolling_averages weeks use_progress env w = (Ok df, w') →
  (df ≠ [] →
     ∃ b w1 gw timestamp saved_at,
       get_bootstrap_data env w = (Ok (Some (DocBootstrap b)), w1)
       ∧ find_current (events b) = Some gw
       ∧ cache w' !! get_cache_file (results_cache_key weeks)
         = Some (mkCacheFile saved_at (Some (DocResults df timestamp gw))))
  ∧ (df = [] →
     cache w' !! get_cache_file (results_cache_key weeks)
     = cache w !! get_cache_file (results_cache_key weeks)).
Proof.
  intros Hrun.
  destruct (calculate_inversion _ _ _ _ _ _ Hrun)
    as [[-> Hrf]|(b & w1 & gw & st & w2 & Hget & Hgw & Hloop & Hne & Hdf & ->)].
  - by split.
  - split.
    + intros _. exists b, w1, gw. eexists _, _. split; [done|]. split; [done|].
      unfold saved_world. cbn [cache written]. apply lookup_insert_eq.
    + intros ->. destruct Hne.
      eapply Permutation_nil_r. rewrite <-(sort_values_perm (results st)). by rewrite <-Hdf.
Qed.

(** X23.  The table a run returns is in descending order of the rolling
    average, and holds the rows the loop accumulated, each once, whatever
    sort meets the contract of [sort_values]; nothing is said of the order
    among rows of equal average. *)
Theorem table_sorted_by_average `{Pandas} weeks use_progress env w df w' :
  calculate_rolling_averages weeks use_progress env w = (Ok df, w') →
  Sorted (λ a b, Rolling_N_Week_Avg b ≤ Rolling_N_Week_Avg a)%Qc df
  ∧ (df = []
     ∨ ∃ b w1 gw st w2,
         get_bootstrap_data env w = (Ok (Some (DocBootstrap b)), w1)
         ∧ find_current (events b) = Some gw
         ∧ players_loop weeks use_progress gw (teams_dict (teams b)) (length (elements b)) 0
             (elements b) (mkLoopState [] 0 0) env
             (setup_world use_progress (length (elements b)) w1) = (Ok st, w2)
         ∧ df ≡ₚ results st).
Proof.
  intros Hrun.
  destruct (calculate_inversion _ _ _ _ _ _ Hrun)
    as [[-> Hrf]|(b & w1 & gw & st & w2 & Hget & Hgw & Hloop & Hne & Hdf & ->)].
  - split; [constructor|by left].
  - split; [rewrite Hdf; apply sort_values_desc|].
    right. exists b, w1, gw, st, w2. repeat split; try done.
    rewrite Hdf. apply sort_values_perm.
Qed.

(** ** Team picks *)

(** C9, as amended.  When [get_team_data] is called without a gameweek and
    the cache-first step finds no fresh entry for the team, the gameweek is
    the id of the first event of the snapshot flagged current: with no such
    event the call returns [None] and requests nothing; otherwise it requests
    the picks of that gameweek and returns what the service answers.  When
    the cache holds a readable, truthy entry for the team that is younger
    than two hours, the call returns that entry and does nothing but read
    the clock: no snapshot is fetched and no gameweek resolved, whatever the
    events are. *)
Theorem team_data_resolves_gameweek team_id env w :
  (∀ w0 b w1,
     cache_first (team_cache_key team_id None) 2 env w = (Ok None, w0) →
     get_bootstrap_data env w0 = (Ok (Some (DocBootstrap b)), w1) →
     (find_current (events b) = None →
        get_team_data team_id None env w = (Ok None, w1))
     ∧ (∀ gw, find_current (events b) = Some gw → gw ≠ 0 →
          http_log (snd (get_team_data team_id None env w))
          = picks_url team_id gw :: http_log w1
          ∧ fst (get_team_data team_id None env w)
            = Ok (remote env (tick w1) (picks_url team_id gw))))
  ∧ (∀ f d,
       cache w !! get_cache_file (team_cache_key team_id None) = Some f →
       clock env (tick w) - mtime f < hours 2 →
       content f = Some d → py_truthy (Some d) = true →
       get_team_data team_id None env w = (Ok (Some d), ticked w)).
Proof.
  split; cycle 1.
  { intros f d Hf Hage Hd Ht. unfold get_team_data. cbv zeta.
    by rewrite bind_run, (cache_first_hit _ _ _ _ f d). }
  intros w0 b w1 Hmiss Hget.
  assert (Hrun : get_team_data team_id None env w =
            match find_current (events b) with
            | Some g =>
                if g =? 0 then (Ok None, w1)
                else match remote env (tick w1) (picks_url team_id g) with
                     | Some team_data =>
                         (Ok (Some team_data),
                          written (get_cache_file (team_cache_key team_id None))
                            (mkCacheFile (clock env (S (tick w1))) (Some team_data))
                            (ticked (requested (picks_url team_id g) w1)))
                     | None =>
                         (Ok None, shown (st_error "Error fetching team data")
                                     (requested (picks_url team_id g) w1))
                     end
            | None => (Ok None, w1)
            end).
  { unfold get_team_data. cbv zeta. rewrite bind_run, Hmiss.
    cbn [gw_truthy]. rewrite bind_run, bind_run, Hget. cbn [py_truthy].
    unfold mret at 1, M_ret at 1.
    destruct (find_current (events b)) as [g|]; [|done].
    destruct (g =? 0); [done|].
    rewrite bind_run. unfold requests_get at 1.
    by destruct (remote env (tick w1) (picks_url team_id g)). }
  split.
  - intros Hnone. by rewrite Hrun, Hnone.
  - intros gw Hgw Hgw0. rewrite Hrun, Hgw, (proj2 (Z.eqb_neq gw 0)) by done.
    by destruct (remote env (tick w1) (picks_url team_id gw)).
Qed.

(** ** Runs on a populated, fresh cache *)

Lemma cache_first_fresh env w key h d :
  fresh_entry env (cache w) key h d →
  cache_first key h env w = (Ok (Some d), ticked w).
Proof. intros (f & Hc & Hd & Ht & Hage). by apply (cache_first_hit _ _ _ _ f). Qed.

Lemma get_bootstrap_data_fresh env w b :
  fresh_entry env (cache w) "bootstrap" 6 (DocBootstrap b) →
  get_bootstrap_data env w = (Ok (Some (DocBootstrap b)), ticked w).
Proof.
  intros Hf. unfold get_bootstrap_data.
  by rewrite bind_run, (cache_first_fresh _ _ _ _ _ Hf).
Qed.

Lemma get_player_history_fresh env w id d :
  fresh_entry env (cache w) (player_cache_key id) 24 d →
  get_player_history id env w = (Ok (Some d), ticked w).
Proof.
  intros Hf. unfold get_player_history. cbv zeta.
  by rewrite bind_run, (cache_first_fresh _ _ _ _ _ Hf).
Qed.

Lemma fresh_entry_cached_doc env c key h d :
  fresh_entry env c key h d → cached_doc c key = Some d.
Proof. intros (f & Hc & Hd & _). unfold cached_doc. by rewrite Hc. Qed.

Lemma loop_body_fresh weeks up gw teams_d n i p st env w d :
  fresh_entry env (cache w) (player_cache_key (player_id p)) 24 d →
  ∃ w', loop_body weeks up gw teams_d n i p st env w
        = (iteration_result weeks gw teams_d p st (Some d), w')
        ∧ cache w' = cache w ∧ http_log w' = http_log w.
Proof.
  intros Hf. unfold iteration_result, loop_body.
  rewrite bind_run. unfold lift at 1.
  destruct (dict_get teams_d (team p)) as [tn|e]; [|by exists w].
  cbn [mbind Res_bind]. rewrite bind_run. unfold lift at 1.
  destruct (dict_get positions (element_type p)) as [pos|e]; [|by exists w].
  cbn [mbind Res_bind]. cbv zeta.
  rewrite bind_run, show_progress_run, bind_run.
  rewrite (get_player_history_fresh _ _ _ d) by (by rewrite progress_world_cache).
  eexists. split; [done|]. cbn [cache http_log ticked]. by destruct up.
Qed.

Lemma players_loop_fresh weeks up gw teams_d n env players :
  ∀ i st w,
  Forall (λ p, ∃ d, fresh_entry env (cache w) (player_cache_key (player_id p)) 24 d)
    players →
  ∃ w', players_loop weeks up gw teams_d n i players st env w
        = (loop_on_cache weeks gw teams_d (cache w) players st, w')
        ∧ cache w' = cache w ∧ http_log w' = http_log w.
Proof.
  induction players as [|p rest IH]; intros i st w Hall.
  { by exists w. }
  apply Forall_cons in Hall as [[d Hf] Hrest].
  cbn [players_loop loop_on_cache]. rewrite bind_run.
  destruct (loop_body_fresh weeks up gw teams_d n i p st env w d Hf)
    as (w1 & -> & Hc1 & Hh1).
  rewrite (fresh_entry_cached_doc _ _ _ _ _ Hf).
  destruct (iteration_result weeks gw teams_d p st (Some d)) as [st1|e].
  - cbn [mbind Res_bind].
    destruct (IH (S i) st1 w1) as (w2 & -> & Hc2 & Hh2); [by rewrite Hc1|].
    exists w2. rewrite Hc1. split; [done|]. split; congruence.
  - exists w1. by cbn.
Qed.

Lemma calculate_populated `{Pandas} weeks up env w b :
  populated env (cache w) b →
  ∃ w', calculate_rolling_averages weeks up env w = (table_on_cache weeks (cache w) b, w')
        ∧ http_log w' = http_log w
        ∧ ∀ path, path ≠ get_cache_file (results_cache_key weeks) →
                  cache w' !! path = cache w !! path.
Proof.
  intros [Hb Hps].
  rewrite (calculate_with_snapshot _ _ _ _ b (ticked w))
    by by apply get_bootstrap_data_fresh.
  unfold table_on_cache.
  destruct (find_current (events b)) as [gw|]; [|by eexists].
  destruct (gw =? 0); [by eexists|].
  edestruct (players_loop_fresh weeks up gw (teams_dict (teams b)) (length (elements b))
               env (elements b) 0%nat (mkLoopState [] 0 0)
               (setup_world up (length (elements b)) (ticked w)))
    as (w2 & -> & Hc2 & Hh2).
  { by rewrite setup_world_cache. }
  rewrite setup_world_cache in Hc2. cbn [cache ticked] in Hc2.
  rewrite setup_world_cache.  cbn [cache ticked].
  assert (Hh : http_log w2 = http_log w) by (rewrite Hh2; by destruct up).
  destruct (loop_on_cache _ _ _ _ _ _) as [st|e]; [|by eexists; rewrite Hc2].
  cbn [mbind Res_bind]. destruct (results st) as [|r rs].
  - eexists. split; [done|]. rewrite done_world_cache, Hc2. split; [|done].
    by destruct up.
  - eexists. split; [done|]. split.
    + unfold saved_world. cbn [http_log written ticked]. by destruct up.
    + intros path Hne. unfold saved_world. cbn [cache written ticked].
      rewrite lookup_insert_ne by done. by rewrite done_world_cache, Hc2.
Qed.

Lemma fresh_entry_agree env c c' key h d :
  c' !! get_cache_file key = c !! get_cache_file key →
  fresh_entry env c key h d → fresh_entry env c' key h d.
Proof. intros Heq (f & Hc & ?). exists f. by rewrite Heq. Qed.

Lemma loop_on_cache_agree weeks gw teams_d c c' players :
  (∀ id, c' !! get_cache_file (player_cache_key id) = c !! get_cache_file (player_cache_key id)) →
  ∀ st, loop_on_cache weeks gw teams_d c' players st
        = loop_on_cache weeks gw teams_d c players st.
Proof.
  intros Heq. induction players as [|p rest IH]; intros st; [done|].
  cbn [loop_on_cache]. unfold cached_doc. rewrite Heq.
  destruct (iteration_result _ _ _ _ _ _); [cbn; apply IH|done].
Qed.

(** C8.  On a cache that holds, fresh at every reading of the clock, the
    snapshot and the history of each of its players, a second run right
    after a first returns the very result of the first, and neither run
    sends a request. *)
Theorem second_run_identical `{Pandas} weeks use_progress env w b r1 w1 r2 w2 :
  populated env (cache w) b →
  calculate_rolling_averages weeks use_progress env w = (r1, w1) →
  calculate_rolling_averages weeks use_progress env w1 = (r2, w2) →
  r2 = r1 ∧ http_log w1 = http_log w ∧ http_log w2 = http_log w.
Proof.
  intros Hpop Hrun1 Hrun2.
  destruct (calculate_populated weeks use_progress env w b Hpop)
    as (w1' & Hrun1' & Hh1 & Hframe).
  rewrite Hrun1 in Hrun1'. injection Hrun1' as -> <-.
  assert (Hplayers : ∀ id, cache w1 !! get_cache_file (player_cache_key id)
                           = cache w !! get_cache_file (player_cache_key id)).
  { intros id. apply Hframe, file_ne_player_results. }
  assert (Hpop1 : populated env (cache w1) b).
  { destruct Hpop as [Hb Hps]. split.
    - eapply fresh_entry_agree; [|done]. apply Hframe, file_ne_bootstrap_results.
    - eapply Forall_impl; [done|]. intros p [d Hd]. exists d.
      eapply fresh_entry_agree; [|done]. apply Hplayers. }
  destruct (calculate_populated weeks use_progress env w1 b Hpop1)
    as (w2' & Hrun2' & Hh2 & _).
  rewrite Hrun2 in Hrun2'. injection Hrun2' as -> <-.
  split; [|split; congruence].
  unfold table_on_cache.
  destruct (find_current (events b)) as [gw|]; [|done].
  destruct (gw =? 0); [done|].
  by rewrite (loop_on_cache_agree _ _ _ (cache w) (cache w1)).
Qed.

(** ** The claims on the small league *)

(** X23 on the small league, with the merge sort. *)
Lemma table_sorted_by_average_witness :
  ∃ df w',
    calculate_rolling_averages (H:=pandas_mergesort) 3 false (env_up snapshot 0) (world_of ∅)
    = (Ok df, w')
    ∧ Sorted (λ a b, Rolling_N_Week_Avg b ≤ Rolling_N_Week_Avg a)%Qc df
    ∧ Player_ID <$> df = [10; 20].
Proof.
  destruct (calculate_rolling_averages (H:=pandas_mergesort) 3 false (env_up snapshot 0)
              (world_of ∅)) as [[df|e] w'] eqn:Hrun; [|vm_compute in Hrun; discriminate].
  exists df, w'. split; [done|].
  split; [exact (proj1 (table_sorted_by_average (H:=pandas_mergesort) _ _ _ _ _ _ Hrun))|].
  vm_compute in Hrun. by injection Hrun as <- <-.
Defined.

(** C3 on the off-season snapshot. *)
Lemma no_current_gameweek_aborts_witness :
  calculate_rolling_averages (H:=pandas_mergesort) 3 true (env_up snapshot_off_season 0)
    (world_of ∅)
  = (Ok [], shown season_over
              (written (get_cache_file "bootstrap")
                 (mkCacheFile 0 (Some (DocBootstrap snapshot_off_season)))
                 (ticked (requested bootstrap_url (world_of ∅))))).
Proof.
  apply (no_current_gameweek_aborts (H:=pandas_mergesort) 3 true
           (env_up snapshot_off_season 0) (world_of ∅) snapshot_off_season).
  - reflexivity.
  - repeat constructor.
Defined.

(** C4 with the service down: on a snapshot cached ten hours ago, and on an
    empty cache. *)
Lemma bootstrap_fetch_failure_witness :
  (∃ w', get_bootstrap_data (env_down 10) (world_of cache_snapshot)
         = (Ok (Some (DocBootstrap snapshot)), w')
         ∧ cache w' = cache_snapshot
         ∧ st_log w' = [st_warning "Using stale cached data as fallback";
                        st_error "Error fetching bootstrap data"])
  ∧ (∃ w', get_bootstrap_data (env_down 10) (world_of ∅) = (Ok None, w'))
  ∧ (∃ w', calculate_rolling_averages (H:=pandas_mergesort) 3 true (env_down 10) (world_of ∅)
           = (Ok [], w')).
Proof.
  split.
  - apply (proj1 (bootstrap_fetch_failure (H:=pandas_mergesort) (env_down 10)
                    (world_of cache_snapshot) (λ _, eq_refl))
             (mkCacheFile 0 (Some (DocBootstrap snapshot)))).
    + reflexivity.
    + reflexivity.
    + reflexivity.
    + vm_compute. discriminate.
  - destruct (proj2 (bootstrap_fetch_failure (H:=pandas_mergesort) (env_down 10)
                       (world_of ∅) (λ _, eq_refl))) as [Hget Hcalc];
      [vm_compute; reflexivity|].
    split; [exact Hget|exact (Hcalc 3 true)].
Defined.

(** C5 with the service down and no history in the cache. *)
Lemma history_failure_skips_player_witness :
  loop_body 3 false 5 (teams_dict league_teams) 2 0 salah (mkLoopState [] 0 0)
    (env_down 10) (world_of cache_snapshot)
  = (Ok (mkLoopState [] 1 0), requested (history_url 10) (world_of cache_snapshot))
  ∧ players_loop 3 false 5 (teams_dict league_teams) 2 0 [salah; haaland]
      (mkLoopState [] 0 0) (env_down 10) (world_of cache_snapshot)
    = players_loop 3 false 5 (teams_dict league_teams) 2 1 [haaland]
        (mkLoopState [] 1 0) (env_down 10)
        (requested (history_url 10) (world_of cache_snapshot)).
Proof.
  destruct (history_failure_skips_player 3 false 5 (teams_dict league_teams) 2 0 salah
              [haaland] (mkLoopState [] 0 0) (env_down 10) (world_of cache_snapshot)
              "Liverpool" "Midfielder") as [Hget Hskip];
    [reflexivity | reflexivity |].
  apply (Hskip None (requested (history_url 10) (world_of cache_snapshot)));
    [|reflexivity].
  apply Hget; [reflexivity | vm_compute; reflexivity].
Defined.

(** C6, as amended, on Salah, 5 points in 270 minutes, and on a player with
    21 points in 240 minutes: the quotient 21 / 240 is not a binary64 number,
    its float times 90 is just below 7.875, and the field is 7.87. *)
Lemma points_per_90_of_record_witness :
  (∃ r, summarise 3 5 salah "Liverpool" "Midfielder" (Qc_of_Z 125 / Qc_of_Z 10)%Qc salah_games
        = Ok (Some r)
        ∧ Points_Per_90 r
          = py_round2 (float_mul (binary64 (Qc_of_Z 5 / Qc_of_Z 270)) (Qc_of_Z 90)))
  ∧ (∃ r, summarise 3 5 salah "Liverpool" "Midfielder" (Qc_of_Z 125 / Qc_of_Z 10)%Qc
            steady_games = Ok (Some r)
          ∧ Last_N_GW_Points r = 21
          ∧ Total_Minutes r = 240
          ∧ Points_Per_90 r = binary64 (Qc_of_Z 787 / Qc_of_Z 100)).
Proof.
  split.
  - destruct (summarise 3 5 salah "Liverpool" "Midfielder" (Qc_of_Z 125 / Qc_of_Z 10)%Qc
                salah_games) as [[r|]|e] eqn:Hs; try (vm_compute in Hs; discriminate).
    exists r. split; [done|].
    destruct (points_per_90_of_record _ _ _ _ _ _ _ _ Hs) as (Hpts & Hmin & _ & Hpos & _).
    assert (Hp : Last_N_GW_Points r = 5) by (rewrite Hpts; reflexivity).
    assert (Hm : Total_Minutes r = 270) by (rewrite Hmin; reflexivity).
    rewrite Hpos by lia. by rewrite Hp, Hm.
  - destruct (summarise 3 5 salah "Liverpool" "Midfielder" (Qc_of_Z 125 / Qc_of_Z 10)%Qc
                steady_games) as [[r|]|e] eqn:Hs; try (vm_compute in Hs; discriminate).
    exists r. split; [done|].
    destruct (points_per_90_of_record _ _ _ _ _ _ _ _ Hs) as (Hpts & Hmin & _ & Hpos & _).
    assert (Hp : Last_N_GW_Points r = 21) by (rewrite Hpts; reflexivity).
    assert (Hm : Total_Minutes r = 240) by (rewrite Hmin; reflexivity).
    split; [done|]. split; [done|].
    rewrite Hpos by lia. rewrite Hp, Hm. by apply Qc_is_canon.
Defined.

(** C6 as stated fails: Salah's row has 5 points in 270 minutes and a
    [Points_Per_90] of 1.67, which is neither the number (5 / 270) * 90 nor
    the float that Python computes for it. *)
Lemma points_per_90_is_rounded :
  ∃ r, summarise 3 5 salah "Liverpool" "Midfielder" (Qc_of_Z 125 / Qc_of_Z 10)%Qc salah_games
       = Ok (Some r)
       ∧ Last_N_GW_Points r = 5
       ∧ Total_Minutes r = 270
       ∧ Points_Per_90 r = binary64 (Qc_of_Z 167 / Qc_of_Z 100)
       ∧ Points_Per_90 r ≠ (Qc_of_Z 5 / Qc_of_Z 270 * Qc_of_Z 90)%Qc
       ∧ Points_Per_90 r ≠ float_mul (binary64 (Qc_of_Z 5 / Qc_of_Z 270)) (Qc_of_Z 90).
Proof.
  eexists. split; [reflexivity|]. split; [reflexivity|]. split; [reflexivity|].
  split; [by apply Qc_is_canon|].
  split; intros Heq; apply (f_equal this) in Heq; vm_compute in Heq; discriminate.
Qed.

(** C7, as amended, on the small league. *)
Lemma results_saved_when_nonempty_witness :
  ∃ df w' timestamp saved_at,
    calculate_rolling_averages (H:=pandas_mergesort) 3 false (env_up snapshot 0) (world_of ∅)
    = (Ok df, w')
    ∧ Player_ID <$> df = [10; 20]
    ∧ cache w' !! get_cache_file (results_cache_key 3)
      = Some (mkCacheFile saved_at (Some (DocResults df timestamp 5))).
Proof.
  destruct (calculate_rolling_averages (H:=pandas_mergesort) 3 false (env_up snapshot 0)
              (world_of ∅)) as [[df|e] w'] eqn:Hrun; [|vm_compute in Hrun; discriminate].
  assert (Hids : Player_ID <$> df = [10; 20]).
  { vm_compute in Hrun. by injection Hrun as <- <-. }
  destruct (proj1 (results_saved_when_nonempty (H:=pandas_mergesort) _ _ _ _ _ _ Hrun))
    as (b & w1 & gw & timestamp & saved_at & Hget & Hgw & Hfile).
  { intros ->. discriminate Hids. }
  exists df, w', timestamp, saved_at. split; [done|]. split; [done|].
  vm_compute in Hget. injection Hget as <- <-.
  vm_compute in Hgw. injection Hgw as <-. exact Hfile.
Defined.

(** C7 as stated fails: on a snapshot without players the run completes with
    the empty table, gameweek 5 being current, and the cache has no file for
    the window afterwards. *)
Lemma empty_table_is_not_saved :
  fst (calculate_rolling_averages (H:=pandas_mergesort) 3 false (env_up snapshot_empty 0)
         (world_of ∅)) = Ok []
  ∧ find_current (events snapshot_empty) = Some 5
  ∧ cache (snd (calculate_rolling_averages (H:=pandas_mergesort) 3 false
                  (env_up snapshot_empty 0) (world_of ∅)))
      !! get_cache_file (results_cache_key 3) = None.
Proof. by vm_compute. Qed.

(** The full cache, one hour old, is populated and fresh. *)
Lemma populated_cache_full : populated (env_up snapshot 1) cache_full snapshot.
Proof.
  split.
  - eexists. split; [reflexivity|]. split; [reflexivity|]. split; [reflexivity|].
    intros t. by vm_compute.
  - repeat constructor; eexists; eexists;
      (split; [reflexivity|]); (split; [reflexivity|]); (split; [reflexivity|]);
      intros t; by vm_compute.
Defined.

(** C8 on the full cache. *)
Lemma second_run_identical_witness :
  ∃ r1 w1 r2 w2,
    calculate_rolling_averages (H:=pandas_mergesort) 3 true (env_up snapshot 1)
      (world_of cache_full) = (r1, w1)
    ∧ calculate_rolling_averages (H:=pandas_mergesort) 3 true (env_up snapshot 1) w1 = (r2, w2)
    ∧ r2 = r1 ∧ http_log w2 = [].
Proof.
  destruct (calculate_rolling_averages (H:=pandas_mergesort) 3 true (env_up snapshot 1)
              (world_of cache_full)) as [r1 w1] eqn:Hrun1.
  destruct (calculate_rolling_averages (H:=pandas_mergesort) 3 true (env_up snapshot 1) w1)
    as [r2 w2] eqn:Hrun2.
  exists r1, w1, r2, w2. split; [done|]. split; [done|].
  destruct (second_run_identical (H:=pandas_mergesort) 3 true (env_up snapshot 1)
              (world_of cache_full) snapshot r1 w1 r2 w2 populated_cache_full Hrun1 Hrun2)
    as (Hr & _ & Hlog).
  by split.
Defined.

(** C9, as amended, off season: with stale picks in the cache the gameweek
    is looked for and not found; with picks one hour old they are returned. *)
Lemma team_data_resolves_gameweek_witness :
  get_team_data 7 None (env_up snapshot_off_season 1) (world_of cache_picks_stale)
  = (Ok None, ticked (ticked (world_of cache_picks_stale)))
  ∧ get_team_data 7 None (env_up snapshot_off_season 1) (world_of cache_picks)
    = (Ok (Some (DocPicks squad)), ticked (world_of cache_picks)).
Proof.
  split.
  - apply (proj1 (proj1 (team_data_resolves_gameweek 7 (env_up snapshot_off_season 1)
                           (world_of cache_picks_stale))
                    (ticked (world_of cache_picks_stale)) snapshot_off_season
                    (ticked (ticked (world_of cache_picks_stale))) eq_refl eq_refl)).
    reflexivity.
  - apply (proj2 (team_data_resolves_gameweek 7 (env_up snapshot_off_season 1)
                    (world_of cache_picks))
             (mkCacheFile 0 (Some (DocPicks squad))) (DocPicks squad));
      [vm_compute; reflexivity | vm_compute; reflexivity | reflexivity | reflexivity].
Defined.

(** C9 as stated fails: no event of the cached snapshot is current, and the
    call without a gameweek returns the picks of the cache, one hour old. *)
Lemma cached_picks_skip_the_gameweek :
  find_current (events snapshot_off_season) = None
  ∧ get_bootstrap_data (env_up snapshot_off_season 1) (world_of cache_picks)
    = (Ok (Some (DocBootstrap snapshot_off_season)), ticked (world_of cache_picks))
  ∧ get_team_data 7 None (env_up snapshot_off_season 1) (world_of cache_picks)
    = (Ok (Some (DocPicks squad)), ticked (world_of cache_picks)).
Proof. by vm_compute. Qed.

(** C10 on a snapshot with a player of an unlisted team. *)
Lemma failed_lookup_aborts_witness :
  (∃ k, loop_body 3 false 5 (teams_dict league_teams) 3 1 ghost (mkLoopState [] 1 1)
          (env_up snapshot_ghost 0) (world_of ∅) = (Raise (KeyErrorInt k), world_of ∅))
  ∧ (∃ k w', calculate_rolling_averages (H:=pandas_mergesort) 3 false
               (env_up snapshot_ghost 0) (world_of ∅) = (Raise (KeyErrorInt k), w')).
Proof.
  destruct (failed_lookup_aborts (H:=pandas_mergesort) 3 false (env_up snapshot_ghost 0)
              (world_of ∅) snapshot_ghost
              (written (get_cache_file "bootstrap")
                 (mkCacheFile 0 (Some (DocBootstrap snapshot_ghost)))
                 (ticked (requested bootstrap_url (world_of ∅)))) 5)
    as [Hbody Hrun]; [lia | reflexivity | reflexivity | lia |].
  assert (Hghost : team ghost ∉ team_id <$> teams snapshot_ghost).
  { cbn. rewrite !not_elem_of_cons. repeat split; try discriminate. apply not_elem_of_nil. }
  split.
  - apply Hbody. by left.
  - apply Hrun. apply Exists_cons. right. apply Exists_cons. left. by left.
Defined.

(** * Further properties of the handler *)

(** ** Cache files *)

Lemma list_ascii_of_string_app s1 s2 :
  Stdlib.Strings.String.list_ascii_of_string (s1 +:+ s2) = Stdlib.Strings.String.list_ascii_of_string s1 ++ Stdlib.Strings.String.list_ascii_of_string s2.
Proof.
  induction s1 as [|a s1 IH]; [done|].
  change (String a s1 +:+ s2) with (String a (s1 +:+ s2)). cbn. by rewrite IH.
Qed.

Lemma string_app_inj_r s1 s2 t : s1 +:+ t = s2 +:+ t → s1 = s2.
Proof.
  intros Heq. apply (f_equal Stdlib.Strings.String.list_ascii_of_string) in Heq.
  rewrite !list_ascii_of_string_app in Heq. apply app_inv_tail in Heq.
  rewrite <-(Stdlib.Strings.String.string_of_list_ascii_of_string s1), <-(Stdlib.Strings.String.string_of_list_ascii_of_string s2).
  by rewrite Heq.
Qed.

Lemma get_cache_file_inj key key' : get_cache_file key = get_cache_file key' → key = key'.
Proof.
  unfold get_cache_file. intros Heq.
  apply (inj (String.app cache_dir)), (inj (String.app "/")) in Heq.
  by apply string_app_inj_r in Heq.
Qed.

(** X1.  What [save_to_cache] writes under a key, [load_from_cache] reads
    back under that key; [is_cache_valid] then compares the time that passed
    between the write and the test with the age allowed; the files of all
    other keys are as they were. *)
Theorem save_then_load key data env w :
  ∃ w', save_to_cache key data env w = (Ok (), w')
        ∧ load_from_cache key env w' = (Ok (Some data), w')
        ∧ (∀ h, is_cache_valid key h env w'
                = (Ok (bool_decide (clock env (S (tick w)) - clock env (tick w) < hours h)),
                   ticked w'))
        ∧ (∀ key', key' ≠ key →
             cache w' !! get_cache_file key' = cache w !! get_cache_file key').
Proof.
  eexists. split; [reflexivity|]. split; [|split].
  - apply (load_from_cache_readable _ _ _ (mkCacheFile (clock env (tick w)) (Some data)));
      [|done]. cbn. apply lookup_insert_eq.
  - intros h.
    rewrite (is_cache_valid_file _ _ _ _ (mkCacheFile (clock env (tick w)) (Some data)));
      [done|]. cbn. apply lookup_insert_eq.
  - intros key' Hne. cbn. rewrite lookup_insert_ne; [done|].
    intros Heq. by apply get_cache_file_inj in Heq.
Qed.

(** ** What the fetchers leave behind *)

Lemma cache_first_inv key h env w r w' :
  cache_first key h env w = (r, w') →
  cache w' = cache w ∧ http_log w' = http_log w
  ∧ (w' = w ∨ w' = ticked w ∨ w' = shown (st_warning "Could not load cache") (ticked w))
  ∧ ((∃ d f, r = Ok (Some d) ∧ cache w !! get_cache_file key = Some f
             ∧ content f = Some d ∧ py_truthy (Some d) = true
             ∧ clock env (tick w) - mtime f < hours h ∧ w' = ticked w)
     ∨ r = Ok None).
Proof.
  unfold cache_first. rewrite bind_run. unfold is_cache_valid.
  destruct (cache w !! get_cache_file key) as [f|] eqn:Hc.
  - rewrite bind_run. cbn [read_clock]. unfold mret at 1, M_ret at 1.
    destruct (bool_decide _) eqn:Hage.
    + rewrite bind_run. unfold load_from_cache. cbn [cache ticked]. rewrite Hc.
      destruct (content f) as [d|] eqn:Hd.
      * unfold mret, M_ret. destruct (py_truthy (Some d)) eqn:Ht.
        -- intros [= <- <-]. repeat split; auto. left. exists d, f.
           apply bool_decide_eq_true_1 in Hage. by repeat split.
        -- intros [= <- <-]. repeat split; auto.
      * rewrite bind_run. cbn. intros [= <- <-]. repeat split; auto.
    + cbn. intros [= <- <-]. repeat split; auto.
  - cbn. intros [= <- <-]. repeat split; auto.
Qed.

Lemma cache_first_tick key h env w r w' :
  cache_first key h env w = (r, w') → tick w' = tick w ∨ tick w' = S (tick w).
Proof.
  intros Hrun. apply cache_first_inv in Hrun as (_ & _ & [->|[->| ->]] & _); auto.
Qed.

(** What a fetcher that saves its answer and may fall back on the stale
    file has done, in terms of the key and the URL it uses. *)
Lemma fetch_answer_in_cache key url h env w (fallback : M (option Doc)) d w1 :
  (hit ← cache_first key h;
   match hit with
   | Some d => mret (Some d)
   | None =>
       response ← requests_get url;
       match response with
       | Some data => save_to_cache key data;; mret (Some data)
       | None => fallback
       end
   end) env w = (Ok (Some d), w1) →
  (∀ w0 r w', cache w0 = cache w → fallback env w0 = (Ok (Some r), w') →
     cache w' = cache w ∧ ∃ f, cache w !! get_cache_file key = Some f ∧ content f = Some r) →
  ∃ f, cache w1 !! get_cache_file key = Some f ∧ content f = Some d.
Proof.
  intros Hrun Hfb. rewrite bind_run in Hrun.
  destruct (cache_first key h env w) as [r w0] eqn:Hcf.
  apply cache_first_inv in Hcf as (Hc0 & _ & _ & [(d' & f & -> & Hf & Hd & _ & _ & ->)| ->]).
  - injection Hrun as <- <-. by exists f.
  - rewrite bind_run in Hrun. unfold requests_get at 1 in Hrun.
    destruct (remote env (tick w0) url) as [data|].
    + cbn in Hrun. injection Hrun as <- <-. eexists. split; [apply lookup_insert_eq|done].
    + destruct (Hfb (requested url w0) d w1) as (Hc1 & f & Hf & Hd); [done..|].
      exists f. by rewrite Hc1.
Qed.

Lemma fallback_on_stale key env w0 (k : option Doc → M (option Doc)) w r w' :
  cache w0 = cache w →
  (cached_data ← load_from_cache key; k cached_data) env w0 = (Ok (Some r), w') →
  (∀ c w2 w3 r', cache w2 = cache w → k c env w2 = (Ok (Some r'), w3) →
                 cache w3 = cache w ∧ c = Some r') →
  cache w' = cache w ∧ ∃ f, cache w !! get_cache_file key = Some f ∧ content f = Some r.
Proof.
  intros Hc Hrun Hk. rewrite bind_run in Hrun. unfold load_from_cache in Hrun.
  rewrite Hc in Hrun.
  destruct (cache w !! get_cache_file key) as [f|] eqn:Hf.
  - destruct (content f) as [d|] eqn:Hd.
    + apply Hk in Hrun as [Hc' [= ->]]; [|done]. split; [done|]. by exists f.
    + cbn in Hrun. by apply Hk in Hrun as [_ ?].
  - by apply Hk in Hrun as [_ ?].
Qed.

Lemma get_bootstrap_data_answer env w d w1 :
  get_bootstrap_data env w = (Ok (Some d), w1) →
  ∃ f, cache w1 !! get_cache_file "bootstrap" = Some f ∧ content f = Some d.
Proof.
  intros Hrun. eapply fetch_answer_in_cache; [exact Hrun|].
  intros w0 r w' Hc0 Hfb. rewrite bind_run in Hfb. unfold st_emit at 1 in Hfb.
  eapply (fallback_on_stale _ _ (shown _ w0)); [exact Hc0|exact Hfb|].
  intros c w2 w3 r' Hc2 Hk. cbv beta in Hk. destruct (py_truthy c); cbn in Hk; [|done].
  injection Hk as -> <-. by split.
Qed.

Lemma get_player_history_answer id env w d w1 :
  get_player_history id env w = (Ok (Some d), w1) →
  ∃ f, cache w1 !! get_cache_file (player_cache_key id) = Some f ∧ content f = Some d.
Proof.
  intros Hrun. eapply fetch_answer_in_cache; [exact Hrun|].
  intros w0 r w' Hc0 Hfb.
  eapply (fallback_on_stale _ _ w0); [exact Hc0|exact Hfb|].
  intros c w2 w3 r' Hc2 Hk. cbv beta in Hk. destruct (py_truthy c); cbn in Hk; [|done].
  injection Hk as -> <-. by split.
Qed.

Lemma get_team_data_answer team_id gameweek env w d w1 :
  get_team_data team_id gameweek env w = (Ok (Some d), w1) →
  ∃ f, cache w1 !! get_cache_file (team_cache_key team_id gameweek) = Some f
       ∧ content f = Some d.
Proof.
  unfold get_team_data. cbv zeta. intros Hrun. rewrite bind_run in Hrun.
  destruct (cache_first _ 2 env w) as [r w0] eqn:Hcf.
  apply cache_first_inv in Hcf as (Hc0 & _ & _ & [(d' & f & -> & Hf & Hd & _ & _ & ->)| ->]).
  { injection Hrun as <- <-. by exists f. }
  rewrite bind_run in Hrun.
  match type of Hrun with
  | context [ (if gw_truthy gameweek then ?a else ?b) env w0 ] =>
      destruct ((if gw_truthy gameweek then a else b) env w0) as [[[g|]|e] w2]; try done
  end.
  destruct (g =? 0); [done|].
  rewrite bind_run in Hrun. unfold requests_get at 1 in Hrun.
  destruct (remote env (tick w2) _) as [team_data|]; [|done].
  cbn in Hrun. injection Hrun as <- <-. eexists. split; [apply lookup_insert_eq|done].
Qed.

(** X2.  A truthy document that [get_bootstrap_data], [get_player_history]
    or [get_team_data] returns is the content of the cache file of its key
    afterwards, whether it came from the cache, from the service or from the
    stale file; and while that file is young enough, the next call returns
    the same document and does nothing but read the clock. *)
Theorem answers_are_served_from_the_cache env w d w1 :
  py_truthy (Some d) = true →
  (get_bootstrap_data env w = (Ok (Some d), w1) →
   ∃ f, cache w1 !! get_cache_file "bootstrap" = Some f ∧ content f = Some d
        ∧ (clock env (tick w1) - mtime f < hours 6 →
           get_bootstrap_data env w1 = (Ok (Some d), ticked w1)))
  ∧ (∀ player_id,
       get_player_history player_id env w = (Ok (Some d), w1) →
       ∃ f, cache w1 !! get_cache_file (player_cache_key player_id) = Some f
            ∧ content f = Some d
            ∧ (clock env (tick w1) - mtime f < hours 24 →
               get_player_history player_id env w1 = (Ok (Some d), ticked w1)))
  ∧ (∀ team_id gameweek,
       get_team_data team_id gameweek env w = (Ok (Some d), w1) →
       ∃ f, cache w1 !! get_cache_file (team_cache_key team_id gameweek) = Some f
            ∧ content f = Some d
            ∧ (clock env (tick w1) - mtime f < hours 2 →
               get_team_data team_id gameweek env w1 = (Ok (Some d), ticked w1))).
Proof.
  intros Ht. split; [|split].
  - intros Hrun. destruct (get_bootstrap_data_answer _ _ _ _ Hrun) as (f & Hf & Hd).
    exists f. split; [done|]. split; [done|]. intros Hage.
    unfold get_bootstrap_data. by rewrite bind_run, (cache_first_hit _ _ _ _ f d).
  - intros id Hrun. destruct (get_player_history_answer _ _ _ _ _ Hrun) as (f & Hf & Hd).
    exists f. split; [done|]. split; [done|]. intros Hage.
    unfold get_player_history. cbv zeta.
    by rewrite bind_run, (cache_first_hit _ _ _ _ f d).
  - intros team_id gameweek Hrun.
    destruct (get_team_data_answer _ _ _ _ _ _ Hrun) as (f & Hf & Hd).
    exists f. split; [done|]. split; [done|]. intros Hage.
    unfold get_team_data. cbv zeta.
    by rewrite bind_run, (cache_first_hit _ _ _ _ f d).
Qed.

(** X2 on the small league: the snapshot fetched into an empty cache is
    served from the cache by the next call. *)
Lemma answers_are_served_from_the_cache_witness :
  ∃ w1, get_bootstrap_data (env_up snapshot 1) (world_of ∅)
        = (Ok (Some (DocBootstrap snapshot)), w1)
        ∧ http_log w1 = [bootstrap_url]
        ∧ get_bootstrap_data (env_up snapshot 1) w1
          = (Ok (Some (DocBootstrap snapshot)), ticked w1).
Proof.
  set (w1 := written (get_cache_file "bootstrap")
               (mkCacheFile (hours 1) (Some (DocBootstrap snapshot)))
               (ticked (requested bootstrap_url (world_of ∅)))).
  assert (Hrun : get_bootstrap_data (env_up snapshot 1) (world_of ∅)
                 = (Ok (Some (DocBootstrap snapshot)), w1)) by reflexivity.
  destruct (proj1 (answers_are_served_from_the_cache (env_up snapshot 1) (world_of ∅)
                     (DocBootstrap snapshot) w1 eq_refl) Hrun) as (f & Hf & Hd & Hnext).
  exists w1. split; [done|]. split; [reflexivity|]. apply Hnext.
  vm_compute in Hf. injection Hf as <-. vm_compute. reflexivity.
Defined.

(** X3.  A bootstrap file that cannot be read is no answer, however young it
    is: [get_bootstrap_data] sends the request, returns what the service
    answers and saves it; when the request fails too, it returns [None] and
    leaves the cache as it was, having warned that the cache did not load. *)
Theorem unreadable_bootstrap_file_is_refetched env w f :
  cache w !! get_cache_file "bootstrap" = Some f →
  content f = None →
  ∃ w', get_bootstrap_data env w = (Ok (remote env (S (tick w)) bootstrap_url), w')
        ∧ http_log w' = bootstrap_url :: http_log w
        ∧ match remote env (S (tick w)) bootstrap_url with
          | Some data =>
              ∃ f', cache w' !! get_cache_file "bootstrap" = Some f'
                    ∧ content f' = Some data
          | None =>
              cache w' = cache w ∧ st_warning "Could not load cache" ∈ st_log w'
          end.
Proof.
  intros Hf Hd. unfold get_bootstrap_data. rewrite bind_run.
  assert (Hcf : ∃ w0, cache_first "bootstrap" 6 env w = (Ok None, w0)
                      ∧ cache w0 = cache w ∧ tick w0 = S (tick w)
                      ∧ http_log w0 = http_log w).
  { unfold cache_first. rewrite bind_run, (is_cache_valid_file _ _ _ _ f) by done.
    destruct (bool_decide _).
    - rewrite bind_run. unfold load_from_cache. cbn [cache ticked]. rewrite Hf, Hd.
      cbn. by eexists.
    - cbn. by eexists. }
  destruct Hcf as (w0 & -> & Hc0 & Ht0 & Hh0).
  rewrite bind_run. unfold requests_get at 1. rewrite Ht0.
  destruct (remote env (S (tick w)) bootstrap_url) as [data|].
  - cbn. eexists. split; [done|]. cbn. rewrite Hh0. split; [done|].
    eexists. split; [apply lookup_insert_eq|done].
  - rewrite bind_run. unfold st_emit at 1. rewrite bind_run.
    unfold load_from_cache. cbn [cache shown requested]. rewrite Hc0, Hf, Hd.
    cbn. eexists. split; [done|]. cbn. rewrite Hh0, Hc0. repeat split.
    apply list_elem_of_here.
Qed.

(** X3 on a cache whose bootstrap file does not parse, the service up. *)
Lemma unreadable_bootstrap_file_is_refetched_witness :
  ∃ w', get_bootstrap_data (env_up snapshot 1) (world_of cache_unreadable)
        = (Ok (Some (DocBootstrap snapshot)), w')
        ∧ http_log w' = [bootstrap_url].
Proof.
  destruct (unreadable_bootstrap_file_is_refetched (env_up snapshot 1)
              (world_of cache_unreadable) (mkCacheFile 0 None))
    as (w' & Hrun & Hlog & _); [vm_compute; reflexivity | reflexivity |].
  exists w'. split; [exact Hrun | exact Hlog].
Defined.

Lemma player_cache_key_inj id id' : player_cache_key id = player_cache_key id' → id = id'.
Proof.
  unfold player_cache_key. intros Heq.
  apply (inj (String.app "player_")) in Heq. by apply (inj pretty) in Heq.
Qed.

Lemma file_ne_fixtures_player id :
  get_cache_file (player_cache_key id) ≠ get_cache_file "fixtures".
Proof. discriminate. Qed.

Lemma file_ne_team_player id team_id gameweek :
  get_cache_file (player_cache_key id) ≠ get_cache_file (team_cache_key team_id gameweek).
Proof. discriminate. Qed.

(** What a call of [get_player_history] can change. *)
Lemma get_player_history_effects player_id env w :
  ∃ r w', get_player_history player_id env w = (Ok r, w')
          ∧ (http_log w' = http_log w
             ∨ http_log w' = history_url player_id :: http_log w)
          ∧ (∀ path, path ≠ get_cache_file (player_cache_key player_id) →
                     cache w' !! path = cache w !! path).
Proof.
  unfold get_player_history. cbv zeta. rewrite bind_run.
  destruct (cache_first _ 24 env w) as [r w0] eqn:Hcf.
  apply cache_first_inv in Hcf
    as (Hc0 & Hh0 & _ & [(d' & f & -> & _ & _ & _ & _ & ->)| ->]).
  { cbn. eexists _, _. split; [done|]. split; [by left|done]. }
  rewrite bind_run. unfold requests_get at 1.
  destruct (remote env (tick w0) _) as [data|].
  - cbn. eexists _, _. split; [done|]. cbn. rewrite Hh0, Hc0. split; [by right|].
    intros path Hne. by rewrite lookup_insert_ne.
  - rewrite bind_run. unfold load_from_cache. cbn [cache requested]. rewrite Hc0.
    destruct (cache w !! _) as [f|]; [destruct (content f) as [d|]|];
      cbn; eexists _, _; (split; [done|]); cbn; rewrite Hh0, ?Hc0; (split; [by right|done]).
Qed.

(** X4.  [get_player_history] always returns; it sends at most one request,
    for the history of its player, and changes no file but the cache file of
    that player, so that the histories of all other players stay as they
    were. *)
Theorem get_player_history_is_contained player_id env w :
  ∃ r w', get_player_history player_id env w = (Ok r, w')
          ∧ (http_log w' = http_log w
             ∨ http_log w' = history_url player_id :: http_log w)
          ∧ (∀ path, path ≠ get_cache_file (player_cache_key player_id) →
                     cache w' !! path = cache w !! path)
          ∧ (∀ other, other ≠ player_id →
                cache w' !! get_cache_file (player_cache_key other)
                = cache w !! get_cache_file (player_cache_key other)).
Proof.
  destruct (get_player_history_effects player_id env w) as (r & w' & Hrun & Hlog & Hframe).
  exists r, w'. repeat split; try done.
  intros other Hne. apply Hframe. intros Heq.
  by apply get_cache_file_inj, player_cache_key_inj in Heq.
Qed.

(** ** Requests of a run *)

Lemma get_bootstrap_data_requests env w :
  ∃ r w', get_bootstrap_data env w = (Ok r, w')
          ∧ (http_log w' = http_log w ∨ http_log w' = bootstrap_url :: http_log w).
Proof.
  unfold get_bootstrap_data. rewrite bind_run.
  destruct (cache_first _ 6 env w) as [r w0] eqn:Hcf.
  apply cache_first_inv in Hcf
    as (Hc0 & Hh0 & _ & [(d' & f & -> & _ & _ & _ & _ & ->)| ->]).
  { cbn. eexists _, _. split; [done|]. by left. }
  rewrite bind_run. unfold requests_get at 1.
  destruct (remote env (tick w0) _) as [data|].
  - cbn. eexists _, _. split; [done|]. cbn. rewrite Hh0. by right.
  - rewrite bind_run. unfold st_emit at 1. rewrite bind_run.
    unfold load_from_cache. cbn [cache shown requested].
    destruct (cache w0 !! _) as [f|]; [destruct (content f) as [d|]|];
      [destruct (py_truthy (Some d))|..];
      cbn; eexists _, _; (split; [done|]); cbn; rewrite Hh0; by right.
Qed.

Lemma progress_world_http up n i p st w : http_log (progress_world up n i p st w) = http_log w.
Proof. by destruct up. Qed.

Lemma loop_body_requests weeks up gw teams_d n i p st env w r w' :
  loop_body weeks up gw teams_d n i p st env w = (r, w') →
  http_log w' = http_log w ∨ http_log w' = history_url (player_id p) :: http_log w.
Proof.
  intros Hrun.
  destruct (teams_d !! team p) as [tn|] eqn:Ht; cycle 1.
  { destruct (loop_body_lookup_error weeks up gw teams_d n i p st env w) as [k Hk];
      [by left|]. rewrite Hk in Hrun. injection Hrun as _ <-. by left. }
  destruct (positions !! element_type p) as [pos|] eqn:Hp; cycle 1.
  { destruct (loop_body_lookup_error weeks up gw teams_d n i p st env w) as [k Hk];
      [by right|]. rewrite Hk in Hrun. injection Hrun as _ <-. by left. }
  destruct (loop_body_fetches weeks up gw teams_d n i p st env w _ _ Ht Hp)
    as (hd & w2 & Hget & Hbody).
  rewrite Hbody in Hrun. injection Hrun as _ <-.
  destruct (get_player_history_effects (player_id p) env (progress_world up n i p st w))
    as (r' & w2' & Hget' & Hlog & _).
  rewrite Hget in Hget'. injection Hget' as <- <-.
  by rewrite progress_world_http in Hlog.
Qed.

Lemma players_loop_requests weeks up gw teams_d n players :
  ∀ i st env w r w',
  players_loop weeks up gw teams_d n i players st env w = (r, w') →
  ∃ sent, http_log w' = sent ++ http_log w
          ∧ (length sent ≤ length players)%nat
          ∧ Forall (λ url, ∃ p, p ∈ players ∧ url = history_url (player_id p)) sent.
Proof.
  induction players as [|p rest IH]; intros i st env w r w' Hrun.
  { injection Hrun as _ <-. exists []. split; [done|]. split; [cbn; lia|done]. }
  cbn [players_loop] in Hrun. rewrite bind_run in Hrun.
  destruct (loop_body weeks up gw teams_d n i p st env w) as [[st1|e] w1] eqn:Hbody.
  - apply loop_body_requests in Hbody.
    apply IH in Hrun as (sent & Hlog & Hlen & Hall).
    assert (Hrest : Forall (λ url, ∃ q, q ∈ p :: rest ∧ url = history_url (player_id q)) sent).
    { eapply Forall_impl; [done|]. intros url (q & ? & ?). exists q. split; [by right|done]. }
    destruct Hbody as [Hb|Hb]; rewrite Hb in Hlog.
    + exists sent. split; [done|]. split; [cbn; lia|done].
    + exists (sent ++ [history_url (player_id p)]). rewrite <-app_assoc. split; [done|].
      split; [rewrite length_app; cbn; lia|].
      apply Forall_app. split; [done|]. constructor; [|done]. exists p. split; [left|done].
  - injection Hrun as _ <-. apply loop_body_requests in Hbody as [Hb|Hb].
    + exists []. split; [done|]. split; [cbn; lia|done].
    + exists [history_url (player_id p)]. split; [done|]. split; [cbn; lia|].
      constructor; [|done]. exists p. split; [left|done].
Qed.

Lemma setup_world_http up n w : http_log (setup_world up n w) = http_log w.
Proof. by destruct up. Qed.
Lemma done_world_http up st w : http_log (done_world up st w) = http_log w.
Proof. by destruct up. Qed.

(** X5.  A run of [calculate_rolling_averages], however it ends, sends at
    most one request more than the snapshot has players: the bootstrap
    request and history requests of players of the snapshot, nothing else. *)
Theorem run_sends_one_request_per_player_at_most `{Pandas} weeks use_progress env w r w' :
  calculate_rolling_averages weeks use_progress env w = (r, w') →
  let players := snapshot_players (fst (get_bootstrap_data env w)) in
  ∃ sent, http_log w' = sent ++ http_log w
          ∧ (length sent ≤ S (length players))%nat
          ∧ Forall (λ url, url = bootstrap_url
                           ∨ ∃ p, p ∈ players ∧ url = history_url (player_id p)) sent.
Proof.
  intros Hrun players.
  destruct (get_bootstrap_data_requests env w) as (hd & w1 & Hget & Hlog1).
  assert (Hfirst : ∃ first, http_log w1 = first ++ http_log w ∧ (length first ≤ 1)%nat
                            ∧ Forall (λ url, url = bootstrap_url
                                 ∨ ∃ p, p ∈ players ∧ url = history_url (player_id p)) first).
  { destruct Hlog1 as [->| ->].
    - exists []. split; [done|]. split; [cbn; lia|done].
    - exists [bootstrap_url]. split; [done|]. split; [cbn; lia|].
      constructor; [by left|done]. }
  destruct Hfirst as (first & Hlog1' & Hlen1 & Hall1).
  assert (Hstop : ∀ w2, http_log w2 = http_log w1 →
            ∃ sent, http_log w2 = sent ++ http_log w ∧ (length sent ≤ S (length players))%nat
              ∧ Forall (λ url, url = bootstrap_url
                   ∨ ∃ p, p ∈ players ∧ url = history_url (player_id p)) sent).
  { intros w2 ->. exists first. split; [done|]. split; [lia|done]. }
  destruct (py_truthy hd) eqn:Htr; cycle 1.
  { rewrite (calculate_without_snapshot _ _ _ _ hd w1) in Hrun by done.
    injection Hrun as _ <-. by apply Hstop. }
  destruct hd as [[b| | | |]|]; try done;
    try (unfold calculate_rolling_averages in Hrun; rewrite bind_run, Hget in Hrun;
         injection Hrun as _ <-; by apply Hstop).
  rewrite (calculate_with_snapshot _ _ _ _ b w1) in Hrun by done.
  destruct (find_current (events b)) as [gw|]; [|injection Hrun as _ <-; by apply Hstop].
  destruct (gw =? 0); [injection Hrun as _ <-; by apply Hstop|].
  destruct (players_loop _ _ _ _ _ _ _ _ _ _) as [res w2] eqn:Hloop.
  apply players_loop_requests in Hloop as (sent & Hlog2 & Hlen2 & Hall2).
  rewrite setup_world_http, Hlog1' in Hlog2.
  assert (Hplayers : players = elements b) by (unfold players; by rewrite Hget).
  assert (Hend : ∀ w3, http_log w3 = http_log w2 →
            ∃ sent, http_log w3 = sent ++ http_log w ∧ (length sent ≤ S (length players))%nat
              ∧ Forall (λ url, url = bootstrap_url
                   ∨ ∃ p, p ∈ players ∧ url = history_url (player_id p)) sent).
  { intros w3 ->. exists (sent ++ first). rewrite <-app_assoc. split; [done|].
    rewrite length_app, Hplayers. split; [lia|]. apply Forall_app. split; [|by rewrite <-Hplayers].
    eapply Forall_impl; [done|]. intros url Hurl. by right. }
  destruct res as [st|e]; [|injection Hrun as _ <-; by apply Hend].
  destruct (results st); injection Hrun as _ <-; apply Hend.
  - apply (done_world_http use_progress st).
  - unfold saved_world. cbn. apply (done_world_http use_progress st).
Qed.

(** X5 on the small league: at most three requests for two players. *)
Lemma run_sends_one_request_per_player_at_most_witness :
  ∃ r w', calculate_rolling_averages (H:=pandas_mergesort) 3 false (env_up snapshot 0)
            (world_of ∅) = (r, w')
          ∧ (length (http_log w') ≤ 3)%nat.
Proof.
  destruct (calculate_rolling_averages (H:=pandas_mergesort) 3 false (env_up snapshot 0)
              (world_of ∅)) as [r w'] eqn:Hrun.
  exists r, w'. split; [done|].
  destruct (run_sends_one_request_per_player_at_most (H:=pandas_mergesort) _ _ _ _ _ _ Hrun)
    as (sent & Hlog & Hlen & _).
  rewrite Hlog. cbn [http_log world_of]. rewrite app_nil_r. exact Hlen.
Defined.

(** ** Team picks and fixtures *)

Lemma pretty_N_go_chars x : ∀ s,
  Forall (λ c, digit_or_dash c = true) (chars s) →
  Forall (λ c, digit_or_dash c = true) (chars (pretty_N_go x s)).
Proof.
  induction (N.lt_wf_0 x) as [x _ IH]; intros s Hs.
  assert (x = 0 ∨ 0 < x)%N as [->|Hpos] by lia; [by rewrite pretty_N_go_0|].
  rewrite pretty_N_go_step by done. apply IH; [by apply N.div_lt|].
  cbn. constructor; [|done].
  unfold pretty_N_char. by repeat case_match.
Qed.

Lemma pretty_Z_chars (z : Z) : Forall (λ c, digit_or_dash c = true) (chars (pretty z)).
Proof.
  assert (HN : ∀ n : N, Forall (λ c, digit_or_dash c = true) (chars (pretty n))).
  { intros n. unfold pretty, pretty_N. case_decide; [by repeat constructor|].
    by apply pretty_N_go_chars. }
  destruct z as [|p|p]; [by repeat constructor|apply (HN (Npos p))|].
  change (pretty (Z.neg p)) with ("-" +:+ pretty (Npos p)).
  cbn. constructor; [done|]. apply (HN (Npos p)).
Qed.

Lemma pretty_Z_ne_current (z : Z) : pretty z ≠ "current".
Proof.
  intros Heq. pose proof (pretty_Z_chars z) as Hc. rewrite Heq in Hc.
  by apply Forall_cons in Hc as [? _].
Qed.

(** X6.  Unlike the bootstrap data and the histories, the picks of a team have
    no stale fallback: with an explicit gameweek, picks in the cache that are
    two hours old or older and a failing request give [None] and the error
    message, though the file is there. *)
Theorem team_data_has_no_stale_fallback team_id g env w f :
  g ≠ 0 →
  cache w !! get_cache_file (team_cache_key team_id (Some g)) = Some f →
  hours 2 ≤ clock env (tick w) - mtime f →
  remote env (S (tick w)) (picks_url team_id g) = None →
  get_team_data team_id (Some g) env w
  = (Ok None, shown (st_error "Error fetching team data")
                (requested (picks_url team_id g) (ticked w))).
Proof.
  intros Hg Hf Hage Hdown. unfold get_team_data. cbv zeta.
  rewrite bind_run, (cache_first_stale _ _ _ _ f) by done.
  cbn [gw_truthy]. rewrite (proj2 (Z.eqb_neq g 0)) by done. cbn [negb].
  rewrite bind_run. unfold mret at 1, M_ret at 1.
  rewrite (proj2 (Z.eqb_neq g 0)) by done.
  rewrite bind_run. unfold requests_get at 1. cbn [tick ticked]. by rewrite Hdown.
Qed.

(** X6 with picks cached three hours ago and the service down. *)
Lemma team_data_has_no_stale_fallback_witness :
  get_team_data 7 (Some 5) (env_down 3) (world_of cache_picks_gw5)
  = (Ok None, shown (st_error "Error fetching team data")
                (requested (picks_url 7 5) (ticked (world_of cache_picks_gw5)))).
Proof.
  apply (team_data_has_no_stale_fallback 7 5 (env_down 3) (world_of cache_picks_gw5)
           (mkCacheFile 0 (Some (DocPicks squad))));
    [lia | vm_compute; reflexivity | vm_compute; discriminate | reflexivity].
Defined.

(** X7.  With an explicit gameweek and no cached picks, [get_team_data] sends
    one request, for the picks of that gameweek, and none for the bootstrap
    data; it saves the answer under a key of its own, which is never the key
    of the call without a gameweek. *)
Theorem explicit_gameweek_skips_the_bootstrap team_id g env w :
  g ≠ 0 →
  cache w !! get_cache_file (team_cache_key team_id (Some g)) = None →
  get_team_data team_id (Some g) env w
  = match remote env (tick w) (picks_url team_id g) with
    | Some team_data =>
        (Ok (Some team_data),
         written (get_cache_file (team_cache_key team_id (Some g)))
           (mkCacheFile (clock env (S (tick w))) (Some team_data))
           (ticked (requested (picks_url team_id g) w)))
    | None =>
        (Ok None, shown (st_error "Error fetching team data")
                    (requested (picks_url team_id g) w))
    end
  ∧ get_cache_file (team_cache_key team_id (Some g))
    ≠ get_cache_file (team_cache_key team_id None).
Proof.
  intros Hg Hmiss. split.
  - unfold get_team_data. cbv zeta.
    rewrite bind_run, cache_first_missing by done.
    cbn [gw_truthy]. rewrite (proj2 (Z.eqb_neq g 0)) by done. cbn [negb].
    rewrite bind_run. unfold mret at 1, M_ret at 1.
    rewrite (proj2 (Z.eqb_neq g 0)) by done.
    rewrite bind_run. unfold requests_get at 1.
    by destruct (remote env (tick w) (picks_url team_id g)).
  - intros Heq. apply get_cache_file_inj in Heq. unfold team_cache_key in Heq.
    rewrite (proj2 (Z.eqb_neq g 0)) in Heq by done.
    apply (inj (String.app "team_")), (inj (String.app (pretty team_id))),
      (inj (String.app "_")) in Heq.
    by apply pretty_Z_ne_current in Heq.
Qed.

(** X7 on an empty cache, the service answering for the picks only. *)
Lemma explicit_gameweek_skips_the_bootstrap_witness :
  ∃ w', get_team_data 7 (Some 5) env_picks (world_of ∅) = (Ok (Some (DocPicks squad)), w')
        ∧ http_log w' = [picks_url 7 5].
Proof.
  destruct (explicit_gameweek_skips_the_bootstrap 7 5 env_picks (world_of ∅)) as [Hrun _];
    [lia | vm_compute; reflexivity |].
  eexists. split; [exact Hrun | reflexivity].
Defined.

(** X8.  [get_fixtures] has no stale fallback either: fixtures in the cache
    that are twelve hours old or older and a failing request give [None],
    without a message; and the fixtures it does return are in the cache
    afterwards, to be served from there while they are younger than that. *)
Theorem fixtures_have_no_stale_fallback env w :
  (∀ f, cache w !! get_cache_file "fixtures" = Some f →
        hours 12 ≤ clock env (tick w) - mtime f →
        remote env (S (tick w)) fixtures_url = None →
        get_fixtures env w = (Ok None, requested fixtures_url (ticked w)))
  ∧ (∀ d w1, get_fixtures env w = (Ok (Some d), w1) →
       ∃ f, cache w1 !! get_cache_file "fixtures" = Some f ∧ content f = Some d
            ∧ (py_truthy (Some d) = true →
               clock env (tick w1) - mtime f < hours 12 →
               get_fixtures env w1 = (Ok (Some d), ticked w1))).
Proof.
  split.
  - intros f Hf Hage Hdown. unfold get_fixtures. cbv zeta.
    rewrite bind_run, (cache_first_stale _ _ _ _ f) by done.
    rewrite bind_run. unfold requests_get at 1. cbn [tick ticked]. by rewrite Hdown.
  - intros d w1 Hrun.
    destruct (fetch_answer_in_cache "fixtures" fixtures_url 12 env w (mret None) d w1 Hrun)
      as (f & Hf & Hd); [done|].
    exists f. split; [done|]. split; [done|]. intros Ht Hage.
    unfold get_fixtures. cbv zeta. by rewrite bind_run, (cache_first_hit _ _ _ _ f d).
Qed.

(** ** The rows of the table *)

Lemma summarise_inv weeks gw p tn pos cost history r :
  summarise weeks gw p tn pos cost history = Ok (Some r) →
  weeks ≠ 0
  ∧ weeks ≤ Z.of_nat (length (recent_games gw history))
  ∧ r = row_of weeks p tn pos cost (py_slice_to weeks (recent_games gw history)).
Proof.
  intros Hs. destruct (decide (weeks = 0)) as [->|Hw].
  - unfold summarise in Hs. cbv zeta in Hs. by destruct (0 <=? _).
  - rewrite summarise_cases in Hs by done.
    destruct (Z.leb_spec weeks (Z.of_nat (length (recent_games gw history)))); [|done].
    by injection Hs as <-.
Qed.

Lemma finish_player_inv weeks gw p tn pos cost st hd st' :
  finish_player weeks gw p tn pos cost st hd = Ok st' →
  processed_count st' = S (processed_count st)
  ∧ ((results st' = results st ∧ successful_count st' = successful_count st)
     ∨ (∃ history, weeks ≠ 0
          ∧ weeks ≤ Z.of_nat (length (recent_games gw history))
          ∧ results st' = results st
              ++ [row_of weeks p tn pos cost (py_slice_to weeks (recent_games gw history))]
          ∧ successful_count st' = S (successful_count st))).
Proof.
  unfold finish_player. cbv zeta. destruct (py_truthy hd).
  - destruct (summarise _ _ _ _ _ _ _) as [[r|]|e] eqn:Hs; [| |done].
    + apply summarise_inv in Hs as (Hw & Hlen & ->). intros [= <-]. split; [done|].
      right. by exists (doc_history hd).
    + intros [= <-]. split; [done|]. by left.
  - intros [= <-]. split; [done|]. by left.
Qed.

Lemma players_loop_inv weeks up gw teams_d n players :
  ∀ i st env w st' w',
  players_loop weeks up gw teams_d n i players st env w = (Ok st', w') →
  ∃ rows, results st' = results st ++ rows
          ∧ emitted weeks gw teams_d players rows
          ∧ processed_count st' = (processed_count st + length players)%nat
          ∧ successful_count st' = (successful_count st + length rows)%nat.
Proof.
  induction players as [|p rest IH]; intros i st env w st' w' Hrun.
  { injection Hrun as <- <-. exists []. rewrite app_nil_r. repeat split; [constructor|cbn; lia..]. }
  cbn [players_loop] in Hrun. rewrite bind_run in Hrun.
  destruct (loop_body weeks up gw teams_d n i p st env w) as [[st1|e] w1] eqn:Hbody; [|done].
  apply IH in Hrun as (rows & Hres & Hem & Hproc & Hsucc).
  destruct (teams_d !! team p) as [tn|] eqn:Ht; cycle 1.
  { destruct (loop_body_lookup_error weeks up gw teams_d n i p st env w) as [k Hk];
      [by left|]. by rewrite Hk in Hbody. }
  destruct (positions !! element_type p) as [pos|] eqn:Hp; cycle 1.
  { destruct (loop_body_lookup_error weeks up gw teams_d n i p st env w) as [k Hk];
      [by right|]. by rewrite Hk in Hbody. }
  destruct (loop_body_fetches weeks up gw teams_d n i p st env w _ _ Ht Hp)
    as (hd & w2 & _ & Hfin).
  rewrite Hfin in Hbody. injection Hbody as Hfin' <-.
  apply finish_player_inv in Hfin'
    as (Hp1 & [[Hr1 Hs1]|(history & Hw & Hlen & Hr1 & Hs1)]).
  - exists rows. rewrite Hres, Hr1. split; [done|]. split; [by constructor|].
    cbn [length]. lia.
  - eexists (_ :: rows). rewrite Hres, Hr1, <-app_assoc. split; [done|].
    split; [by econstructor|]. cbn [length]. lia.
Qed.

Lemma emitted_length weeks gw teams_d players rows :
  emitted weeks gw teams_d players rows → (length rows ≤ length players)%nat.
Proof. induction 1; cbn; lia. Qed.

Lemma emitted_ids weeks gw teams_d players rows :
  emitted weeks gw teams_d players rows →
  (Player_ID <$> rows) `sublist_of` (player_id <$> players).
Proof.
  induction 1; cbn.
  - constructor.
  - by constructor.
  - by constructor.
Qed.

Lemma emitted_rows weeks gw teams_d players rows r :
  emitted weeks gw teams_d players rows → r ∈ rows →
  ∃ p team_name position history,
    p ∈ players
    ∧ teams_d !! team p = Some team_name
    ∧ positions !! element_type p = Some position
    ∧ weeks ≠ 0
    ∧ weeks ≤ Z.of_nat (length (recent_games gw history))
    ∧ r = row_of weeks p team_name position (Qc_of_Z (now_cost p) / Qc_of_Z 10)%Qc
            (py_slice_to weeks (recent_games gw history)).
Proof.
  induction 1 as [|p players rows _ IH|p players rows tn pos history Ht Hp Hw Hlen _ IH];
    intros Hr.
  - by apply elem_of_nil in Hr.
  - destruct (IH Hr) as (q & tn & pos & history & Hq & ?). exists q, tn, pos, history.
    split; [by right|done].
  - apply elem_of_cons in Hr as [->|Hr].
    + exists p, tn, pos, history. split; [left|done].
    + destruct (IH Hr) as (q & tn' & pos' & history' & Hq & ?).
      exists q, tn', pos', history'. split; [by right|done].
Qed.

Lemma teams_dict_lookup_Some ts k name :
  teams_dict ts !! k = Some name →
  ∃ t, t ∈ ts ∧ team_id t = k ∧ team_name t = name.
Proof.
  unfold teams_dict.
  assert (Hgen : ∀ d : gmap Z string,
            foldl (λ d t, <[team_id t := team_name t]> d) d ts !! k = Some name →
            d !! k = Some name ∨ ∃ t, t ∈ ts ∧ team_id t = k ∧ team_name t = name).
  { induction ts as [|t ts IH]; intros d Hd; [by left|].
    cbn in Hd. apply IH in Hd as [Hd|(t' & Ht' & ?)].
    - destruct (decide (team_id t = k)) as [Heq|Hne].
      + rewrite Heq, lookup_insert_eq in Hd. injection Hd as <-.
        right. exists t. split; [left|done].
      + rewrite lookup_insert_ne in Hd by done. by left.
    - right. exists t'. split; [by right|done]. }
  intros Hd. by apply Hgen in Hd as [Hd|?]; [rewrite lookup_empty in Hd|].
Qed.

Lemma positions_lookup_Some et name :
  positions !! et = Some name →
  name ∈ ["Goalkeeper"; "Defender"; "Midfielder"; "Forward"].
Proof.
  unfold positions. rewrite !lookup_insert. repeat case_decide.
  - intros [= <-]. set_solver.
  - intros [= <-]. set_solver.
  - intros [= <-]. set_solver.
  - intros [= <-]. set_solver.
  - by rewrite lookup_empty.
Qed.

(** The rows of a table that was returned, traced back to the loop. *)
Lemma table_rows `{Pandas} weeks up env w df w' r :
  calculate_rolling_averages weeks up env w = (Ok df, w') → r ∈ df →
  ∃ b w1 gw rows,
    get_bootstrap_data env w = (Ok (Some (DocBootstrap b)), w1)
    ∧ find_current (events b) = Some gw
    ∧ emitted weeks gw (teams_dict (teams b)) (elements b) rows
    ∧ df ≡ₚ rows.
Proof.
  intros Hrun Hr.
  destruct (calculate_inversion _ _ _ _ _ _ Hrun)
    as [[-> _]|(b & w1 & gw & st & w2 & Hget & Hgw & Hloop & Hne & Hdf & _)].
  { by apply elem_of_nil in Hr. }
  apply players_loop_inv in Hloop as (rows & Hres & Hem & _).
  exists b, w1, gw, rows. repeat split; try done.
  rewrite Hdf, sort_values_perm. by rewrite Hres.
Qed.

(** X9.  Every row of the table that [calculate_rolling_averages] returns
    describes a player of the snapshot it fetched: the row has the player's
    id and name, the name of a team of the snapshot with the player's team
    id, one of the four position names, a tenth of the player's cost and the
    player's ownership. *)
Theorem every_row_is_a_snapshot_player `{Pandas} weeks use_progress env w df w' r :
  calculate_rolling_averages weeks use_progress env w = (Ok df, w') →
  r ∈ df →
  ∃ b w1 p t,
    get_bootstrap_data env w = (Ok (Some (DocBootstrap b)), w1)
    ∧ p ∈ elements b
    ∧ t ∈ teams b
    ∧ team_id t = team p
    ∧ Player_ID r = player_id p
    ∧ Player_name r = web_name p
    ∧ Team_name r = team_name t
    ∧ positions !! element_type p = Some (Position r)
    ∧ Position r ∈ ["Goalkeeper"; "Defender"; "Midfielder"; "Forward"]
    ∧ Cost_Numeric r = (Qc_of_Z (now_cost p) / Qc_of_Z 10)%Qc
    ∧ Selected_By r = selected_by_percent p.
Proof.
  intros Hrun Hr.
  destruct (table_rows _ _ _ _ _ _ _ Hrun Hr) as (b & w1 & gw & rows & Hget & _ & Hem & Hperm).
  rewrite Hperm in Hr.
  destruct (emitted_rows _ _ _ _ _ _ Hem Hr)
    as (p & tn & pos & history & Hp & Ht & Hpos & _ & _ & ->).
  destruct (teams_dict_lookup_Some _ _ _ Ht) as (t & Hin & Hid & Hname).
  exists b, w1, p, t. cbn. repeat split; try done.
  by eapply positions_lookup_Some.
Qed.

(** X9 on the small league: the first row is the row of a player of the
    snapshot, Salah. *)
Lemma every_row_is_a_snapshot_player_witness :
  ∃ df w' r p,
    calculate_rolling_averages (H:=pandas_mergesort) 3 false (env_up snapshot 0) (world_of ∅)
    = (Ok df, w')
    ∧ head df = Some r
    ∧ p ∈ [salah; haaland]
    ∧ Player_ID r = player_id p
    ∧ Player_ID r = 10.
Proof.
  destruct (calculate_rolling_averages (H:=pandas_mergesort) 3 false (env_up snapshot 0)
              (world_of ∅)) as [[df|e] w'] eqn:Hrun; [|vm_compute in Hrun; discriminate].
  assert (Hhead : Player_ID <$> head df = Some 10).
  { vm_compute in Hrun. by injection Hrun as <- <-. }
  destruct df as [|r df]; [discriminate|].
  destruct (every_row_is_a_snapshot_player (H:=pandas_mergesort) _ _ _ _ _ _ r Hrun)
    as (b & w1 & p & t & Hget & Hp & _ & _ & Hid & _); [left|].
  exists (r :: df), w', r, p. split; [done|]. split; [done|].
  vm_compute in Hget. injection Hget as <- _.
  split; [exact Hp|]. split; [exact Hid|]. by injection Hhead.
Defined.

Lemma py_sum_ge (f : Game → Z) games :
  Forall (λ g, 1 ≤ f g) games → Z.of_nat (length games) ≤ py_sum f games.
Proof.
  unfold py_sum.
  assert (Hgen : ∀ acc, Forall (λ g, 1 ≤ f g) games →
            acc + Z.of_nat (length games) ≤ foldl (λ acc game, acc + f game) acc games).
  { induction games as [|g games IH]; intros acc Hall; [cbn; lia|].
    apply Forall_cons in Hall as [Hg Hall]. cbn [foldl length].
    specialize (IH (acc + f g) Hall). lia. }
  intros Hall. specialize (Hgen 0 Hall). lia.
Qed.

Lemma recent_games_minutes gw history :
  Forall (λ g, 1 ≤ minutes g) (recent_games gw history).
Proof.
  unfold recent_games. rewrite sort_by_round_desc_perm. unfold qualifying.
  apply Forall_forall. intros g Hg. apply list_elem_of_filter in Hg as [[_ Hm] _]. lia.
Qed.

(** X10.  A row of the table covers a full window: the window is not 0, the
    average is [round(points / weeks, 2)] as Python computes it on floats,
    and for a positive window the row has at least one minute per game of
    it, so that its points per 90 minutes are always
    [round(points / minutes * 90, 2)] and never the 0 that the code keeps
    for a record without minutes. *)
Theorem rows_have_played_the_whole_window `{Pandas} weeks use_progress env w df w' r :
  calculate_rolling_averages weeks use_progress env w = (Ok df, w') →
  r ∈ df →
  weeks ≠ 0
  ∧ Rolling_N_Week_Avg r
    = py_round2 (binary64 (Qc_of_Z (Last_N_GW_Points r) / Qc_of_Z weeks))
  ∧ (0 < weeks →
       weeks ≤ Total_Minutes r
       ∧ Points_Per_90 r
         = py_round2
             (float_mul
                (binary64 (Qc_of_Z (Last_N_GW_Points r) / Qc_of_Z (Total_Minutes r)))
                (Qc_of_Z 90))).
Proof.
  intros Hrun Hr.
  destruct (table_rows _ _ _ _ _ _ _ Hrun Hr) as (b & w1 & gw & rows & _ & _ & Hem & Hperm).
  rewrite Hperm in Hr.
  destruct (emitted_rows _ _ _ _ _ _ Hem Hr)
    as (p & tn & pos & history & _ & _ & _ & Hw & Hlen & ->).
  split; [done|]. split; [done|]. intros Hpos. cbn.
  assert (Hmin : weeks ≤ py_sum minutes (py_slice_to weeks (recent_games gw history))).
  { rewrite py_slice_to_take by lia.
    etrans; [|apply py_sum_ge, Forall_take, recent_games_minutes].
    rewrite length_take. lia. }
  split; [done|]. by rewrite (proj2 (Z.ltb_lt 0 _)) by lia.
Qed.

(** X10 on the small league: the first row has three minutes or more. *)
Lemma rows_have_played_the_whole_window_witness :
  ∃ df w' r,
    calculate_rolling_averages (H:=pandas_mergesort) 3 false (env_up snapshot 0) (world_of ∅)
    = (Ok df, w')
    ∧ head df = Some r
    ∧ 3 ≤ Total_Minutes r
    ∧ Points_Per_90 r
      = py_round2
          (float_mul (binary64 (Qc_of_Z (Last_N_GW_Points r) / Qc_of_Z (Total_Minutes r)))
             (Qc_of_Z 90)).
Proof.
  destruct (calculate_rolling_averages (H:=pandas_mergesort) 3 false (env_up snapshot 0)
              (world_of ∅)) as [[df|e] w'] eqn:Hrun; [|vm_compute in Hrun; discriminate].
  assert (Hhead : Player_ID <$> head df = Some 10).
  { vm_compute in Hrun. by injection Hrun as <- <-. }
  destruct df as [|r df]; [discriminate|].
  destruct (rows_have_played_the_whole_window (H:=pandas_mergesort) _ _ _ _ _ _ r Hrun)
    as (_ & _ & Hwin); [left|].
  exists (r :: df), w', r. split; [done|]. split; [done|]. apply Hwin. lia.
Defined.

(** X11.  When the run reaches the loop and completes, the last message is
    the success message; its first count is the number of players of the
    snapshot, its second the number of rows of the table returned, which is
    at most the first. *)
Theorem success_message_counts `{Pandas} weeks use_progress env w b w1 gw df w' :
  get_bootstrap_data env w = (Ok (Some (DocBootstrap b)), w1) →
  find_current (events b) = Some gw → gw ≠ 0 →
  calculate_rolling_averages weeks use_progress env w = (Ok df, w') →
  head (st_log w') = Some (st_success (length (elements b)) (length df))
  ∧ (length df ≤ length (elements b))%nat.
Proof.
  intros Hget Hgw Hgw0 Hrun.
  rewrite (calculate_with_snapshot _ _ _ _ b w1), Hgw in Hrun by done.
  rewrite (proj2 (Z.eqb_neq gw 0)) in Hrun by done.
  destruct (players_loop _ _ _ _ _ _ _ _ _ _) as [[st|e] w2] eqn:Hloop; [|done].
  apply players_loop_inv in Hloop as (rows & Hres & Hem & Hproc & Hsucc).
  cbn in Hres, Hproc, Hsucc. apply emitted_length in Hem.
  destruct (results st) as [|r0 rs] eqn:Hst; injection Hrun as <- <-.
  - rewrite <-Hres in Hsucc. cbn in Hsucc. split; [|cbn; lia].
    unfold done_world. cbn. by rewrite Hproc, Hsucc.
  - assert (Hlen : length (sort_values (r0 :: rs)) = length rows).
    { by rewrite sort_values_perm, Hres. }
    split; [|lia]. unfold saved_world, done_world. cbn [st_log written ticked shown head].
    by rewrite Hproc, Hsucc, Hlen.
Qed.

(** X11 on the small league: two players processed, as many rows as the
    table has. *)
Lemma success_message_counts_witness :
  ∃ df w',
    calculate_rolling_averages (H:=pandas_mergesort) 3 true (env_up snapshot 0) (world_of ∅)
    = (Ok df, w')
    ∧ head (st_log w') = Some (st_success 2 (length df)).
Proof.
  destruct (calculate_rolling_averages (H:=pandas_mergesort) 3 true (env_up snapshot 0)
              (world_of ∅)) as [[df|e] w'] eqn:Hrun; [|vm_compute in Hrun; discriminate].
  exists df, w'. split; [done|].
  apply (success_message_counts (H:=pandas_mergesort) 3 true (env_up snapshot 0) (world_of ∅)
           snapshot
           (written (get_cache_file "bootstrap") (mkCacheFile 0 (Some (DocBootstrap snapshot)))
              (ticked (requested bootstrap_url (world_of ∅)))) 5 df w');
    [reflexivity | reflexivity | lia | exact Hrun].
Defined.

(** X12.  The ids of the table's rows are, up to the order, a sublist of the
    ids of the snapshot's players: a player gives at most one row, and when
    the snapshot has no id twice, neither has the table. *)
Theorem no_player_twice_in_the_table `{Pandas} weeks use_progress env w b w1 df w' :
  get_bootstrap_data env w = (Ok (Some (DocBootstrap b)), w1) →
  calculate_rolling_averages weeks use_progress env w = (Ok df, w') →
  (∃ ids, ids `sublist_of` (player_id <$> elements b) ∧ Player_ID <$> df ≡ₚ ids)
  ∧ (NoDup (player_id <$> elements b) → NoDup (Player_ID <$> df)).
Proof.
  intros Hget Hrun.
  assert (Hids : ∃ ids, ids `sublist_of` (player_id <$> elements b)
                        ∧ Player_ID <$> df ≡ₚ ids).
  { destruct (calculate_inversion _ _ _ _ _ _ Hrun)
      as [[-> _]|(b' & w1' & gw & st & w2 & Hget' & Hgw & Hloop & Hne & Hdf & _)].
    { exists []. split; [apply sublist_nil_l|done]. }
    rewrite Hget in Hget'. injection Hget' as <- <-.
    apply players_loop_inv in Hloop as (rows & Hres & Hem & _).
    exists (Player_ID <$> rows). split; [by eapply emitted_ids|].
    rewrite Hdf, sort_values_perm. by rewrite Hres. }
  split; [done|]. intros Hnd. destruct Hids as (ids & Hsub & ->).
  by eapply sublist_NoDup.
Qed.

(** X12 on the small league. *)
Lemma no_player_twice_in_the_table_witness :
  ∃ df w',
    calculate_rolling_averages (H:=pandas_mergesort) 3 false (env_up snapshot 0) (world_of ∅)
    = (Ok df, w')
    ∧ NoDup (Player_ID <$> df).
Proof.
  destruct (calculate_rolling_averages (H:=pandas_mergesort) 3 false (env_up snapshot 0)
              (world_of ∅)) as [[df|e] w'] eqn:Hrun; [|vm_compute in Hrun; discriminate].
  exists df, w'. split; [done|].
  apply (no_player_twice_in_the_table (H:=pandas_mergesort) 3 false (env_up snapshot 0)
           (world_of ∅) snapshot
           (written (get_cache_file "bootstrap") (mkCacheFile 0 (Some (DocBootstrap snapshot)))
              (ticked (requested bootstrap_url (world_of ∅)))) df w');
    [reflexivity | exact Hrun |].
  apply NoDup_cons. split; [by intros [=]%list_elem_of_singleton|]. apply NoDup_singleton.
Defined.

(** * The pages *)

(** ** The dashboard *)

Lemma results_cache_key_inj weeks weeks' :
  results_cache_key weeks = results_cache_key weeks' → weeks = weeks'.
Proof.
  unfold results_cache_key. intros Heq.
  apply (inj (String.app "results_")), string_app_inj_r in Heq. by apply (inj pretty) in Heq.
Qed.

Lemma get_bootstrap_data_results_file env w r w1 weeks :
  get_bootstrap_data env w = (r, w1) →
  cache w1 !! get_cache_file (results_cache_key weeks)
  = cache w !! get_cache_file (results_cache_key weeks).
Proof.
  intros Hget. destruct (get_bootstrap_data_frame env w) as (r' & w1' & Hget' & Hframe).
  rewrite Hget in Hget'. injection Hget' as _ <-.
  apply Hframe, not_eq_sym, file_ne_bootstrap_results.
Qed.

(** X13.  A table with rows that [calculate_rolling_averages] returns is
    the table that the pages load from the cache ([load_cached_results]) for
    the same window, as long as the results file is younger than six hours;
    the results files of the other windows are untouched by the run. *)
Theorem saved_table_is_what_the_dashboard_loads `{Pandas} weeks use_progress env w df w' :
  calculate_rolling_averages weeks use_progress env w = (Ok df, w') →
  (df ≠ [] →
     ∃ f, cache w' !! get_cache_file (results_cache_key weeks) = Some f
          ∧ (clock env (tick w') - mtime f < hours 6 →
             load_cached_results weeks env w' = (Ok (Some df), ticked w')))
  ∧ (∀ other, other ≠ weeks →
       cache w' !! get_cache_file (results_cache_key other)
       = cache w !! get_cache_file (results_cache_key other)).
Proof.
  intros Hrun. split.
  - intros Hne.
    destruct (calculate_inversion _ _ _ _ _ _ Hrun)
      as [[-> _]|(b & w1 & gw & st & w2 & _ & _ & _ & _ & _ & Hw')]; [done|].
    assert (Hfile : ∃ f ts, cache w' !! get_cache_file (results_cache_key weeks) = Some f
                            ∧ content f = Some (DocResults df ts gw)).
    { rewrite Hw'. eexists _, _. split; [apply lookup_insert_eq|done]. }
    destruct Hfile as (f & ts & Hf & Hd). exists f. split; [done|].
    intros Hage. unfold load_cached_results. cbv zeta.
    rewrite bind_run, (is_cache_valid_file _ _ _ _ f) by done.
    rewrite bool_decide_eq_true_2 by done.
    by rewrite bind_run, (load_from_cache_readable _ _ _ f (DocResults df ts gw)).
  - intros other Hother.
    destruct (get_bootstrap_data_frame env w) as (hd & w1 & Hget & _).
    pose proof (get_bootstrap_data_results_file _ _ _ _ other Hget) as Hb.
    destruct (py_truthy hd) eqn:Htr; cycle 1.
    { rewrite (calculate_without_snapshot _ _ _ _ hd w1) in Hrun by done.
      by injection Hrun as _ <-. }
    destruct hd as [[b| | | |]|]; try done;
      try (unfold calculate_rolling_averages in Hrun; by rewrite bind_run, Hget in Hrun).
    rewrite (calculate_with_snapshot _ _ _ _ b w1) in Hrun by done.
    destruct (find_current (events b)) as [gw|]; [|by injection Hrun as _ <-].
    destruct (gw =? 0); [by injection Hrun as _ <-|].
    destruct (players_loop _ _ _ _ _ _ _ _ _ _) as [[st|e] w2] eqn:Hloop; [|done].
    assert (Hl : cache w2 !! get_cache_file (results_cache_key other)
                 = cache w !! get_cache_file (results_cache_key other)).
    { rewrite (players_loop_frame _ _ _ _ _ _ _ _ _ _ _ _ Hloop).
      - by rewrite setup_world_cache.
      - intros id. apply not_eq_sym, file_ne_player_results. }
    destruct (results st); injection Hrun as _ <-.
    + by rewrite done_world_cache.
    + unfold saved_world. cbn [cache written ticked].
      rewrite lookup_insert_ne, done_world_cache; [done|].
      intros Heq. by apply get_cache_file_inj, results_cache_key_inj in Heq.
Qed.

(** X13 on the small league: the table of a run is loaded by the page. *)
Lemma saved_table_is_what_the_dashboard_loads_witness :
  ∃ df w',
    calculate_rolling_averages (H:=pandas_mergesort) 3 false (env_up snapshot 0) (world_of ∅)
    = (Ok df, w')
    ∧ Player_ID <$> df = [10; 20]
    ∧ load_cached_results 3 (env_up snapshot 0) w' = (Ok (Some df), ticked w').
Proof.
  destruct (calculate_rolling_averages (H:=pandas_mergesort) 3 false (env_up snapshot 0)
              (world_of ∅)) as [[df|e] w'] eqn:Hrun; [|vm_compute in Hrun; discriminate].
  assert (Hids : Player_ID <$> df = [10; 20]).
  { vm_compute in Hrun. by injection Hrun as <- <-. }
  destruct (proj1 (saved_table_is_what_the_dashboard_loads (H:=pandas_mergesort)
                     _ _ _ _ _ _ Hrun)) as (f & Hf & Hload).
  { intros ->. discriminate Hids. }
  exists df, w'. split; [done|]. split; [done|]. apply Hload.
  assert (Hage : ∀ f', cache w' !! get_cache_file (results_cache_key 3) = Some f' →
                       clock (env_up snapshot 0) (tick w') - mtime f' < hours 6).
  { vm_compute in Hrun. injection Hrun as <- <-. intros f' Hf'. vm_compute in Hf'.
    injection Hf' as <-. vm_compute. reflexivity. }
  by apply Hage.
Defined.

Lemma apply_filters_filter sp mm lo hi df :
  apply_filters sp mm lo hi df = filter (passes sp mm lo hi) df.
Proof.
  unfold apply_filters. cbv zeta. case_decide as Hsp.
  - rewrite !list_filter_filter. apply list_filter_iff. unfold passes. intros r. tauto.
  - rewrite !list_filter_filter. apply list_filter_iff. unfold passes. intros r. tauto.
Qed.

Global Instance by_avg_desc_trans : Transitive by_avg_desc.
Proof. intros a b c Hab Hbc. unfold by_avg_desc in *. by etrans. Qed.

(** X14.  The dashboard shows the rows of the table that pass the filters, in
    the table's order; the "Top Performer" is a row that passes them and whose
    average no other passing row of the table exceeds, and it is "N/A"
    exactly when no row passes. *)
Theorem top_performer_is_the_best_shown `{Pandas} weeks use_progress env w df w'
    selected_position min_minutes min_cost max_cost :
  calculate_rolling_averages weeks use_progress env w = (Ok df, w') →
  let shown_rows := apply_filters selected_position min_minutes min_cost max_cost df in
  (∀ r, r ∈ shown_rows ↔ r ∈ df ∧ passes selected_position min_minutes min_cost max_cost r)
  ∧ shown_rows `sublist_of` df
  ∧ match top_performer shown_rows with
    | Some (name, avg) =>
        ∃ r, r ∈ df ∧ passes selected_position min_minutes min_cost max_cost r
             ∧ name = Player_name r ∧ avg = Rolling_N_Week_Avg r
             ∧ ∀ r', r' ∈ df → passes selected_position min_minutes min_cost max_cost r' →
                     (Rolling_N_Week_Avg r' ≤ avg)%Qc
    | None =>
        ∀ r, r ∈ df → ¬ passes selected_position min_minutes min_cost max_cost r
    end.
Proof.
  intros Hrun shown_rows. unfold shown_rows. rewrite apply_filters_filter.
  split; [intros r; rewrite list_elem_of_filter; tauto|].
  split; [apply sublist_filter|].
  assert (Hsorted : StronglySorted by_avg_desc df).
  { apply Sorted_StronglySorted; [apply _|].
    destruct (calculate_inversion _ _ _ _ _ _ Hrun)
      as [[-> _]|(b & w1 & gw & st & w2 & _ & _ & _ & _ & -> & _)]; [constructor|].
    apply sort_values_desc. }
  destruct (filter _ df) as [|r rest] eqn:Hf; cbn [top_performer].
  - intros r Hr Hp. assert (r ∈ filter (passes selected_position min_minutes min_cost max_cost) df)
      as Hin by (by apply list_elem_of_filter). rewrite Hf in Hin. by apply elem_of_nil in Hin.
  - assert (Hhead : head (filter (passes selected_position min_minutes min_cost max_cost) df)
                    = Some r) by (by rewrite Hf).
    assert (Hr : r ∈ filter (passes selected_position min_minutes min_cost max_cost) df)
      by (rewrite Hf; left).
    apply list_elem_of_filter in Hr as [Hp Hr].
    apply head_filter_Some in Hhead as (l1 & l2 & -> & Hl1).
    exists r. split; [by apply elem_of_app; right; left|].
    split; [done|]. split; [done|]. split; [done|].
    intros r' Hr' Hp'. apply elem_of_app in Hr' as [Hr'|Hr'].
    { by apply (proj1 (Forall_forall _ _) Hl1) in Hr'. }
    apply elem_of_cons in Hr' as [->|Hr']; [apply Qcle_refl|].
    apply StronglySorted_app in Hsorted as (_ & _ & Hs2).
    apply StronglySorted_inv in Hs2 as [_ Hall].
    by apply (proj1 (Forall_forall _ _) Hall) in Hr'.
Qed.

(** X14 on the small league, with the filter on forwards. *)
Lemma top_performer_is_the_best_shown_witness :
  ∃ df w',
    calculate_rolling_averages (H:=pandas_mergesort) 3 false (env_up snapshot 0) (world_of ∅)
    = (Ok df, w')
    ∧ Player_ID <$> df = [10; 20]
    ∧ Player_ID <$> apply_filters "Forward" 90 (Qc_of_Z 4) (Qc_of_Z 16) df = [20]
    ∧ apply_filters "Forward" 90 (Qc_of_Z 4) (Qc_of_Z 16) df `sublist_of` df.
Proof.
  destruct (calculate_rolling_averages (H:=pandas_mergesort) 3 false (env_up snapshot 0)
              (world_of ∅)) as [[df|e] w'] eqn:Hrun; [|vm_compute in Hrun; discriminate].
  destruct (top_performer_is_the_best_shown (H:=pandas_mergesort) _ _ _ _ _ _
              "Forward" 90 (Qc_of_Z 4) (Qc_of_Z 16) Hrun) as (_ & Hsub & _).
  exists df, w'. split; [done|].
  vm_compute in Hrun. injection Hrun as <- <-.
  split; [reflexivity|]. split; [by vm_compute|exact Hsub].
Defined.

(** ** The team page *)

Lemma find_player_Some players id p :
  find_player players id = Some p → p ∈ players ∧ player_id p = id.
Proof.
  unfold find_player. intros Hh. apply head_Some_elem_of in Hh.
  apply list_elem_of_filter in Hh. tauto.
Qed.

Lemma find_player_known players pick :
  is_Some (find_player players (pick_element pick)) ↔ known_pick players pick.
Proof.
  unfold find_player, known_pick. rewrite head_is_Some. split.
  - intros Hne. destruct (filter _ players) as [|p l] eqn:Hf; [done|].
    assert (Hp : p ∈ filter (λ p, player_id p = pick_element pick) players)
      by (rewrite Hf; left).
    apply list_elem_of_filter in Hp as [<- Hp]. by apply list_elem_of_fmap_2.
  - intros Hk Hf. apply list_elem_of_fmap in Hk as (p & Hid & Hp).
    assert (Hin : p ∈ filter (λ p, player_id p = pick_element pick) players)
      by (by apply list_elem_of_filter).
    rewrite Hf in Hin. by apply elem_of_nil in Hin.
Qed.

(** X15.  On a table with rows, and with team and position lookups that
    succeed, the loop over the picks gives one row per pick whose player the
    snapshot has, in the order of the picks, with the pick's id, captaincy
    flags and multiplier; picks of unknown players are skipped.  The rolling
    average of a row is that of the first row of the table with the id, and
    0 when the table has none. *)
Theorem unknown_picks_are_skipped teams_d players all_players_df picks :
  all_players_df ≠ [] →
  (∀ p, p ∈ players → ¬ lookup_fails teams_d p) →
  ∃ rows,
    team_players teams_d players all_players_df picks [] = Ok rows
    ∧ (λ row, (tp_Player_ID row, tp_Is_Captain row, tp_Is_Vice_Captain row, tp_Multiplier row))
        <$> rows
      = (λ pick, (pick_element pick, is_captain pick, is_vice_captain pick, multiplier pick))
        <$> filter (known_pick players) picks
    ∧ Forall (λ row,
        tp_Rolling_Avg row
        = from_option Rolling_N_Week_Avg (Qc_of_Z 0)
            (head (filter (λ r, Player_ID r = tp_Player_ID row) all_players_df))) rows.
Proof.
  intros Hdf Hok.
  assert (Hgen : ∀ acc, ∃ rows,
    team_players teams_d players all_players_df picks acc = Ok (acc ++ rows)
    ∧ (λ row, (tp_Player_ID row, tp_Is_Captain row, tp_Is_Vice_Captain row, tp_Multiplier row))
        <$> rows
      = (λ pick, (pick_element pick, is_captain pick, is_vice_captain pick, multiplier pick))
        <$> filter (known_pick players) picks
    ∧ Forall (λ row,
        tp_Rolling_Avg row
        = from_option Rolling_N_Week_Avg (Qc_of_Z 0)
            (head (filter (λ r, Player_ID r = tp_Player_ID row) all_players_df))) rows).
  { induction picks as [|pick rest IH]; intros acc.
    { exists []. by rewrite app_nil_r. }
    cbn [team_players]. rewrite filter_cons.
    destruct (find_player players (pick_element pick)) as [p|] eqn:Hfind.
    - destruct (find_player_Some _ _ _ Hfind) as [Hp Hid].
      rewrite decide_True by (apply find_player_known; by rewrite Hfind).
      assert (Hrow : ∃ row, team_player_row teams_d all_players_df pick p = Ok row
                ∧ tp_Player_ID row = pick_element pick
                ∧ tp_Is_Captain row = is_captain pick
                ∧ tp_Is_Vice_Captain row = is_vice_captain pick
                ∧ tp_Multiplier row = multiplier pick
                ∧ tp_Rolling_Avg row
                  = from_option Rolling_N_Week_Avg (Qc_of_Z 0)
                      (head (filter (λ r, Player_ID r = pick_element pick) all_players_df))).
      { unfold team_player_row, player_rolling_data, dict_get.
        destruct all_players_df as [|r0 df]; [done|].
        destruct (teams_d !! team p) as [tn|] eqn:Ht;
          [|by destruct (Hok p Hp); left].
        destruct (positions !! element_type p) as [pos|] eqn:Hpos;
          [|by destruct (Hok p Hp); right].
        cbn [mbind Res_bind]. rewrite Hid.
        destruct (filter _ (r0 :: df)); eexists; by repeat split. }
      destruct Hrow as (row & -> & Hr1 & Hr2 & Hr3 & Hr4 & Hr5).
      cbn [mbind Res_bind].
      destruct (IH (acc ++ [row])) as (rows & -> & Hids & Hall).
      exists (row :: rows). rewrite <-app_assoc. split; [done|]. split.
      + cbn [fmap list_fmap]. rewrite Hr1, Hr2, Hr3, Hr4. f_equal. exact Hids.
      + constructor; [by rewrite Hr1|done].
    - rewrite decide_False by (rewrite <-find_player_known, Hfind; by intros [? ?]).
      apply IH. }
  destruct (Hgen []) as (rows & Hrun & ?). by exists rows.
Qed.

(** X15 on the small league: the pick of the unknown player 99 gives no row,
    and Haaland, who is not in the table, has the average 0. *)
Lemma unknown_picks_are_skipped_witness :
  ∃ rows,
    team_players (teams_dict league_teams) [salah; haaland] salah_table
      squad_with_stranger [] = Ok rows
    ∧ tp_Player_ID <$> rows = [10; 20]
    ∧ Forall (λ row,
        tp_Rolling_Avg row
        = from_option Rolling_N_Week_Avg (Qc_of_Z 0)
            (head (filter (λ r, Player_ID r = tp_Player_ID row) salah_table))) rows.
Proof.
  destruct (unknown_picks_are_skipped (teams_dict league_teams) [salah; haaland] salah_table
              squad_with_stranger) as (rows & Hrun & Hpicks & Havg).
  - discriminate.
  - intros p Hp.
    apply elem_of_cons in Hp as [->|Hp]; [vm_compute; intros [?|?]; discriminate|].
    apply list_elem_of_singleton in Hp as ->. vm_compute. intros [?|?]; discriminate.
  - exists rows. split; [done|]. split; [|done].
    apply (f_equal (fmap (λ x, x.1.1.1))) in Hpicks.
    rewrite <-!list_fmap_compose in Hpicks. exact Hpicks.
Defined.

(** X16.  On a table without rows the loop over the picks raises as soon as a
    pick has a player in the snapshot: the table has no column ['Player_ID'],
    and the fallback reads the column ['Player'], which it has not either
    (or the team lookup fails first).  It returns, without rows, only when
    no pick is known. *)
Theorem empty_table_breaks_the_team_page teams_d players picks :
  (Exists (known_pick players) picks →
   ∃ e, team_players teams_d players [] picks [] = Raise e
        ∧ (e = KeyError "Player" ∨ ∃ k, e = KeyErrorInt k))
  ∧ (¬ Exists (known_pick players) picks →
     team_players teams_d players [] picks [] = Ok []).
Proof.
  generalize (@nil TeamPlayer) as acc.
  induction picks as [|pick rest IH]; intros acc.
  { split; [by intros ?%Exists_nil|done]. }
  cbn [team_players].
  destruct (find_player players (pick_element pick)) as [p|] eqn:Hfind.
  - split.
    + intros _. unfold team_player_row, player_rolling_data, dict_get.
      destruct (teams_d !! team p) as [tn|]; cbn; eexists; (split; [done|]); eauto.
    + intros Hno. destruct Hno. left. apply find_player_known. by rewrite Hfind.
  - destruct (IH acc) as [IH1 IH2]. split.
    + intros [Hk|Hex]%Exists_cons; [|by apply IH1].
      apply find_player_known in Hk. rewrite Hfind in Hk. by destruct Hk.
    + intros Hno. apply IH2. intros Hex. apply Hno. by right.
Qed.

(** X16 on the small league: with an empty table the loop raises at the
    first pick. *)
Lemma empty_table_breaks_the_team_page_witness :
  team_players (teams_dict league_teams) [salah; haaland] [] squad [] = Raise (KeyError "Player").
Proof.
  destruct (proj1 (empty_table_breaks_the_team_page (teams_dict league_teams)
                     [salah; haaland] squad)) as (e & Hrun & _).
  - left. unfold known_pick. left.
  - rewrite Hrun. vm_compute in Hrun. by injection Hrun as <-.
Defined.

(** X17.  The fixture outlook of a team is always defined, the division being
    by the number of a non-empty list; it is 'N/A' exactly when the team has
    no fixture that counts.  The fixtures that count are unfinished ones of
    the next three gameweeks, up to gameweek 38; so from gameweek 38 on every
    team's outlook is 'N/A', black, with no fixtures. *)
Theorem season_end_has_no_outlook fixtures current_gw team_id :
  (∃ o, team_outlook fixtures current_gw team_id = Ok o
        ∧ (avg_difficulty o = NA ↔ team_fixtures fixtures current_gw team_id = [])
        ∧ fixture_count o = length (team_fixtures fixtures current_gw team_id))
  ∧ Forall (λ f, ∃ e, event f = Some e ∧ current_gw < e ≤ current_gw + 3 ∧ e ≤ 38
                      ∧ finished f = false)
      (team_fixtures fixtures current_gw team_id)
  ∧ (38 ≤ current_gw → team_outlook fixtures current_gw team_id = Ok (mkOutlook NA black 0)).
Proof.
  assert (Hall : Forall (λ f, ∃ e, event f = Some e ∧ current_gw < e ≤ current_gw + 3
                                   ∧ e ≤ 38 ∧ finished f = false)
                   (team_fixtures fixtures current_gw team_id)).
  { apply Forall_forall. intros f Hf. apply list_elem_of_filter in Hf as [(_ & Hup & Hfin) _].
    unfold in_upcoming_gws in Hup. destruct (event f) as [e|]; [|done].
    exists e. apply andb_true_iff in Hup as [?%Z.leb_le ?%Z.ltb_lt]. repeat split; try done; lia. }
  split; [|split; [done|]].
  - unfold team_outlook. cbv zeta.
    destruct (team_fixtures fixtures current_gw team_id) as [|f fs]; [by eexists|].
    unfold py_truediv. cbn [length]. rewrite (proj2 (Z.eqb_neq _ 0)) by lia.
    eexists. split; [done|]. by split.
  - intros Hend. unfold team_outlook. cbv zeta.
    destruct (team_fixtures fixtures current_gw team_id) as [|f fs]; [done|].
    apply Forall_cons in Hall as [(e & _ & ? & ? & _) _]. lia.
Qed.

Lemma Qc_div_bounds (total n lo hi : Z) :
  0 < n → lo * n ≤ total → total ≤ hi * n →
  (Qc_of_Z lo ≤ Qc_of_Z total / Qc_of_Z n)%Qc ∧ (Qc_of_Z total / Qc_of_Z n ≤ Qc_of_Z hi)%Qc.
Proof.
  intros Hn Hlo Hhi.
  assert (Hpos : (0 < Qc_of_Z n)%Qc) by (rewrite <-Z2Qc_inj_0; by apply (proj1 (Z2Qc_inj_lt 0 n))).
  assert (Hne : Qc_of_Z n ≠ 0%Qc) by (by apply not_symmetry, Qclt_not_eq).
  split.
  - apply (Qcmult_le_mono_pos_l _ _ (Qc_of_Z n) Hpos).
    rewrite Qcmult_div_r by done. rewrite <-Z2Qc_inj_mul. apply (proj1 (Z2Qc_inj_le _ _)). lia.
  - apply (Qcmult_le_mono_pos_l _ _ (Qc_of_Z n) Hpos).
    rewrite Qcmult_div_r by done. rewrite <-Z2Qc_inj_mul. apply (proj1 (Z2Qc_inj_le _ _)). lia.
Qed.

Lemma total_difficulty_bounds team_id lo hi fs :
  Forall (λ f, lo ≤ difficulty_for team_id f ≤ hi) fs →
  lo * Z.of_nat (length fs) ≤ foldl (λ total f, total + difficulty_for team_id f) 0 fs
  ≤ hi * Z.of_nat (length fs).
Proof.
  assert (Hgen : ∀ acc, Forall (λ f, lo ≤ difficulty_for team_id f ≤ hi) fs →
            acc + lo * Z.of_nat (length fs)
            ≤ foldl (λ total f, total + difficulty_for team_id f) acc fs
            ≤ acc + hi * Z.of_nat (length fs)).
  { induction fs as [|f fs IH]; intros acc Hall; [cbn; lia|].
    apply Forall_cons in Hall as [Hf Hall]. cbn [foldl length].
    specialize (IH (acc + difficulty_for team_id f) Hall). lia. }
  intros Hall. specialize (Hgen 0 Hall). lia.
Qed.

(** X18.  An average difficulty lies between the lowest and the highest
    difficulty of the fixtures it averages; hence the outlook is green when
    no fixture is rated above 2 and red when all are rated above 3. *)
Theorem average_difficulty_is_within_the_ratings fixtures current_gw team_id lo hi o avg :
  Forall (λ f, lo ≤ difficulty_for team_id f ≤ hi) (team_fixtures fixtures current_gw team_id) →
  team_outlook fixtures current_gw team_id = Ok o →
  avg_difficulty o = Average avg →
  (Qc_of_Z lo ≤ avg)%Qc ∧ (avg ≤ Qc_of_Z hi)%Qc
  ∧ (hi ≤ 2 → color o = green)
  ∧ (3 < lo → color o = red).
Proof.
  intros Hall Hrun Havg. unfold team_outlook in Hrun. cbv zeta in Hrun.
  destruct (team_fixtures fixtures current_gw team_id) as [|f fs] eqn:Hfs.
  { injection Hrun as <-. done. }
  unfold py_truediv in Hrun. rewrite (proj2 (Z.eqb_neq _ 0)) in Hrun by (cbn [length]; lia).
  cbn [mbind Res_bind mret Res_ret] in Hrun. injection Hrun as <-.
  cbn in Havg. injection Havg as <-.
  destruct (total_difficulty_bounds team_id lo hi (f :: fs) Hall) as [Hlo Hhi].
  destruct (Qc_div_bounds _ (Z.of_nat (length (f :: fs))) lo hi
              ltac:(cbn [length]; lia) Hlo Hhi) as [Hl Hh].
  split; [done|]. split; [done|]. cbn [color]. split.
  - intros H2. rewrite decide_True; [done|].
    etrans; [exact Hh|]. by apply (proj1 (Z2Qc_inj_le _ _)).
  - intros H3. rewrite decide_False, decide_False; [done|..].
    + apply Qclt_not_le. eapply Qclt_le_trans; [|exact Hl]. apply (proj1 (Z2Qc_inj_lt _ _)). lia.
    + apply Qclt_not_le. eapply Qclt_le_trans; [|exact Hl]. apply (proj1 (Z2Qc_inj_lt _ _)). lia.
Qed.

(** X18 on Liverpool after gameweek 5: two fixtures, both rated 2. *)
Lemma average_difficulty_is_within_the_ratings_witness :
  ∃ o avg,
    team_outlook league_fixtures 5 1 = Ok o
    ∧ fixture_count o = 2%nat
    ∧ avg_difficulty o = Average avg
    ∧ (Qc_of_Z 2 ≤ avg)%Qc ∧ (avg ≤ Qc_of_Z 2)%Qc
    ∧ color o = green.
Proof.
  destruct (team_outlook league_fixtures 5 1) as [o|e] eqn:Ho; [|vm_compute in Ho; discriminate].
  assert (Hcount : fixture_count o = 2%nat).
  { vm_compute in Ho. by injection Ho as <-. }
  destruct (avg_difficulty o) as [|avg] eqn:Ha.
  { exfalso. vm_compute in Ho. injection Ho as <-. discriminate. }
  destruct (average_difficulty_is_within_the_ratings league_fixtures 5 1 2 2 o avg)
    as (Hlo & Hhi & Hgreen & _); [|done|done|].
  - assert (Hfs : team_fixtures league_fixtures 5 1
                  = [mkFixture 2 1 (Some 6) false 2 4; mkFixture 1 2 (Some 7) false 3 2])
      by (by vm_compute).
    rewrite Hfs. repeat (apply Forall_cons; split; [vm_compute; split; discriminate|]).
    constructor.
  - exists o, avg. repeat split; try done. by apply Hgreen.
Defined.

(** ** Alternatives for a player of the squad *)

Lemma insert_by_difficulty_perm alt l : insert_by_difficulty alt l ≡ₚ alt :: l.
Proof.
  induction l as [|h t IH]; [done|]. cbn. case_decide; [done|].
  rewrite IH. apply Permutation_swap.
Qed.

Lemma sort_by_difficulty_perm l : foldr insert_by_difficulty [] l ≡ₚ l.
Proof.
  induction l as [|a l IH]; [done|]. cbn. rewrite insert_by_difficulty_perm. by constructor.
Qed.

Lemma insert_by_difficulty_sorted alt l :
  Sorted (λ a b, sort_difficulty a ≤ sort_difficulty b)%Qc l →
  Sorted (λ a b, sort_difficulty a ≤ sort_difficulty b)%Qc (insert_by_difficulty alt l).
Proof.
  induction 1 as [|h t Hs IH Hhd]; cbn.
  - by repeat constructor.
  - case_decide as Hle.
    + constructor; [by constructor|]. by constructor.
    + assert (Hh : (sort_difficulty h ≤ sort_difficulty alt)%Qc).
      { destruct (Qc_le_total (sort_difficulty h) (sort_difficulty alt)); [done|by destruct Hle]. }
      constructor; [done|].
      destruct Hhd as [|h' t' Hh']; cbn; [by constructor|].
      case_decide; by constructor.
Qed.

Lemma sort_by_difficulty_sorted l :
  Sorted (λ a b, sort_difficulty a ≤ sort_difficulty b)%Qc (foldr insert_by_difficulty [] l).
Proof.
  induction l as [|a l IH]; cbn; [constructor|]. by apply insert_by_difficulty_sorted.
Qed.

Lemma StronglySorted_filter {A} (R : relation A) (P : A → Prop) `{!∀ x, Decision (P x)} l :
  StronglySorted R l → StronglySorted R (filter P l).
Proof.
  induction 1 as [|x l Hs IH Hall]; [constructor|].
  rewrite filter_cons. case_decide; [|done].
  constructor; [done|]. apply Forall_forall. intros y Hy.
  apply list_elem_of_filter in Hy as [_ Hy]. by apply (proj1 (Forall_forall _ _) Hall).
Qed.

(** X19.  The alternatives listed for a player of the squad are the first
    five rows of the table, or all when there are fewer, that have the
    player's position, a strictly higher average and a cost that is no
    higher; they are listed by fixture difficulty, easiest first, 'N/A'
    last.  On a table sorted by average they are the best five: a row that
    qualifies and is not listed averages no more than any that is. *)
Theorem alternatives_are_better_and_no_dearer all_players_df team_difficulties team_player :
  let alts := alternative_details all_players_df team_difficulties team_player in
  let candidates := filter (eligible team_player) all_players_df in
  alts ≡ₚ alternative_detail team_difficulties <$> take 5 candidates
  ∧ length alts = (5 `min` length candidates)%nat
  ∧ (∀ a, a ∈ alts →
       ∃ r, r ∈ all_players_df ∧ eligible team_player r
            ∧ a = alternative_detail team_difficulties r)
  ∧ Sorted (λ a b, sort_difficulty a ≤ sort_difficulty b)%Qc alts
  ∧ (StronglySorted by_avg_desc all_players_df →
     ∀ r, r ∈ all_players_df → eligible team_player r →
          alternative_detail team_difficulties r ∈ alts
          ∨ ∀ a, a ∈ alts → (Rolling_N_Week_Avg r ≤ alt_Rolling_Avg a)%Qc).
Proof.
  intros alts candidates.
  assert (Hperm : alts ≡ₚ alternative_detail team_difficulties <$> take 5 candidates).
  { unfold alts, candidates, alternative_details, alternatives. cbv zeta.
    rewrite list_filter_filter, sort_by_difficulty_perm.
    erewrite (list_filter_iff _ (eligible team_player)); [done|].
    intros r. unfold eligible. tauto. }
  split; [done|]. split; [by rewrite Hperm, length_fmap, length_take|].
  split; [|split].
  - intros a Ha. rewrite Hperm in Ha.
    apply list_elem_of_fmap in Ha as (r & -> & Hr).
    apply elem_of_take in Hr as (i & Hr & _). apply list_elem_of_lookup_2 in Hr.
    apply list_elem_of_filter in Hr as [Hp Hr]. by exists r.
  - apply sort_by_difficulty_sorted.
  - intros Hsorted r Hr Hel.
    assert (Hin : r ∈ candidates) by (by apply list_elem_of_filter).
    apply (StronglySorted_filter _ (eligible team_player)) in Hsorted.
    fold candidates in Hsorted.
    rewrite <-(take_drop 5 candidates) in Hin, Hsorted.
    apply elem_of_app in Hin as [Hin|Hin].
    + left. rewrite Hperm. by apply list_elem_of_fmap_2.
    + right. intros a Ha. rewrite Hperm in Ha.
      apply list_elem_of_fmap in Ha as (x & -> & Hx).
      by apply (StronglySorted_app_1_elem_of _ _ _ _ _ Hsorted).
Qed.

(** X19 on the table with the row of Salah: he is the one alternative for
    a midfielder who averages less and costs more. *)
Lemma alternatives_are_better_and_no_dearer_witness :
  alt_Player <$> alternative_details salah_table ∅ benched_midfielder = ["Salah"].
Proof.
  destruct (alternatives_are_better_and_no_dearer salah_table ∅ benched_midfielder)
    as (Hperm & _).
  assert (Hcand : filter (eligible benched_midfielder) salah_table = salah_table)
    by (by vm_compute).
  rewrite Hcand in Hperm. cbn [salah_table take fmap list_fmap] in Hperm.
  apply Permutation_singleton_r in Hperm. by rewrite Hperm.
Defined.

(** ** Cache management *)

Lemma chars_app s1 s2 : chars (s1 +:+ s2) = chars s1 ++ chars s2.
Proof. apply list_ascii_of_string_app. Qed.

Lemma in_cache_dir_file cache_type :
  "/"%char ∉ chars cache_type →
  in_cache_dir (get_cache_file cache_type) = Some (chars cache_type ++ chars ".json").
Proof.
  intros Hslash. unfold in_cache_dir, get_cache_file. cbv zeta.
  rewrite !chars_app.
  change (chars cache_dir ++ chars "/" ++ chars cache_type ++ chars ".json")
    with ((chars cache_dir ++ chars "/") ++ chars cache_type ++ chars ".json").
  rewrite decide_True by apply prefix_app_r, reflexivity.
  rewrite drop_app_length.
  rewrite decide_False; [done|].
  rewrite elem_of_app. intros [?|Hj]; [done|].
  vm_compute in Hj. by repeat (apply elem_of_cons in Hj as [?|Hj]; [done|]); apply elem_of_nil in Hj.
Qed.

Lemma globbed_file cache_type c :
  "/"%char ∉ chars cache_type →
  head (chars cache_type) = Some c → c ≠ "."%char →
  globbed (get_cache_file cache_type) = true.
Proof.
  intros Hslash Hhd Hc. unfold globbed. rewrite in_cache_dir_file by done.
  unfold glob_star_json, endswith_json. apply andb_true_iff. split.
  - apply bool_decide_eq_true. by apply suffix_app_r.
  - apply bool_decide_eq_true. destruct (chars cache_type); [done|].
    cbn in *. congruence.
Qed.

Lemma digit_no_slash l :
  Forall (λ c, digit_or_dash c = true) l → "/"%char ∉ l.
Proof.
  intros Hall Hin. apply (proj1 (Forall_forall _ _) Hall) in Hin. by vm_compute in Hin.
Qed.

Lemma handler_key_globbed k : handler_key k → globbed (get_cache_file k) = true.
Proof.
  assert (Hlit : ∀ s, "/"%char ∉ chars s ↔ bool_decide ("/"%char ∈ chars s) = false).
  { intros s. by rewrite bool_decide_eq_false. }
  destruct 1 as [| |player_id|team_id gameweek|weeks].
  - apply (globbed_file _ "b"%char); [by apply Hlit|done|done].
  - apply (globbed_file _ "f"%char); [by apply Hlit|done|done].
  - apply (globbed_file _ "p"%char); [|done|done].
    unfold player_cache_key. rewrite chars_app, not_elem_of_app. split; [by apply Hlit|].
    apply digit_no_slash, pretty_Z_chars.
  - apply (globbed_file _ "t"%char); [|done|done].
    unfold team_cache_key. rewrite !chars_app, !not_elem_of_app.
    split; [by apply Hlit|]. split; [apply digit_no_slash, pretty_Z_chars|].
    split; [by apply Hlit|].
    destruct gameweek as [g|]; [destruct (g =? 0)|]; try by apply Hlit.
    apply digit_no_slash, pretty_Z_chars.
  - apply (globbed_file _ "r"%char); [|done|done].
    unfold results_cache_key. rewrite !chars_app, !not_elem_of_app.
    split; [by apply Hlit|]. split; [apply digit_no_slash, pretty_Z_chars|by apply Hlit].
Qed.

Lemma clear_cache_lookup env w path :
  cache (clear_cache env w).2 !! path
  = if globbed path then None else cache w !! path.
Proof.
  cbn. destruct (globbed path) eqn:Hg.
  - apply map_lookup_filter_None. right. intros x _. cbn. by rewrite Hg.
  - destruct (cache w !! path) as [f|] eqn:Hf.
    + by apply map_lookup_filter_Some.
    + apply map_lookup_filter_None. by left.
Qed.

(** X20.  [clear_cache] removes the file of every key the handler uses
    (bootstrap, fixtures, players, teams, results): afterwards none of them
    is found, loads or counts as a valid cache entry; nothing but the cache
    is changed. *)
Theorem clear_cache_removes_every_handler_file env w k :
  handler_key k →
  let w' := (clear_cache env w).2 in
  cache w' !! get_cache_file k = None
  ∧ (∀ h, cache_first k h env w' = (Ok None, w'))
  ∧ load_from_cache k env w' = (Ok None, w')
  ∧ tick w' = tick w ∧ st_log w' = st_log w ∧ http_log w' = http_log w.
Proof.
  intros Hk w'. 
  assert (Hgone : cache w' !! get_cache_file k = None).
  { unfold w'. by rewrite clear_cache_lookup, handler_key_globbed. }
  split; [done|]. split; [intros h; by apply cache_first_missing|].
  split; [by apply load_from_cache_missing|done].
Qed.

(** X20 on the full cache of the small league: the history of Salah is
    gone. *)
Lemma clear_cache_removes_every_handler_file_witness :
  cache_full !! get_cache_file (player_cache_key 10)
  = Some (mkCacheFile 0 (Some (DocHistory (Some salah_games))))
  ∧ cache (clear_cache (env_down 0) (world_of cache_full)).2
      !! get_cache_file (player_cache_key 10) = None.
Proof.
  split; [vm_compute; reflexivity|].
  exact (proj1 (clear_cache_removes_every_handler_file (env_down 0) (world_of cache_full)
                  (player_cache_key 10) (key_player 10))).
Defined.

(** X21.  After [clear_cache], a run without network has nothing to fall
    back on: [calculate_rolling_averages] shows the two error messages and
    returns the empty table, whatever the cache held before. *)
Theorem refresh_without_network_leaves_no_table `{Pandas} weeks use_progress env w :
  let w' := (clear_cache env w).2 in
  remote env (tick w) bootstrap_url = None →
  calculate_rolling_averages weeks use_progress env w'
  = (Ok [], shown (st_error "Could not load FPL data. Check your internet connection.")
              (shown (st_error "Error fetching bootstrap data")
                 (requested bootstrap_url w'))).
Proof.
  intros w' Hdown.
  apply (calculate_without_snapshot _ _ _ _ None); [|done].
  apply get_bootstrap_data_nothing; [|done].
  unfold w'. by rewrite clear_cache_lookup, (handler_key_globbed _ key_bootstrap).
Qed.

(** X21 on the full cache of the small league, the service down. *)
Lemma refresh_without_network_leaves_no_table_witness :
  ∃ w', calculate_rolling_averages (H:=pandas_mergesort) 3 true (env_down 10)
          (clear_cache (env_down 10) (world_of cache_full)).2 = (Ok [], w')
        ∧ http_log w' = [bootstrap_url].
Proof.
  eexists. split.
  - apply (refresh_without_network_leaves_no_table (H:=pandas_mergesort) 3 true (env_down 10)
             (world_of cache_full)). reflexivity.
  - reflexivity.
Defined.

(** X22.  [get_cache_info] counts hidden files that [clear_cache] does not
    remove: after [clear_cache] it gives the number of files of the
    directory whose names start with a dot and end with [.json].  When the
    directory holds only files of the handler's keys, it counts all of them
    before and none after. *)
Theorem cache_info_after_clear_counts_hidden_files env w :
  let w' := (clear_cache env w).2 in
  (get_cache_info env w').1
  = Ok (size (filter (λ path, counted path = true ∧ hidden path = true) (dom (cache w))))
  ∧ ((∀ path, path ∈ dom (cache w) → ∃ k, handler_key k ∧ path = get_cache_file k) →
     (get_cache_info env w').1 = Ok 0%nat
     ∧ (get_cache_info env w).1 = Ok (size (dom (cache w)))).
Proof.
  intros w'.
  assert (Hset : filter (λ path, counted path = true) (dom (cache w'))
                 = filter (λ path, counted path = true ∧ hidden path = true) (dom (cache w))).
  { apply set_eq. intros path. rewrite !elem_of_filter, !elem_of_dom.
    unfold w'. rewrite clear_cache_lookup.
    unfold globbed, counted, hidden, glob_star_json.
    destruct (in_cache_dir path) as [name|]; [|cbn; split; intros H'; [by destruct H' as [? _]|by destruct H' as [[? _] _]]].
    destruct (endswith_json name); cbn [andb].
    - destruct (decide (head name = Some "."%char)) as [Hh|Hh].
      + rewrite (bool_decide_eq_false_2 (head name ≠ Some "."%char)) by tauto.
        rewrite (bool_decide_eq_true_2 _ Hh). tauto.
      + rewrite (bool_decide_eq_true_2 (head name ≠ Some "."%char)) by done.
        rewrite (bool_decide_eq_false_2 _ Hh). split; [intros [_ [? ?]]; done|intros [[_ ?] _]; done].
    - split; [intros [? _]; done|intros [[? _] _]; done]. }
  split; [unfold get_cache_info; cbn [fst]; by rewrite Hset|].
  intros Hall. split.
  - unfold get_cache_info. cbn [fst]. rewrite Hset. f_equal.
    apply size_empty_iff, elem_of_equiv_empty. intros path. rewrite elem_of_filter. intros [[Hc Hh] Hin].
    destruct (Hall _ Hin) as (k & Hk & ->).
    pose proof (handler_key_globbed _ Hk) as Hg. unfold globbed, hidden, glob_star_json in *.
    destruct (in_cache_dir (get_cache_file k)); [|done].
    apply andb_true_iff in Hg as [_ Hg]. apply bool_decide_eq_true in Hg, Hh. done.
  - unfold get_cache_info. cbn [fst]. do 2 f_equal. apply set_eq. intros path.
    rewrite elem_of_filter.
    split; [tauto|]. intros Hin. split; [|done].
    destruct (Hall _ Hin) as (k & Hk & ->).
    pose proof (handler_key_globbed _ Hk) as Hg. unfold globbed, counted, glob_star_json in *.
    destruct (in_cache_dir (get_cache_file k)); [|done].
    by apply andb_true_iff in Hg as [? _].
Qed.

(** X22 on the full cache of the small league: three files before, none
    after. *)
Lemma cache_info_after_clear_counts_hidden_files_witness :
  (get_cache_info (env_down 0) (world_of cache_full)).1 = Ok 3%nat
  ∧ (get_cache_info (env_down 0) (clear_cache (env_down 0) (world_of cache_full)).2).1
    = Ok 0%nat.
Proof.
  destruct (proj2 (cache_info_after_clear_counts_hidden_files (env_down 0)
                     (world_of cache_full))) as [Hafter Hbefore].
  - intros path Hin. unfold world_of, cache_full, cache_snapshot in Hin. cbn [cache] in Hin.
    rewrite !dom_insert_L, dom_singleton_L in Hin.
    apply elem_of_union in Hin as [Hin|Hin]; [|apply elem_of_union in Hin as [Hin|Hin]];
      apply elem_of_singleton in Hin as ->; eexists; (split; [|reflexivity]); constructor.
  - split; [|exact Hafter]. rewrite Hbefore. by vm_compute.
Defined.

(** * The window of every player *)

(** The document a call of [get_player_history] returns is the one the cache
    holds for the player afterwards, or both are nothing. *)
Lemma get_player_history_cached id env w hd w' :
  get_player_history id env w = (Ok hd, w') →
  (py_truthy hd = true → cached_doc (cache w') (player_cache_key id) = hd)
  ∧ (py_truthy hd = false →
     py_truthy (cached_doc (cache w') (player_cache_key id)) = false).
Proof.
  intros Hrun. destruct (py_truthy hd) eqn:Ht.
  - split; [intros _|done]. destruct hd as [d|]; [|done].
    destruct (get_player_history_answer _ _ _ _ _ Hrun) as (f & Hf & Hd).
    unfold cached_doc. by rewrite Hf.
  - split; [done|intros _]. revert Hrun.
    unfold get_player_history. cbv zeta. rewrite bind_run.
    destruct (cache_first _ 24 env w) as [r w0] eqn:Hcf.
    apply cache_first_inv in Hcf
      as (Hc0 & _ & _ & [(d' & f & -> & _ & _ & Htr & _ & ->)| ->]).
    { intros [= <- <-]. by rewrite Htr in Ht. }
    rewrite bind_run. unfold requests_get at 1.
    destruct (remote env (tick w0) _) as [data|].
    + cbn. intros [= <- <-]. unfold cached_doc. cbn [cache written ticked requested].
      by rewrite lookup_insert_eq.
    + rewrite bind_run. unfold load_from_cache, cached_doc.
      cbn [cache requested]. rewrite Hc0.
      destruct (cache w !! _) as [f|] eqn:Hf.
      * destruct (content f) as [d|] eqn:Hd.
        -- destruct (py_truthy (Some d)) eqn:Hdt; cbn; intros [= <- <-].
           ++ by rewrite Hdt in Ht.
           ++ cbn. by rewrite Hc0, Hf; cbn; rewrite Hd.
        -- cbn. intros [= <- <-]. cbn. by rewrite Hc0, Hf; cbn; rewrite Hd.
      * cbn. intros [= <- <-]. cbn. by rewrite Hc0, Hf.
Qed.

Lemma loop_body_on_cache weeks up gw teams_d n i p st env w st' w' :
  loop_body weeks up gw teams_d n i p st env w = (Ok st', w') →
  iteration_result weeks gw teams_d p st
    (cached_doc (cache w') (player_cache_key (player_id p))) = Ok st'.
Proof.
  intros Hrun.
  destruct (teams_d !! team p) as [tn|] eqn:Ht; cycle 1.
  { destruct (loop_body_lookup_error weeks up gw teams_d n i p st env w) as [k Hk];
      [by left|]. by rewrite Hk in Hrun. }
  destruct (positions !! element_type p) as [pos|] eqn:Hp; cycle 1.
  { destruct (loop_body_lookup_error weeks up gw teams_d n i p st env w) as [k Hk];
      [by right|]. by rewrite Hk in Hrun. }
  destruct (loop_body_fetches weeks up gw teams_d n i p st env w _ _ Ht Hp)
    as (hd & w2 & Hget & Hbody).
  rewrite Hbody in Hrun. injection Hrun as Hfin <-.
  unfold iteration_result, dict_get. rewrite Ht, Hp. cbn [mbind Res_bind].
  destruct (get_player_history_cached _ _ _ _ _ Hget) as [Hsame Hnone].
  destruct (py_truthy hd) eqn:Htr.
  - by rewrite Hsame.
  - rewrite finish_player_falsy in Hfin by done.
    by rewrite finish_player_falsy by auto.
Qed.

Lemma players_loop_frame_player weeks up gw teams_d n players id :
  ∀ i st env w r w',
  players_loop weeks up gw teams_d n i players st env w = (r, w') →
  id ∉ player_id <$> players →
  cache w' !! get_cache_file (player_cache_key id)
  = cache w !! get_cache_file (player_cache_key id).
Proof.
  induction players as [|p rest IH]; intros i st env w r w' Hrun Hid.
  { by injection Hrun as _ <-. }
  cbn [players_loop] in Hrun. rewrite bind_run in Hrun.
  rewrite fmap_cons in Hid. apply not_elem_of_cons in Hid as [Hne Hid].
  assert (Hpath : get_cache_file (player_cache_key id)
                  ≠ get_cache_file (player_cache_key (player_id p))).
  { intros Heq. by apply get_cache_file_inj, player_cache_key_inj in Heq. }
  destruct (loop_body weeks up gw teams_d n i p st env w) as [[st1|e] w1] eqn:Hbody.
  - rewrite (IH _ _ _ _ _ _ Hrun Hid). by eapply loop_body_frame.
  - injection Hrun as _ <-. by eapply loop_body_frame.
Qed.

(** With no id twice among the players, the loop has computed what the pure
    loop computes from the cache it leaves. *)
Lemma players_loop_on_cache weeks up gw teams_d n players :
  ∀ i st env w st' w',
  NoDup (player_id <$> players) →
  players_loop weeks up gw teams_d n i players st env w = (Ok st', w') →
  loop_on_cache weeks gw teams_d (cache w') players st = Ok st'.
Proof.
  induction players as [|p rest IH]; intros i st env w st' w' Hnd Hrun.
  { by injection Hrun as <- _. }
  cbn [players_loop] in Hrun. rewrite bind_run in Hrun.
  rewrite fmap_cons in Hnd. apply NoDup_cons in Hnd as [Hp Hnd].
  destruct (loop_body weeks up gw teams_d n i p st env w) as [[st1|e] w1] eqn:Hbody; [|done].
  cbn [loop_on_cache]. unfold cached_doc.
  rewrite (players_loop_frame_player _ _ _ _ _ _ _ _ _ _ _ _ _ Hrun Hp).
  apply loop_body_on_cache in Hbody. unfold cached_doc in Hbody. rewrite Hbody.
  cbn [mbind Res_bind]. by eapply IH.
Qed.

Lemma iteration_result_row weeks gw teams_d c p st st' :
  weeks ≠ 0 →
  iteration_result weeks gw teams_d p st (cached_doc c (player_cache_key (player_id p)))
  = Ok st' →
  (∃ team_name position,
     teams_d !! team p = Some team_name ∧ positions !! element_type p = Some position)
  ∧ results st' = results st ++ option_list (cache_row weeks gw teams_d c p).
Proof.
  intros Hw. unfold iteration_result, cache_row, dict_get. cbv zeta.
  destruct (teams_d !! team p) as [tn|]; [|done].
  destruct (positions !! element_type p) as [pos|]; [|done].
  cbn [mbind Res_bind option_bind]. rewrite finish_player_cases by done.
  intros [= <-]. split; [by eexists _, _|].
  destruct (py_truthy _ && _); cbn; [done|by rewrite app_nil_r].
Qed.

Lemma loop_on_cache_rows weeks gw teams_d c players :
  ∀ st st',
  weeks ≠ 0 →
  loop_on_cache weeks gw teams_d c players st = Ok st' →
  Forall (λ p, ∃ team_name position,
            teams_d !! team p = Some team_name
            ∧ positions !! element_type p = Some position) players
  ∧ results st' = results st ++ omap (cache_row weeks gw teams_d c) players.
Proof.
  induction players as [|p rest IH]; intros st st' Hw Hrun.
  { injection Hrun as <-. by rewrite app_nil_r. }
  cbn [loop_on_cache] in Hrun.
  destruct (iteration_result weeks gw teams_d p st _) as [st1|e] eqn:Hit; [|done].
  cbn [mbind Res_bind] in Hrun.
  apply iteration_result_row in Hit as [Hlook Hres]; [|done].
  apply IH in Hrun as [Hall Hrest]; [|done].
  split; [by constructor|]. rewrite Hrest, Hres, <-app_assoc. f_equal.
  cbn [omap list_omap]. by destruct (cache_row weeks gw teams_d c p).
Qed.

Lemma cache_row_id weeks gw teams_d c p r :
  cache_row weeks gw teams_d c p = Some r → Player_ID r = player_id p.
Proof.
  unfold cache_row. cbv zeta.
  destruct (teams_d !! team p); [|done]. destruct (positions !! element_type p); [|done].
  cbn. destruct (py_truthy _ && _); [|done]. by intros [= <-].
Qed.

(** The rows of a player among the rows of players without a repeated id. *)
Lemma rows_of_player (f : Player → option Summary) players p :
  (∀ q r, f q = Some r → Player_ID r = player_id q) →
  NoDup (player_id <$> players) → p ∈ players →
  filter (λ r, Player_ID r = player_id p) (omap f players) = option_list (f p).
Proof.
  intros Hid.
  assert (Hnone : ∀ l, player_id p ∉ player_id <$> l →
            filter (λ r, Player_ID r = player_id p) (omap f l) = []).
  { induction l as [|q l IH]; intros Hq; [done|].
    rewrite fmap_cons in Hq. apply not_elem_of_cons in Hq as [Hne Hq].
    cbn [omap list_omap]. destruct (f q) as [r|] eqn:Hf; [|by apply IH].
    rewrite filter_cons_False; [by apply IH|]. by rewrite (Hid _ _ Hf). }
  induction players as [|q rest IH]; intros Hnd Hp; [by apply elem_of_nil in Hp|].
  rewrite fmap_cons in Hnd. apply NoDup_cons in Hnd as [Hq Hnd]. cbn [omap list_omap].
  apply elem_of_cons in Hp as [->|Hp].
  - destruct (f q) as [r|] eqn:Hf; cbn [option_list].
    + rewrite filter_cons_True by by apply Hid. by rewrite Hnone.
    + by apply Hnone.
  - assert (Hids : player_id q ≠ player_id p).
    { intros Heq. apply Hq. rewrite Heq. by apply list_elem_of_fmap_2. }
    destruct (f q) as [r|] eqn:Hf; [|by apply IH].
    rewrite filter_cons_False; [by apply IH|]. by rewrite (Hid _ _ Hf).
Qed.

(** C1.  In a run of [calculate_rolling_averages] for a window [weeks] of at
    least one gameweek that reaches the loop (the snapshot has a current
    gameweek and no player id twice) and returns a table, the history of a
    player is the document that the run obtained for the player and left in
    the cache (fetched and saved, or served from the cache).  Every row of
    the table is the row of a player of the snapshot, and for every player
    of the snapshot, with [recent] the qualifying games of the history
    (minutes > 0, round <= current gameweek) in the order of rounds, latest
    first: if the player has at least [weeks] of them, the table has exactly
    one row of the player, whose sums run over the first [weeks] games of
    [recent] and no others; if the player has fewer, the table has no row
    of the player. *)
Theorem window_is_exact `{Pandas} weeks use_progress env w b w1 gw df w' :
  0 < weeks →
  get_bootstrap_data env w = (Ok (Some (DocBootstrap b)), w1) →
  find_current (events b) = Some gw → gw ≠ 0 →
  NoDup (player_id <$> elements b) →
  calculate_rolling_averages weeks use_progress env w = (Ok df, w') →
  (∀ r, r ∈ df → ∃ p, p ∈ elements b ∧ Player_ID r = player_id p)
  ∧ ∀ p, p ∈ elements b →
      let history :=
        doc_history (cached_doc (cache w') (player_cache_key (player_id p))) in
      let recent := recent_games gw history in
      let window := take (Z.to_nat weeks) recent in
      recent ≡ₚ qualifying gw history
      ∧ latest_first recent
      ∧ (weeks ≤ Z.of_nat (length recent) →
           Z.of_nat (length window) = weeks
           ∧ ∃ r, filter (λ r, Player_ID r = player_id p) df = [r]
                  ∧ Last_N_GW_Points r = py_sum total_points window
                  ∧ Total_Minutes r = py_sum minutes window
                  ∧ Goals r = py_sum goals_scored window
                  ∧ Assists r = py_sum assists window
                  ∧ Bonus_Points r = py_sum bonus window)
      ∧ (Z.of_nat (length recent) < weeks →
           ∀ r, r ∈ df → Player_ID r ≠ player_id p).
Proof.
  intros Hw Hget Hgw Hgw0 Hnd Hrun.
  rewrite (calculate_with_snapshot _ _ _ _ b w1), Hgw in Hrun by done.
  rewrite (proj2 (Z.eqb_neq gw 0)) in Hrun by done.
  destruct (players_loop _ _ _ _ _ _ _ _ _ _) as [[st|e] w2] eqn:Hloop; [|done].
  set (teams_d := teams_dict (teams b)) in *.
  assert (Hrows : ∃ rows, df ≡ₚ rows ∧ results st = rows
            ∧ ∀ id, cache w' !! get_cache_file (player_cache_key id)
                    = cache w2 !! get_cache_file (player_cache_key id)).
  { destruct (results st) as [|r0 rs] eqn:Hst; injection Hrun as <- <-.
    - exists []. split; [done|]. split; [done|]. intros id. by rewrite done_world_cache.
    - exists (r0 :: rs). split; [apply sort_values_perm|]. split; [done|].
      intros id. unfold saved_world. cbn [cache written ticked].
      rewrite lookup_insert_ne by apply not_eq_sym, file_ne_player_results.
      by rewrite done_world_cache. }
  destruct Hrows as (rows & Hperm & Hres & Hcache).
  apply players_loop_on_cache in Hloop; [|done].
  apply loop_on_cache_rows in Hloop as [Hlook Hloop]; [|lia].
  rewrite Hres in Hloop. cbn [results app] in Hloop.
  assert (Hcr : ∀ p, cache_row weeks gw teams_d (cache w2) p
                     = cache_row weeks gw teams_d (cache w') p).
  { intros p. unfold cache_row, cached_doc. by rewrite Hcache. }
  split.
  - intros r Hr. rewrite Hperm, Hloop in Hr.
    apply list_elem_of_omap in Hr as (p & Hp & Hrow).
    exists p. split; [done|]. by apply cache_row_id in Hrow.
  - intros p Hp. cbv zeta.
    split; [apply sort_by_round_desc_perm|]. split; [apply sort_by_round_desc_sorted|].
    assert (Hfilter : filter (λ r, Player_ID r = player_id p) df
                      ≡ₚ option_list (cache_row weeks gw teams_d (cache w') p)).
    { rewrite Hperm, Hloop, <-Hcr.
      rewrite (rows_of_player _ _ p); [done| |done|done].
      intros q r. apply cache_row_id. }
    destruct (proj1 (Forall_forall _ _) Hlook p Hp) as (tn & pos & Ht & Hpos).
    unfold cache_row in Hfilter. cbv zeta in Hfilter.
    rewrite Ht, Hpos in Hfilter. cbn [mbind option_bind] in Hfilter.
    set (hd := cached_doc (cache w') (player_cache_key (player_id p))) in *.
    split.
    + intros Hlen.
      assert (Htr : py_truthy hd = true).
      { destruct (py_truthy hd) eqn:Htr; [done|].
        rewrite (doc_history_falsy hd) in Hlen by done. cbn in Hlen. lia. }
      rewrite Htr, (proj2 (Z.leb_le _ _) Hlen) in Hfilter. cbn [andb option_list] in Hfilter.
      apply Permutation_singleton_r in Hfilter.
      rewrite py_slice_to_take in Hfilter by lia.
      split; [rewrite length_take; lia|]. eexists. split; [exact Hfilter|done].
    + intros Hlen.
      rewrite (proj2 (Z.leb_gt _ _) Hlen), andb_false_r in Hfilter.
      cbn [option_list] in Hfilter. apply Permutation_nil_r in Hfilter.
      intros r Hr Hid.
      assert (Hin : r ∈ filter (λ r, Player_ID r = player_id p) df)
        by (by apply list_elem_of_filter).
      rewrite Hfilter in Hin. by apply elem_of_nil in Hin.
Qed.

(** C1 on the small league, window 3, gameweek 5: the table has one row of
    Salah, of 5 points. *)
Lemma window_is_exact_witness :
  ∃ df w' r,
    calculate_rolling_averages (H:=pandas_mergesort) 3 false (env_up snapshot 0) (world_of ∅)
    = (Ok df, w')
    ∧ filter (λ r, Player_ID r = 10) df = [r]
    ∧ Last_N_GW_Points r = 5.
Proof.
  destruct (calculate_rolling_averages (H:=pandas_mergesort) 3 false (env_up snapshot 0)
              (world_of ∅)) as [[df|e] w'] eqn:Hrun; [|vm_compute in Hrun; discriminate].
  destruct (window_is_exact (H:=pandas_mergesort) 3 false (env_up snapshot 0) (world_of ∅)
              snapshot
              (written (get_cache_file "bootstrap") (mkCacheFile 0 (Some (DocBootstrap snapshot)))
                 (ticked (requested bootstrap_url (world_of ∅)))) 5 df w')
    as [_ Hplayers]; [lia | reflexivity | reflexivity | lia | | exact Hrun |].
  { apply NoDup_cons. split; [by intros [=]%list_elem_of_singleton|]. apply NoDup_singleton. }
  destruct (Hplayers salah) as (_ & _ & Hrow & _); [left|].
  assert (Hcache : cached_doc (cache w') (player_cache_key 10)
                   = Some (DocHistory (Some salah_games))).
  { vm_compute in Hrun. by injection Hrun as _ <-. }
  cbn [player_id salah] in Hrow. rewrite Hcache in Hrow.
  destruct Hrow as (_ & r & Hfilter & Hpts & _); [vm_compute; discriminate|].
  exists df, w', r. split; [done|]. split; [done|]. by rewrite Hpts.
Defined.
